(** * waste_backend: the request handlers of [index.js]

    A shallow embedding of the Express handlers of [index.js] (register,
    login, collection create / list / list-by-user, list users) together
    with the part of the JavaScript runtime and of the Mongoose document
    layer that the handlers exercise.

    - JSON request bodies are values of [JsValue]; property reads that miss
      give [JUndefined].
    - The handlers run in a small state-and-exception monad [M] over a
      [World]: the two Mongo collections, the server clock, the ObjectId
      counter, the salt counter, the schedule of store faults and the
      console.
    - Primitives that live outside the repository (bcrypt, jsonwebtoken,
      [Date.parse], number printing, ...) are the fields of a [Host]. *)

From Stdlib Require Import List String Ascii ZArith QArith Qabs Bool Lia.
From Stdlib Require Import Sorted Permutation DecimalString.
Import ListNotations.

Local Close Scope Q_scope.
Local Open Scope list_scope.
Local Open Scope string_scope.

(* ================================================================== *)
(** ** JavaScript values *)

(** A JavaScript number: no arithmetic is done on numbers by the
    handlers, so a finite double is kept as the rational it denotes. *)
Inductive JsNumber : Type :=
| NaN
| Infinity (negative : bool)
| Finite (q : Q).

#[warnings="-register-all"]
Inductive JsValue : Type :=
| JUndefined
| JNull
| JBool (b : bool)
| JNum (n : JsNumber)
| JStr (s : string)
| JArr (items : list JsValue)
| JObj (props : list (string * JsValue)).

(** [new Date(...)] objects: the time value in milliseconds, [None] for
    an Invalid Date (time value NaN). *)
Definition JsDate : Type := option Z.

Record JsError : Type := mkError {
  err_name : string;
  err_message : string;
  err_stack : string
}.

Definition Result (A : Type) : Type := (JsError + A)%type.

(** ToBoolean. *)
Definition number_truthy (n : JsNumber) : bool :=
  match n with
  | NaN => false
  | Infinity _ => true
  | Finite q => negb (Qeq_bool q 0)
  end.

Definition truthy (v : JsValue) : bool :=
  match v with
  | JUndefined | JNull => false
  | JBool b => b
  | JNum n => number_truthy n
  | JStr s => negb (s =? "")
  | JArr _ | JObj _ => true
  end.

(** [!v] *)
Definition js_not (v : JsValue) : bool := negb (truthy v).

(** Property read on a parsed JSON object: the bound value, or
    [undefined]. *)
Fixpoint lookup (k : string) (props : list (string * JsValue)) : JsValue :=
  match props with
  | [] => JUndefined
  | (k', v) :: rest => if k' =? k then v else lookup k rest
  end.

Definition has_key (k : string) (props : list (string * JsValue)) : bool :=
  existsb (fun kv => fst kv =? k) props.

Definition keys (props : list (string * JsValue)) : list string :=
  map fst props.

(** [haystack.includes(needle)] *)
Fixpoint includes (haystack needle : string) : bool :=
  if String.prefix needle haystack then true
  else match haystack with
       | EmptyString => false
       | String _ rest => includes rest needle
       end.

(* ================================================================== *)
(** ** The world and the handler monad *)

(** A stored user document (schema [userSchema], collection "log"). *)
Record UserDoc : Type := mkUser {
  u_id : string;
  u_name : string;
  u_email : string;
  u_password : string;
  u_phone : string;
  u_createdAt : Z;
  u_v : nat
}.

(** A stored collection document (schema [collectionSchema]). *)
Record CollectionDoc : Type := mkCollection {
  c_id : string;
  c_userId : string;
  c_userName : string;
  c_wasteType : string;
  c_location : string;
  c_address : string;
  c_dateTime : Z;
  c_kilograms : JsNumber;
  c_rewardPoints : JsNumber;
  c_status : string;
  c_createdAt : Z;
  c_v : nat
}.

Inductive LogLine : Type :=
| LogValue (label : string) (v : JsValue)
| LogError (label : string) (e : JsError).

Record World : Type := mkWorld {
  users : list UserDoc;               (* natural (insertion) order *)
  collections : list CollectionDoc;   (* natural (insertion) order *)
  now : Z;                            (* the server clock, in ms *)
  next_oid : nat;                     (* ObjectIds generated so far *)
  entropy : nat;                      (* salts drawn so far *)
  faults : list (option JsError);     (* what each coming store call does *)
  console : list LogLine
}.

Definition set_users (f : list UserDoc -> list UserDoc) (w : World) : World :=
  mkWorld (f (users w)) (collections w) (now w) (next_oid w) (entropy w)
          (faults w) (console w).
Definition set_collections (f : list CollectionDoc -> list CollectionDoc)
           (w : World) : World :=
  mkWorld (users w) (f (collections w)) (now w) (next_oid w) (entropy w)
          (faults w) (console w).
Definition set_next_oid (n : nat) (w : World) : World :=
  mkWorld (users w) (collections w) (now w) n (entropy w) (faults w)
          (console w).
Definition set_entropy (n : nat) (w : World) : World :=
  mkWorld (users w) (collections w) (now w) (next_oid w) n (faults w)
          (console w).
Definition set_faults (l : list (option JsError)) (w : World) : World :=
  mkWorld (users w) (collections w) (now w) (next_oid w) (entropy w) l
          (console w).
Definition set_console (l : list LogLine) (w : World) : World :=
  mkWorld (users w) (collections w) (now w) (next_oid w) (entropy w)
          (faults w) l.

(** A computation either throws or returns, and leaves a world. *)
Definition M (A : Type) : Type := World -> Result A * World.

Definition ret {A} (a : A) : M A := fun w => (inr a, w).
Definition throw {A} (e : JsError) : M A := fun w => (inl e, w).
Definition bind {A B} (m : M A) (k : A -> M B) : M B :=
  fun w => match m w with
           | (inl e, w') => (inl e, w')
           | (inr a, w') => k a w'
           end.
(** [try { body } catch (error) { handler }] *)
Definition try_catch {A} (body : M A) (handler : JsError -> M A) : M A :=
  fun w => match body w with
           | (inl e, w') => handler e w'
           | (inr a, w') => (inr a, w')
           end.
Definition gets {A} (f : World -> A) : M A := fun w => (inr (f w), w).
Definition modify (f : World -> World) : M unit := fun w => (inr tt, f w).
Definition lift {A} (r : Result A) : M A := fun w => (r, w).

Declare Scope js_scope.
Delimit Scope js_scope with js.
Notation "x <- m ;; k" := (bind m (fun x => k))
  (at level 61, m at next level, right associativity) : js_scope.
Notation "m ;;; k" := (bind m (fun _ => k))
  (at level 61, right associativity) : js_scope.
Local Open Scope js_scope.

Definition console_log (label : string) (v : JsValue) : M unit :=
  modify (fun w => set_console (console w ++ [LogValue label v])%list w).
Definition console_error (label : string) (e : JsError) : M unit :=
  modify (fun w => set_console (console w ++ [LogError label e])%list w).

(** One round trip to the store: it may fail with the scheduled error. *)
Definition store_call : M unit :=
  fun w => match faults w with
           | [] => (inr tt, w)
           | None :: rest => (inr tt, set_faults rest w)
           | Some e :: rest => (inl e, set_faults rest w)
           end.

(** The HTTP response, [res.status(code).json(body)]: the status code and
    the value handed to [json], with documents, dates and ObjectIds in
    their [toJSON] form. *)
Record Response : Type := mkResponse {
  status : nat;
  body : JsValue
}.

(** Mongoose's view of a value assigned to a schema path. *)
Inductive Cast (A : Type) : Type :=
| Valid (a : A)     (* cast to the path's type *)
| Absent            (* null or undefined *)
| Invalid.          (* CastError *)
Arguments Valid {A} a.
Arguments Absent {A}.
Arguments Invalid {A}.

(** The document built by [new User({...})], before it is saved. *)
Record UserDraft : Type := mkUserDraft {
  ud_id : string;
  ud_name : Cast string;
  ud_email : Cast string;
  ud_password : Cast string;
  ud_phone : Cast string;
  ud_createdAt : Z
}.

(** The document built by [new Collection({...})], before it is saved. *)
Record CollectionDraft : Type := mkCollectionDraft {
  cd_id : string;
  cd_userId : Cast string;
  cd_userName : Cast string;
  cd_wasteType : Cast string;
  cd_location : Cast string;
  cd_address : Cast string;
  cd_dateTime : Cast Z;
  cd_kilograms : Cast JsNumber;
  cd_rewardPoints : Cast JsNumber;
  cd_status : string;
  cd_createdAt : Cast Z
}.

Definition is_nan (n : JsNumber) : bool :=
  match n with NaN => true | _ => false end.

Definition nonempty (s : string) : bool := negb (s =? "").

(** What the [required] validator and the cast report for one path. *)
Definition path_failures {A} (kind path : string) (present : A -> bool)
           (c : Cast A) : list (string * string) :=
  match c with
  | Valid a => if present a then []
               else [(path, "Path `" ++ path ++ "` is required.")]
  | Absent => [(path, "Path `" ++ path ++ "` is required.")]
  | Invalid => [(path, "Cast to " ++ kind ++ " failed at path " ++ path)]
  end.

(** A path that passes validation, with its value. *)
Definition accepted {A} (present : A -> bool) (c : Cast A) : option A :=
  match c with
  | Valid a => if present a then Some a else None
  | Absent | Invalid => None
  end.

Definition always {A} (_ : A) : bool := true.

Fixpoint join_failures (l : list (string * string)) : string :=
  match l with
  | [] => ""
  | [(p, m)] => p ++ ": " ++ m
  | (p, m) :: rest => p ++ ": " ++ m ++ ", " ++ join_failures rest
  end.

(** [JSON.stringify] leaves out keys whose value is [undefined]; the
    [-password] projection leaves out one key. *)
Fixpoint remove_key (k : string) (props : list (string * JsValue))
  : list (string * JsValue) :=
  match props with
  | [] => []
  | (k', v) :: rest =>
      if k' =? k then remove_key k rest else (k', v) :: remove_key k rest
  end.

Definition project_out (k : string) (v : JsValue) : JsValue :=
  match v with
  | JObj props => JObj (remove_key k props)
  | _ => v
  end.

(** [.sort({ createdAt: -1 })]: most recent first. Among documents with
    equal stamps the store decides; [rank] is its choice for the query
    (lower rank first, natural order where ranks agree). *)
Definition listed_before (rank : CollectionDoc -> nat) (d x : CollectionDoc)
  : bool :=
  (c_createdAt x <? c_createdAt d)%Z
  || ((c_createdAt x =? c_createdAt d)%Z && (rank d <=? rank x)%nat).

Fixpoint insert_desc (rank : CollectionDoc -> nat) (d : CollectionDoc)
         (l : list CollectionDoc) : list CollectionDoc :=
  match l with
  | [] => [d]
  | x :: rest =>
      if listed_before rank d x then d :: x :: rest
      else x :: insert_desc rank d rest
  end.

Fixpoint sort_createdAt_desc (rank : CollectionDoc -> nat)
         (l : list CollectionDoc) : list CollectionDoc :=
  match l with
  | [] => []
  | d :: rest => insert_desc rank d (sort_createdAt_desc rank rest)
  end.

(* ================================================================== *)
(** ** The host: primitives from outside the repository *)

Record Host : Type := mkHost {
  (** [Number(s)] on a string (ECMAScript StringToNumber) *)
  string_to_number : string -> JsNumber;
  (** [String(n)] on a number *)
  number_to_string : JsNumber -> string;
  (** [Date.parse(s)]; [None] is NaN *)
  date_parse : string -> option Z;
  (** [Date.prototype.toJSON] of a valid date *)
  date_to_json : Z -> string;
  (** the hex form of the n-th ObjectId the driver generates *)
  new_object_id : nat -> string;
  (** the engine's [stack] text of an error with this name and message *)
  capture_stack : string -> string -> string;
  (** [bcrypt.genSalt(rounds)], from the n-th draw of randomness *)
  bcrypt_genSalt : nat -> nat -> string;
  (** [bcrypt.hash(s, salt)] on strings *)
  bcrypt_hash : string -> string -> string;
  (** [bcrypt.compare(s, hash)] on strings *)
  bcrypt_compare : string -> string -> bool;
  (** [jwt.sign(payload, secret, { expiresIn })] issued at a clock value *)
  jwt_sign : JsValue -> string -> string -> Z -> string;
  (** Mongoose's String cast on an array or object value (differs between
      Mongoose versions); [None] is a CastError *)
  cast_string_object : JsValue -> option string;
  (** how the store matches a stored string against a filter value that is
      not a string (undefined, null, numbers, operator objects) *)
  match_filter : JsValue -> Result (string -> bool);
  (** the rank the store gives a document among those with an equal sort
      key, in the query with this filter (none, or a [userId]): the order
      of ties is the store's, query by query *)
  tie_order : option string -> CollectionDoc -> nat
}.

(* ================================================================== *)
(** ** The handlers, over a host *)

Section Handlers.

Variable host : Host.

Definition new_error (name message : string) : JsError :=
  mkError name message (capture_stack host name message).

Definition bool_to_string (b : bool) : string :=
  if b then "true" else "false".

(** ToString. On a parsed JSON object it is [Object.prototype.toString],
    unless an own "toString" property (never callable) hides it and the
    conversion throws a TypeError ([None]); on an array it is
    [join(",")], where null and undefined elements give the empty
    string. *)
Fixpoint js_to_string (v : JsValue) : option string :=
  match v with
  | JUndefined => Some "undefined"
  | JNull => Some "null"
  | JBool b => Some (bool_to_string b)
  | JNum n => Some (number_to_string host n)
  | JStr s => Some s
  | JArr items =>
      (fix join (l : list JsValue) : option string :=
         match l with
         | [] => Some ""
         | x :: rest =>
             let first :=
               match x with
               | JUndefined | JNull => Some ""
               | _ => js_to_string x
               end in
             match rest with
             | [] => first
             | _ :: _ =>
                 match first, join rest with
                 | Some a, Some b => Some (a ++ "," ++ b)
                 | _, _ => None
                 end
             end
         end) items
  | JObj props =>
      if has_key "toString" props then None else Some "[object Object]"
  end.

Definition type_error : JsError :=
  new_error "TypeError" "Cannot convert object to primitive value".

(** [Number(v)] (ToNumber); it throws only through ToPrimitive. *)
Definition to_number (v : JsValue) : Result JsNumber :=
  match v with
  | JUndefined => inr NaN
  | JNull => inr (Finite 0)
  | JBool b => inr (Finite (if b then 1 else 0))
  | JNum n => inr n
  | JStr s => inr (string_to_number host s)
  | JArr _ | JObj _ =>
      match js_to_string v with
      | Some s => inr (string_to_number host s)
      | None => inl type_error
      end
  end.

Definition js_Number (v : JsValue) : M JsNumber := lift (to_number v).

(** TimeClip: a finite time value within 8.64e15 ms of the epoch,
    truncated to an integer; anything else is NaN. *)
Definition time_clip (n : JsNumber) : JsDate :=
  match n with
  | NaN | Infinity _ => None
  | Finite q =>
      if Qle_bool (Qabs q) (8640000000000000 # 1)
      then Some (Z.quot (Qnum q) (Zpos (Qden q)))
      else None
  end.

(** [new Date(v)]: a string is parsed, anything else is a time value. *)
Definition to_date (v : JsValue) : Result JsDate :=
  match v with
  | JStr s => inr (date_parse host s)
  | JArr _ | JObj _ =>
      match js_to_string v with
      | Some s => inr (date_parse host s)
      | None => inl type_error
      end
  | _ =>
      match to_number v with
      | inr n => inr (time_clip n)
      | inl e => inl e
      end
  end.

Definition new_Date (v : JsValue) : M JsDate := lift (to_date v).

(** [new Date()] *)
Definition new_Date_now : M JsDate := gets (fun w => Some (now w)).

(** *** Mongoose casts (schema types String, Number, Date) *)

Definition cast_String (v : JsValue) : Cast string :=
  match v with
  | JUndefined | JNull => Absent
  | JStr s => Valid s
  | JBool b => Valid (bool_to_string b)
  | JNum n => Valid (number_to_string host n)
  | JArr _ | JObj _ =>
      match cast_string_object host v with
      | Some s => Valid s
      | None => Invalid
      end
  end.

Definition cast_Number (n : JsNumber) : Cast JsNumber :=
  if is_nan n then Invalid else Valid n.

Definition cast_Date (d : JsDate) : Cast Z :=
  match d with
  | Some t => Valid t
  | None => Invalid
  end.

Definition validation_error (model : string) (l : list (string * string))
  : JsError :=
  new_error "ValidationError"
            (model ++ " validation failed: " ++ join_failures l).

Definition fresh_object_id : M string :=
  n <- gets next_oid ;;
  modify (set_next_oid (S n)) ;;;
  ret (new_object_id host n).

(** *** Model [User] *)

(** [new User({ name, email, password, phone })]; [createdAt] takes its
    default, [Date.now]. *)
Definition new_User (name email password phone : JsValue) : M UserDraft :=
  id <- fresh_object_id ;;
  t <- gets now ;;
  ret (mkUserDraft id (cast_String name) (cast_String email)
                   (cast_String password) (cast_String phone) t).

Definition user_failures (d : UserDraft) : list (string * string) :=
  (path_failures "string" "name" nonempty (ud_name d) ++
   path_failures "string" "email" nonempty (ud_email d) ++
   path_failures "string" "password" nonempty (ud_password d) ++
   path_failures "string" "phone" nonempty (ud_phone d))%list.

Definition validated_user (d : UserDraft) : option UserDoc :=
  match accepted nonempty (ud_name d), accepted nonempty (ud_email d),
        accepted nonempty (ud_password d), accepted nonempty (ud_phone d) with
  | Some n, Some e, Some p, Some ph =>
      Some (mkUser (ud_id d) n e p ph (ud_createdAt d) 0)
  | _, _, _, _ => None
  end.

Definition email_taken (e : string) (l : list UserDoc) : bool :=
  existsb (fun u => u_email u =? e) l.

(** [user.save()]: schema validation, then the insert, which the unique
    index on [email] can refuse. The value is the document as saved. *)
Definition User_save (d : UserDraft) : M UserDoc :=
  match validated_user d with
  | None => throw (validation_error "User" (user_failures d))
  | Some u =>
      store_call ;;;
      us <- gets users ;;
      if email_taken (u_email u) us
      then throw (new_error "MongoError" "E11000 duplicate key error")
      else modify (set_users (fun l => l ++ [u])%list) ;;; ret u
  end.

(** The predicate a filter value puts on a stored string. *)
Definition filter_matcher (v : JsValue) : M (string -> bool) :=
  match v with
  | JStr s => ret (fun stored => stored =? s)
  | _ => lift (match_filter host v)
  end.

(** [User.findOne({ email })] *)
Definition User_findOne (email : JsValue) : M (option UserDoc) :=
  m <- filter_matcher email ;;
  store_call ;;;
  us <- gets users ;;
  ret (find (fun u => m (u_email u)) us).

Definition user_json (u : UserDoc) : JsValue :=
  JObj [("_id", JStr (u_id u));
        ("name", JStr (u_name u));
        ("email", JStr (u_email u));
        ("password", JStr (u_password u));
        ("phone", JStr (u_phone u));
        ("createdAt", JStr (date_to_json host (u_createdAt u)));
        ("__v", JNum (Finite (inject_Z (Z.of_nat (u_v u)))))].

(** [User.find().select("-password")] *)
Definition User_find_without_password : M (list JsValue) :=
  store_call ;;;
  us <- gets users ;;
  ret (map (fun u => project_out "password" (user_json u)) us).

(** *** Model [Collection] *)

(** [new Collection({...})], with the types of the values the handler
    passes: five request values, two dates, two numbers and a string
    literal for [status]. *)
Definition new_Collection (userId userName wasteType location address : JsValue)
           (dateTime : JsDate) (kilograms rewardPoints : JsNumber)
           (status : string) (createdAt : JsDate) : M CollectionDraft :=
  id <- fresh_object_id ;;
  ret (mkCollectionDraft id (cast_String userId) (cast_String userName)
         (cast_String wasteType) (cast_String location) (cast_String address)
         (cast_Date dateTime) (cast_Number kilograms)
         (cast_Number rewardPoints) status (cast_Date createdAt)).

Definition collection_failures (d : CollectionDraft) : list (string * string) :=
  (path_failures "string" "userId" nonempty (cd_userId d) ++
   path_failures "string" "userName" nonempty (cd_userName d) ++
   path_failures "string" "wasteType" nonempty (cd_wasteType d) ++
   path_failures "string" "location" nonempty (cd_location d) ++
   path_failures "string" "address" nonempty (cd_address d) ++
   path_failures "date" "dateTime" always (cd_dateTime d) ++
   path_failures "Number" "kilograms" always (cd_kilograms d) ++
   path_failures "Number" "rewardPoints" always (cd_rewardPoints d) ++
   match cd_createdAt d with
   | Invalid => [("createdAt", "Cast to date failed at path createdAt")]
   | _ => []
   end)%list.

Definition validated_collection (d : CollectionDraft) : option CollectionDoc :=
  match accepted nonempty (cd_userId d), accepted nonempty (cd_userName d),
        accepted nonempty (cd_wasteType d), accepted nonempty (cd_location d),
        accepted nonempty (cd_address d), accepted always (cd_dateTime d),
        accepted always (cd_kilograms d), accepted always (cd_rewardPoints d),
        cd_createdAt d with
  | Some u, Some n, Some wt, Some l, Some a, Some dt, Some kg, Some rp,
    Valid t =>
      Some (mkCollection (cd_id d) u n wt l a dt kg rp (cd_status d) t 0)
  | _, _, _, _, _, _, _, _, _ => None
  end.

(** [collection.save()] *)
Definition Collection_save (d : CollectionDraft) : M CollectionDoc :=
  match validated_collection d with
  | None => throw (validation_error "Collection" (collection_failures d))
  | Some c =>
      store_call ;;;
      modify (set_collections (fun l => l ++ [c])%list) ;;;
      ret c
  end.

Definition collection_json (c : CollectionDoc) : JsValue :=
  JObj [("_id", JStr (c_id c));
        ("userId", JStr (c_userId c));
        ("userName", JStr (c_userName c));
        ("wasteType", JStr (c_wasteType c));
        ("location", JStr (c_location c));
        ("address", JStr (c_address c));
        ("dateTime", JStr (date_to_json host (c_dateTime c)));
        ("kilograms", JNum (c_kilograms c));
        ("rewardPoints", JNum (c_rewardPoints c));
        ("status", JStr (c_status c));
        ("createdAt", JStr (date_to_json host (c_createdAt c)));
        ("__v", JNum (Finite (inject_Z (Z.of_nat (c_v c)))))].

(** [Collection.find(filter).sort({ createdAt: -1 })], where the filter
    is empty ([None]) or [{ userId }] with a route parameter. *)
Definition Collection_find_sorted (userId : option string)
  : M (list CollectionDoc) :=
  store_call ;;;
  cs <- gets collections ;;
  let matching :=
    match userId with
    | None => cs
    | Some u => filter (fun c => c_userId c =? u) cs
    end in
  ret (sort_createdAt_desc (tie_order host userId) matching).

(** *** bcryptjs and jsonwebtoken *)

Definition js_typeof (v : JsValue) : string :=
  match v with
  | JUndefined => "undefined"
  | JNull | JArr _ | JObj _ => "object"
  | JBool _ => "boolean"
  | JNum _ => "number"
  | JStr _ => "string"
  end.

Definition illegal_arguments (v : JsValue) : JsError :=
  new_error "Error" ("Illegal arguments: " ++ js_typeof v ++ ", string").

Definition genSalt (rounds : nat) : M string :=
  n <- gets entropy ;;
  modify (set_entropy (S n)) ;;;
  ret (bcrypt_genSalt host rounds n).

(** [bcrypt.hash(s, salt)] rejects unless [s] is a string. *)
Definition hash (s : JsValue) (salt : string) : M string :=
  match s with
  | JStr p => ret (bcrypt_hash host p salt)
  | _ => throw (illegal_arguments s)
  end.

(** [bcrypt.compare(s, hash)] rejects unless [s] is a string. *)
Definition compare (s : JsValue) (hashed : string) : M bool :=
  match s with
  | JStr p => ret (bcrypt_compare host p hashed)
  | _ => throw (illegal_arguments s)
  end.

Definition sign (payload : JsValue) (secret expiresIn : string) : M string :=
  t <- gets now ;;
  ret (jwt_sign host payload secret expiresIn t).

(** *** The routes *)

Definition json (code : nat) (props : list (string * JsValue)) : M Response :=
  ret (mkResponse code (JObj props)).

Definition public_user (u : UserDoc) : JsValue :=
  JObj [("_id", JStr (u_id u));
        ("name", JStr (u_name u));
        ("email", JStr (u_email u));
        ("phone", JStr (u_phone u))].

(** [app.post("/api/auth/register", ...)] *)
Definition post_auth_register_try (req_body : list (string * JsValue))
  : M Response :=
  let name := lookup "name" req_body in
  let email := lookup "email" req_body in
  let password := lookup "password" req_body in
  let phone := lookup "phone" req_body in
  existingUser <- User_findOne email ;;
  match existingUser with
  | Some _ =>
      json 400 [("success", JBool false);
                ("message", JStr "User already exists")]
  | None =>
      salt <- genSalt 10 ;;
      hashedPassword <- hash password salt ;;
      user <- new_User name email (JStr hashedPassword) phone ;;
      user <- User_save user ;;
      json 201 [("success", JBool true);
                ("message", JStr "User registered successfully");
                ("user", public_user user)]
  end.

Definition post_auth_register_catch (error : JsError) : M Response :=
  console_error "Registration error:" error ;;;
  json 500 [("success", JBool false); ("message", JStr "Server error")].

Definition post_auth_register (req_body : list (string * JsValue))
  : M Response :=
  try_catch (post_auth_register_try req_body) post_auth_register_catch.

(** [app.post("/api/auth/login", ...)] *)
Definition post_auth_login_try (req_body : list (string * JsValue))
  : M Response :=
  let email := lookup "email" req_body in
  let password := lookup "password" req_body in
  user <- User_findOne email ;;
  match user with
  | None =>
      json 400 [("success", JBool false);
                ("message", JStr "Invalid credentials")]
  | Some user =>
      isMatch <- compare password (u_password user) ;;
      if negb isMatch then
        json 400 [("success", JBool false);
                  ("message", JStr "Invalid credentials")]
      else
        token <- sign (JObj [("id", JStr (u_id user))])
                      "your_jwt_secret" "1d" ;;
        json 200 [("success", JBool true);
                  ("token", JStr token);
                  ("user", public_user user)]
  end.

Definition post_auth_login_catch (error : JsError) : M Response :=
  console_error "Login error:" error ;;;
  json 500 [("success", JBool false); ("message", JStr "Server error")].

Definition post_auth_login (req_body : list (string * JsValue))
  : M Response :=
  try_catch (post_auth_login_try req_body) post_auth_login_catch.

(** [app.post("/api/collections", ...)] *)
Definition post_collections_try (req_body : list (string * JsValue))
  : M Response :=
  console_log "Received collection data:" (JObj req_body) ;;;
  let userId := lookup "userId" req_body in
  let userName := lookup "userName" req_body in
  let wasteType := lookup "wasteType" req_body in
  let location := lookup "location" req_body in
  let address := lookup "address" req_body in
  let dateTime := lookup "dateTime" req_body in
  let kilograms := lookup "kilograms" req_body in
  let rewardPoints := lookup "rewardPoints" req_body in
  if js_not userId || js_not userName || js_not wasteType
     || js_not location || js_not address || js_not dateTime
     || js_not kilograms
  then
    json 400 [("success", JBool false);
              ("message", JStr "Missing required fields");
              ("receivedData", JObj req_body)]
  else
    dateTime' <- new_Date dateTime ;;
    kilograms' <- js_Number kilograms ;;
    rewardPoints' <- js_Number rewardPoints ;;
    createdAt <- new_Date_now ;;
    collection <- new_Collection userId userName wasteType location
                    address dateTime' kilograms' rewardPoints'
                    "pending" createdAt ;;
    collection <- Collection_save collection ;;
    json 201 [("success", JBool true);
              ("message", JStr "Collection scheduled successfully");
              ("collection", collection_json collection)].

Definition post_collections_catch (error : JsError) : M Response :=
  console_error "Collection creation error:" error ;;;
  json 500 [("success", JBool false);
            ("message", JStr ("Server error: " ++ err_message error));
            ("stack", JStr (err_stack error))].

Definition post_collections (req_body : list (string * JsValue))
  : M Response :=
  try_catch (post_collections_try req_body) post_collections_catch.

(** [app.get("/api/collections", ...)] *)
Definition get_collections_try : M Response :=
  collections <- Collection_find_sorted None ;;
  json 200 [("success", JBool true);
            ("collections", JArr (map collection_json collections))].

Definition get_collections_catch (error : JsError) : M Response :=
  console_error "Get collections error:" error ;;;
  json 500 [("success", JBool false); ("message", JStr "Server error")].

Definition get_collections : M Response :=
  try_catch get_collections_try get_collections_catch.

(** [app.get("/api/collections/user/:userId", ...)] *)
Definition get_collections_user_try (userId : string) : M Response :=
  collections <- Collection_find_sorted (Some userId) ;;
  json 200 [("success", JBool true);
            ("collections", JArr (map collection_json collections))].

Definition get_collections_user_catch (error : JsError) : M Response :=
  console_error "Get user collections error:" error ;;;
  json 500 [("success", JBool false); ("message", JStr "Server error")].

Definition get_collections_user (userId : string) : M Response :=
  try_catch (get_collections_user_try userId) get_collections_user_catch.

(** [app.get("/api/users", ...)] *)
Definition get_users_try : M Response :=
  users <- User_find_without_password ;;
  json 200 [("success", JBool true); ("users", JArr users)].

Definition get_users_catch (error : JsError) : M Response :=
  console_error "Get users error:" error ;;;
  json 500 [("success", JBool false); ("message", JStr "Server error")].

Definition get_users : M Response :=
  try_catch get_users_try get_users_catch.

End Handlers.

(* ================================================================== *)
(** ** Vocabulary of the properties *)

(** The seven fields the creation handler insists on. *)
Definition required_fields : list string :=
  ["userId"; "userName"; "wasteType"; "location"; "address"; "dateTime";
   "kilograms"].

(** The five of them the schema types as String. *)
Definition text_fields : list string :=
  ["userId"; "userName"; "wasteType"; "location"; "address"].

(** Every required field of the body is truthy. *)
Definition all_present (req_body : list (string * JsValue)) : bool :=
  forallb (fun k => truthy (lookup k req_body)) required_fields.

(** [Number(v)] gives a number other than NaN. *)
Definition numeric (host : Host) (v : JsValue) : bool :=
  match to_number host v with
  | inr n => negb (is_nan n)
  | inl _ => false
  end.

(** [new Date(v)] gives a valid date. *)
Definition parseable (host : Host) (v : JsValue) : bool :=
  match to_date host v with
  | inr (Some _) => true
  | _ => false
  end.

(** The schema takes the value as a non-empty string. *)
Definition text_accepted (host : Host) (v : JsValue) : bool :=
  match accepted nonempty (cast_String host v) with
  | Some _ => true
  | None => false
  end.

(** The coming store call does not fail. *)
Definition store_up (w : World) : Prop :=
  match faults w with
  | Some _ :: _ => False
  | _ => True
  end.

(** The coming store call fails with [e]. *)
Definition store_fails (e : JsError) (w : World) : Prop :=
  exists rest, faults w = Some e :: rest.

Definition object_keys (v : JsValue) : list string :=
  match v with
  | JObj props => keys props
  | _ => []
  end.

(** Does key [k] occur anywhere inside the value? *)
Fixpoint mentions_key (k : string) (v : JsValue) : bool :=
  match v with
  | JArr items => existsb (mentions_key k) items
  | JObj props =>
      existsb (fun kv => (fst kv =? k) || mentions_key k (snd kv)) props
  | _ => false
  end.

Definition missing_fields_response (req_body : list (string * JsValue))
  : Response :=
  mkResponse 400 (JObj [("success", JBool false);
                        ("message", JStr "Missing required fields");
                        ("receivedData", JObj req_body)]).

Definition server_error_response : Response :=
  mkResponse 500 (JObj [("success", JBool false);
                        ("message", JStr "Server error")]).

Definition persistence_failure_response (e : JsError) : Response :=
  mkResponse 500 (JObj [("success", JBool false);
                        ("message", JStr ("Server error: " ++ err_message e));
                        ("stack", JStr (err_stack e))]).

Definition invalid_credentials_response : Response :=
  mkResponse 400 (JObj [("success", JBool false);
                        ("message", JStr "Invalid credentials")]).

Definition duplicate_identity_response : Response :=
  mkResponse 400 (JObj [("success", JBool false);
                        ("message", JStr "User already exists")]).

Definition logged (l : LogLine) (w : World) : World :=
  set_console (console w ++ [l])%list w.

(** The world after a successful creation: one log line, one ObjectId
    drawn, one store call made, one document appended. *)
Definition after_create (req_body : list (string * JsValue))
           (c : CollectionDoc) (w : World) : World :=
  mkWorld (users w) (collections w ++ [c]) (now w) (S (next_oid w))
          (entropy w) (tl (faults w))
          (console w ++ [LogValue "Received collection data:" (JObj req_body)]).

(** The draft the handler builds from a body whose date and numbers
    converted to [d], [kg] and [rp]. *)
Definition drafted (host : Host) (req_body : list (string * JsValue))
           (d : JsDate)
           (kg rp : JsNumber) (w : World) : CollectionDraft :=
  mkCollectionDraft (new_object_id host (next_oid w))
    (cast_String host (lookup "userId" req_body))
    (cast_String host (lookup "userName" req_body))
    (cast_String host (lookup "wasteType" req_body))
    (cast_String host (lookup "location" req_body))
    (cast_String host (lookup "address" req_body))
    (cast_Date d) (cast_Number kg) (cast_Number rp) "pending"
    (Valid (now w)).

(** [a] may stand before [b] in a most-recent-first listing. *)
Definition newer_first (a b : CollectionDoc) : Prop :=
  (c_createdAt b <= c_createdAt a)%Z.

(** [a] stands somewhere before [b] in the list. *)
Definition precedes {A : Type} (a b : A) (l : list A) : Prop :=
  exists l1 l2 l3, l = (l1 ++ a :: l2 ++ b :: l3)%list.

(** Property read on a value. *)
Definition get_prop (k : string) (v : JsValue) : JsValue :=
  match v with
  | JObj props => lookup k props
  | _ => JUndefined
  end.

(** A user as the [-password] projection returns it. *)
Definition listed_user (host : Host) (u : UserDoc) : JsValue :=
  project_out "password" (user_json host u).

(** The status code of an outcome, when there is a response. *)
Definition status_of (r : Result Response) : option nat :=
  match r with
  | inr resp => Some (status resp)
  | inl _ => None
  end.

(* ================================================================== *)
(** ** A host to run examples on

    Small stand-ins for the outside primitives, exact on the inputs the
    examples use: decimal integer literals for [Number], two ISO
    instants for [Date.parse], arrays and plain objects refused by the
    String cast (Mongoose 5 and later), filters that are not strings
    matching nothing, ties left in natural order. The hashing stand-in
    only keeps salt and password apart; it makes no claim to secrecy. *)

Definition decimal (z : Z) : string := NilZero.string_of_int (Z.to_int z).

Definition test_string_to_number (s : string) : JsNumber :=
  if s =? "" then Finite 0
  else match NilZero.int_of_string s with
       | Some i => Finite (inject_Z (Z.of_int i))
       | None => NaN
       end.

Definition test_number_to_string (n : JsNumber) : string :=
  match n with
  | NaN => "NaN"
  | Infinity false => "Infinity"
  | Infinity true => "-Infinity"
  | Finite q => decimal (Z.quot (Qnum q) (Zpos (Qden q)))
  end.

Definition test_date_parse (s : string) : option Z :=
  if s =? "1970-01-01T00:00:00.000Z" then Some 0%Z
  else if s =? "2024-05-01T09:00:00.000Z" then Some 1714554000000%Z
  else None.

Definition test_date_to_json (t : Z) : string :=
  if (t =? 0)%Z then "1970-01-01T00:00:00.000Z"
  else if (t =? 1714554000000)%Z then "2024-05-01T09:00:00.000Z"
  else "epoch+" ++ decimal t ++ "ms".

Definition test_host : Host :=
  mkHost test_string_to_number
         test_number_to_string
         test_date_parse
         test_date_to_json
         (fun n => "oid" ++ decimal (Z.of_nat n))
         (fun name message => name ++ ": " ++ message)
         (fun rounds n => "$2a$" ++ decimal (Z.of_nat rounds) ++ "$"
                          ++ decimal (Z.of_nat n))
         (fun s salt => salt ++ "." ++ s)
         (fun s hashed =>
            existsb (fun n => hashed =? ("$2a$10$" ++ decimal (Z.of_nat n)
                                         ++ "." ++ s))
                    (seq 0 16))
         (fun payload secret expiresIn t =>
            match payload with
            | JObj [(_, JStr id)] => "jwt." ++ id ++ "." ++ decimal t
            | _ => "jwt"
            end)
         (fun _ => None)
         (fun _ => inr (fun _ => false))
         (fun _ _ => 0%nat).

(** An empty store whose clock reads 2024-05-01T09:00:00.000Z. *)
Definition empty_world : World :=
  mkWorld [] [] 1714554000000 0 0 [] [].

Definition alice : UserDoc :=
  mkUser "oid0" "A" "a@x.com" "$2a$10$0.p1" "1" 0 0.

Definition alice_world : World :=
  mkWorld [alice] [] 1714554000000 1 1 [] [].

Definition alice_registration : list (string * JsValue) :=
  [("name", JStr "A"); ("email", JStr "a@x.com"); ("password", JStr "p1");
   ("phone", JStr "1")].

(** A complete creation request; the caller also tries to set [status]
    and [createdAt]. *)
Definition full_request : list (string * JsValue) :=
  [("userId", JStr "oid0"); ("userName", JStr "A");
   ("wasteType", JStr "Plastic"); ("location", JStr "Bole");
   ("address", JStr "Bole Road, Addis Ababa");
   ("dateTime", JStr "2024-05-01T09:00:00.000Z");
   ("kilograms", JNum (Finite 5)); ("rewardPoints", JNum (Finite 50));
   ("status", JStr "completed");
   ("createdAt", JStr "1970-01-01T00:00:00.000Z")].

(** The same request without [rewardPoints]. *)
Definition no_points_request : list (string * JsValue) :=
  remove_key "rewardPoints" full_request.

(** The same request with [kilograms] zero. *)
Definition zero_kilograms_request : list (string * JsValue) :=
  ("kilograms", JNum (Finite 0)) :: remove_key "kilograms" full_request.

(** The same request with a date that does not parse. *)
Definition bad_date_request : list (string * JsValue) :=
  ("dateTime", JStr "next tuesday") :: remove_key "dateTime" full_request.

Definition network_error : JsError :=
  mkError "MongoNetworkError" "connection refused"
          "MongoNetworkError: connection refused".

Definition pickup (id user : string) (t : Z) : CollectionDoc :=
  mkCollection id user "A" "Plastic" "Bole" "Bole Road" 0
               (Finite 5) (Finite 50) "pending" t 0.

Definition three_pickups : World :=
  mkWorld [] [pickup "oid0" "u1" 10; pickup "oid1" "u2" 30;
              pickup "oid2" "u1" 20]
          1714554000000 3 0 [] [].

(** Two pickups of one user created in the same millisecond. *)
Definition tied_pickups : World :=
  mkWorld [] [pickup "oid0" "u1" 10; pickup "oid1" "u1" 10]
          1714554000000 2 0 [] [].

(** The host [h] on a store with another order of ties. *)
Definition with_tie_order (h : Host)
           (t : option string -> CollectionDoc -> nat) : Host :=
  mkHost (string_to_number h) (number_to_string h) (date_parse h)
         (date_to_json h) (new_object_id h) (capture_stack h)
         (bcrypt_genSalt h) (bcrypt_hash h) (bcrypt_compare h) (jwt_sign h)
         (cast_string_object h) (match_filter h) t.

(** A store that keeps natural order among ties in the unfiltered query
    and, in a query filtered by user, returns the document "oid0" after
    the others it ties with. *)
Definition late_host : Host :=
  with_tie_order test_host
    (fun userId c =>
       match userId with
       | Some _ => if c_id c =? "oid0" then 1%nat else 0%nat
       | None => 0%nat
       end).

(** A store whose coming call fails with [network_error]. *)
Definition failing_store : World :=
  mkWorld [alice] [pickup "oid0" "u1" 10] 1714554000000 1 1
          [Some network_error] [].

(** The store answers the lookup and refuses the insert after it. *)
Definition refusing_insert : World :=
  mkWorld [alice] [] 1714554000000 1 1 [None; Some network_error] [].

Definition unknown_login : list (string * JsValue) :=
  [("email", JStr "nobody@x.com"); ("password", JStr "p1")].

Definition wrong_password_login : list (string * JsValue) :=
  [("email", JStr "a@x.com"); ("password", JStr "p2")].

(** Two logins with the number 123456 as password: one for Alice's
    email, one for an email no user has. *)
Definition numeric_password_login : list (string * JsValue) :=
  [("email", JStr "a@x.com"); ("password", JNum (Finite 123456))].

Definition numeric_password_unknown : list (string * JsValue) :=
  [("email", JStr "nobody@x.com"); ("password", JNum (Finite 123456))].

Definition bob_registration : list (string * JsValue) :=
  [("name", JStr "B"); ("email", JStr "b@x.com"); ("password", JStr "p");
   ("phone", JStr "2")].

(* ================================================================== *)
(** ** Reference data: centers and tutorials

    The models [Center] and [Tutorial] are both declared on the Mongo
    collection "other". The server state adds that collection to the
    [World] of the other handlers. *)

(** The paths of [centerSchema]. *)
Record CenterFields : Type := mkCenterFields {
  ce_name : string;
  ce_address : string;
  ce_phone : string;
  ce_latitude : JsNumber;
  ce_longitude : JsNumber;
  ce_acceptedWasteTypes : list string;
  ce_operatingHours : string
}.

(** The paths of [tutorialSchema]; [videoUrl] is not required. *)
Record TutorialFields : Type := mkTutorialFields {
  tu_title : string;
  tu_description : string;
  tu_imageUrl : string;
  tu_videoUrl : option string;
  tu_steps : list string;
  tu_category : string
}.

(** A document of the collection "other", as the model that wrote it
    stored it: the ObjectId, the fields and the version key. *)
Inductive OtherDoc : Type :=
| CenterDoc (id : string) (f : CenterFields) (v : nat)
| TutorialDoc (id : string) (f : TutorialFields) (v : nat).

Definition is_center (d : OtherDoc) : bool :=
  match d with
  | CenterDoc _ _ _ => true
  | TutorialDoc _ _ _ => false
  end.

Definition is_tutorial (d : OtherDoc) : bool := negb (is_center d).

Record Server : Type := mkServer {
  core : World;
  other : list OtherDoc     (* the collection "other", natural order *)
}.

Definition set_core (w : World) (s : Server) : Server :=
  mkServer w (other s).
Definition set_other (f : list OtherDoc -> list OtherDoc) (s : Server)
  : Server :=
  mkServer (core s) (f (other s)).

(** Computations over the server state. *)
Definition SM (A : Type) : Type := Server -> Result A * Server.

Definition sm_ret {A} (a : A) : SM A := fun s => (inr a, s).
Definition sm_throw {A} (e : JsError) : SM A := fun s => (inl e, s).
Definition sm_bind {A B} (m : SM A) (k : A -> SM B) : SM B :=
  fun s => match m s with
           | (inl e, s') => (inl e, s')
           | (inr a, s') => k a s'
           end.
Definition sm_try_catch {A} (body : SM A) (handler : JsError -> SM A)
  : SM A :=
  fun s => match body s with
           | (inl e, s') => handler e s'
           | (inr a, s') => (inr a, s')
           end.
Definition sm_gets {A} (f : Server -> A) : SM A := fun s => (inr (f s), s).
Definition sm_modify (f : Server -> Server) : SM unit :=
  fun s => (inr tt, f s).
(** A computation on the [World] part; the collection "other" stays. *)
Definition in_core {A} (m : M A) : SM A :=
  fun s => match m (core s) with
           | (r, w') => (r, set_core w' s)
           end.

Declare Scope server_scope.
Delimit Scope server_scope with server.
Notation "x <- m ;; k" := (sm_bind m (fun x => k))
  (at level 61, m at next level, right associativity) : server_scope.
Notation "m ;;; k" := (sm_bind m (fun _ => k))
  (at level 61, right associativity) : server_scope.

(** [sampleCenters] *)
Definition sampleCenters : list CenterFields :=
  [mkCenterFields "Addis Recycling Center" "Bole Road, Addis Ababa"
     "0911223344" (Finite (90222 # 10000)) (Finite (387468 # 10000))
     ["Plastic"; "Paper"; "Glass"; "Metal"]
     "Mon-Fri: 8AM-5PM, Sat: 9AM-2PM";
   mkCenterFields "Green Ethiopia Recycling" "Meskel Square, Addis Ababa"
     "0922334455" (Finite (90127 # 10000)) (Finite (387612 # 10000))
     ["Plastic"; "Electronic"; "Metal"]
     "Mon-Sat: 9AM-6PM";
   mkCenterFields "Hawassa Waste Management" "Main Street, Hawassa"
     "0933445566" (Finite (70622 # 10000)) (Finite (384777 # 10000))
     ["Plastic"; "Paper"; "Organic"]
     "Mon-Fri: 8:30AM-4:30PM"].

(** [sampleTutorials] *)
Definition sampleTutorials : list TutorialFields :=
  [mkTutorialFields "Home Composting Basics"
     "Learn how to start composting at home with minimal equipment"
     "https://images.unsplash.com/photo-1591955506264-3f5a6834570a?ixlib=rb-4.0.3"
     (Some "")
     ["Collect kitchen scraps like fruit and vegetable peels";
      "Mix with dry materials like leaves or shredded paper";
      "Keep your compost moist but not soggy";
      "Turn the pile regularly to add oxygen";
      "Harvest your compost after 3-6 months"]
     "Composting";
   mkTutorialFields "Plastic Bottle Planters"
     "Turn plastic waste into beautiful plant containers"
     "https://images.unsplash.com/photo-1582131503261-fca1d1c781a8?ixlib=rb-4.0.3"
     (Some "")
     ["Clean a plastic bottle thoroughly";
      "Cut the bottle in half or create a side opening";
      "Make drainage holes in the bottom";
      "Decorate the outside if desired";
      "Add soil and plants"]
     "Upcycling";
   mkTutorialFields "Paper Recycling at Home"
     "Make new paper from old newspapers and documents"
     "https://images.unsplash.com/photo-1530587191325-3db32d826c18?ixlib=rb-4.0.3"
     (Some "")
     ["Tear paper into small pieces";
      "Soak in water overnight";
      "Blend into a pulp";
      "Spread on a screen to dry";
      "Press and let dry completely"]
     "Recycling"].

(** The [required] paths of a center: non-empty strings, numbers that
    are numbers. (An array path passes as soon as it is an array.) *)
Definition center_accepted (f : CenterFields) : bool :=
  nonempty (ce_name f) && nonempty (ce_address f) && nonempty (ce_phone f)
  && negb (is_nan (ce_latitude f)) && negb (is_nan (ce_longitude f))
  && nonempty (ce_operatingHours f).

Definition tutorial_accepted (f : TutorialFields) : bool :=
  nonempty (tu_title f) && nonempty (tu_description f)
  && nonempty (tu_imageUrl f) && nonempty (tu_category f).

Section Reference.

Variable host : Host.

(** How a model renders a stored document that the other model wrote
    (which paths it keeps and which defaults it adds is Mongoose's
    business): the model's name and the stored document. *)
Variable foreign_view : string -> JsValue -> JsValue.

Local Open Scope server_scope.

Definition strings_json (l : list string) : JsValue := JArr (map JStr l).

Definition center_json (id : string) (f : CenterFields) (v : nat) : JsValue :=
  JObj [("_id", JStr id);
        ("name", JStr (ce_name f));
        ("address", JStr (ce_address f));
        ("phone", JStr (ce_phone f));
        ("latitude", JNum (ce_latitude f));
        ("longitude", JNum (ce_longitude f));
        ("acceptedWasteTypes", strings_json (ce_acceptedWasteTypes f));
        ("operatingHours", JStr (ce_operatingHours f));
        ("__v", JNum (Finite (inject_Z (Z.of_nat v))))].

Definition tutorial_json (id : string) (f : TutorialFields) (v : nat)
  : JsValue :=
  JObj ([("_id", JStr id);
         ("title", JStr (tu_title f));
         ("description", JStr (tu_description f));
         ("imageUrl", JStr (tu_imageUrl f))] ++
        match tu_videoUrl f with
        | Some u => [("videoUrl", JStr u)]
        | None => []
        end ++
        [("steps", strings_json (tu_steps f));
         ("category", JStr (tu_category f));
         ("__v", JNum (Finite (inject_Z (Z.of_nat v))))])%list.

(** A document of "other" as [Center.find()] returns it. *)
Definition as_center (d : OtherDoc) : JsValue :=
  match d with
  | CenterDoc id f v => center_json id f v
  | TutorialDoc id f v => foreign_view "Center" (tutorial_json id f v)
  end.

(** A document of "other" as [Tutorial.find()] returns it. *)
Definition as_tutorial (d : OtherDoc) : JsValue :=
  match d with
  | TutorialDoc id f v => tutorial_json id f v
  | CenterDoc id f v => foreign_view "Tutorial" (center_json id f v)
  end.

(** [Model.countDocuments()] on "other": every document counts, whichever
    model wrote it. *)
Definition other_countDocuments : SM nat :=
  in_core store_call ;;;
  sm_gets (fun s => List.length (other s)).

(** One ObjectId per document, in order. *)
Fixpoint with_fresh_ids {F : Type} (l : list F) : SM (list (string * F)) :=
  match l with
  | [] => sm_ret []
  | f :: rest =>
      id <- in_core (fresh_object_id host) ;;
      more <- with_fresh_ids rest ;;
      sm_ret ((id, f) :: more)
  end.

(** [Center.insertMany(docs)]: the documents are built and validated,
    then inserted in order by one store call. *)
Definition Center_insertMany (docs : list CenterFields) : SM unit :=
  built <- with_fresh_ids docs ;;
  if forallb center_accepted docs then
    in_core store_call ;;;
    sm_modify (set_other (fun l =>
      l ++ map (fun d => CenterDoc (fst d) (snd d) 0) built)%list)
  else
    sm_throw (validation_error host "Center" []).

(** [Tutorial.insertMany(docs)] *)
Definition Tutorial_insertMany (docs : list TutorialFields) : SM unit :=
  built <- with_fresh_ids docs ;;
  if forallb tutorial_accepted docs then
    in_core store_call ;;;
    sm_modify (set_other (fun l =>
      l ++ map (fun d => TutorialDoc (fst d) (snd d) 0) built)%list)
  else
    sm_throw (validation_error host "Tutorial" []).

(** [Center.find()] *)
Definition Center_find : SM (list JsValue) :=
  in_core store_call ;;;
  docs <- sm_gets other ;;
  sm_ret (map as_center docs).

(** [Tutorial.find()] *)
Definition Tutorial_find : SM (list JsValue) :=
  in_core store_call ;;;
  docs <- sm_gets other ;;
  sm_ret (map as_tutorial docs).

Definition sm_json (code : nat) (props : list (string * JsValue))
  : SM Response :=
  sm_ret (mkResponse code (JObj props)).

(** [console.log(message)]: a line without a value. *)
Definition sm_console_log (message : string) : SM unit :=
  in_core (console_log message JUndefined).

(** [app.get("/api/centers", ...)] *)
Definition get_centers_try : SM Response :=
  centersCount <- other_countDocuments ;;
  (if (centersCount =? 0)%nat then
     Center_insertMany sampleCenters ;;;
     sm_console_log "Sample recycling centers created"
   else sm_ret tt) ;;;
  centers <- Center_find ;;
  sm_json 200 [("success", JBool true); ("centers", JArr centers)].

Definition get_centers_catch (error : JsError) : SM Response :=
  in_core (console_error "Get centers error:" error) ;;;
  sm_json 500 [("success", JBool false); ("message", JStr "Server error")].

Definition get_centers : SM Response :=
  sm_try_catch get_centers_try get_centers_catch.

(** [app.get("/api/tutorials", ...)] *)
Definition get_tutorials_try : SM Response :=
  tutorialsCount <- other_countDocuments ;;
  (if (tutorialsCount =? 0)%nat then
     Tutorial_insertMany sampleTutorials ;;;
     sm_console_log "Sample tutorials created"
   else sm_ret tt) ;;;
  tutorials <- Tutorial_find ;;
  sm_json 200 [("success", JBool true); ("tutorials", JArr tutorials)].

Definition get_tutorials_catch (error : JsError) : SM Response :=
  in_core (console_error "Get tutorials error:" error) ;;;
  sm_json 500 [("success", JBool false); ("message", JStr "Server error")].

Definition get_tutorials : SM Response :=
  sm_try_catch get_tutorials_try get_tutorials_catch.

(** *** The route table *)

Inductive Request : Type :=
| POST_auth_register (req_body : list (string * JsValue))
| POST_auth_login (req_body : list (string * JsValue))
| POST_collections (req_body : list (string * JsValue))
| GET_collections
| GET_collections_user (userId : string)
| GET_centers
| GET_tutorials
| GET_users.

(** The handler registered for a request. *)
Definition handle (r : Request) : SM Response :=
  match r with
  | POST_auth_register b => in_core (post_auth_register host b)
  | POST_auth_login b => in_core (post_auth_login host b)
  | POST_collections b => in_core (post_collections host b)
  | GET_collections => in_core (get_collections host)
  | GET_collections_user u => in_core (get_collections_user host u)
  | GET_centers => get_centers
  | GET_tutorials => get_tutorials
  | GET_users => in_core (get_users host)
  end.

(** Requests served one after the other: the responses, in order, and
    the state left. *)
Fixpoint serve (rs : list Request) (s : Server)
  : list (Result Response) * Server :=
  match rs with
  | [] => ([], s)
  | r :: rest =>
      match handle r s with
      | (resp, s') =>
          match serve rest s' with
          | (resps, s'') => (resp :: resps, s'')
          end
      end
  end.

Local Close Scope server_scope.

End Reference.

(** The next [n] store calls do not fail. *)
Fixpoint no_fault_in (n : nat) (l : list (option JsError)) : Prop :=
  match n, l with
  | O, _ => True
  | S _, [] => True
  | S _, Some _ :: _ => False
  | S n', None :: rest => no_fault_in n' rest
  end.

Definition calls_up (n : nat) (w : World) : Prop := no_fault_in n (faults w).

(** A list with its elements numbered from [n] on. *)
Fixpoint number_from {F : Type} (n : nat) (l : list F) : list (nat * F) :=
  match l with
  | [] => []
  | f :: rest => (n, f) :: number_from (S n) rest
  end.

(** The documents [insertMany] stores for the samples when the ObjectId
    counter stands at [n]. *)
Definition seeded_centers (host : Host) (n : nat) : list OtherDoc :=
  map (fun d => CenterDoc (new_object_id host (fst d)) (snd d) 0)
      (number_from n sampleCenters).

Definition seeded_tutorials (host : Host) (n : nat) : list OtherDoc :=
  map (fun d => TutorialDoc (new_object_id host (fst d)) (snd d) 0)
      (number_from n sampleTutorials).

(** The state the examples start from: nothing stored anywhere. *)
Definition empty_server : Server := mkServer empty_world [].

(** A computation that leaves an observation of the world as it was. *)
Definition keeps {A B : Type} (f : World -> B) (m : M A) : Prop :=
  forall w, f (snd (m w)) = f w.

(** What the two core collections hold, and the two counters. *)
Definition stored (w : World)
  : list UserDoc * list CollectionDoc * nat * nat :=
  (users w, collections w, next_oid w, entropy w).

(** [l'] is [l] with at most one element added at the end. *)
Definition grown_by_one {A : Type} (l l' : list A) : Prop :=
  l' = l \/ exists a, l' = (l ++ [a])%list.

(** The status codes the handlers name. *)
Definition named_status (r : Result Response) : Prop :=
  exists resp, r = inr resp /\ In (status resp) [200; 201; 400; 500]%nat.

(** The user a registration stores: the submitted name, email and phone,
    the bcrypt hash of the submitted password under a fresh 10-round
    salt, the clock as creation time. *)
Definition registered_user (host : Host) (w : World)
           (name email password phone : string)
  : UserDoc :=
  mkUser (new_object_id host (next_oid w)) name email
         (bcrypt_hash host password (bcrypt_genSalt host 10 (entropy w)))
         phone (now w) 0.

(** A creation request in the documented shape: the five text fields
    are non-empty strings, [dateTime] is a non-empty string that parses
    to the instant [t], [kilograms] is a JSON number other than zero. *)
Definition pickup_request (host : Host) (b : list (string * JsValue))
           (userId userName wasteType location address : string) (t : Z)
           (kg : JsNumber) : Prop :=
  (lookup "userId" b = JStr userId /\ userId <> "") /\
  (lookup "userName" b = JStr userName /\ userName <> "") /\
  (lookup "wasteType" b = JStr wasteType /\ wasteType <> "") /\
  (lookup "location" b = JStr location /\ location <> "") /\
  (lookup "address" b = JStr address /\ address <> "") /\
  (exists d, lookup "dateTime" b = JStr d /\ d <> "" /\
             date_parse host d = Some t) /\
  (lookup "kilograms" b = JNum kg /\ number_truthy kg = true).

(** A stored user without the password. *)
Definition without_password (u : UserDoc)
  : string * string * string * string * Z * nat :=
  (u_id u, u_name u, u_email u, u_phone u, u_createdAt u, u_v u).

(** No two stored users share an email. *)
Definition emails_unique (s : Server) : Prop :=
  NoDup (map u_email (users (core s))).

(** Every stored collection record has status "pending". *)
Definition all_pending (s : Server) : Prop :=
  Forall (fun c => c_status c = "pending") (collections (core s)).

(** More inputs for the examples. *)
Definition null_points_request : list (string * JsValue) :=
  ("rewardPoints", JNull) :: remove_key "rewardPoints" full_request.

Definition heavy_request : list (string * JsValue) :=
  ("kilograms", JStr "heavy") :: remove_key "kilograms" full_request.

Definition email_only_login : list (string * JsValue) :=
  [("email", JStr "a@x.com")].

(** Alice with another hash stored. *)
Definition alice_rehashed_world : World :=
  mkWorld [mkUser "oid0" "A" "a@x.com" "$2a$10$7.other" "1" 0 0] []
          1714554000000 1 1 [] [].

(** Alice's registration and a login for her email, with another
    password. *)
Definition alice_other_registration : list (string * JsValue) :=
  [("name", JStr "A"); ("email", JStr "a@x.com"); ("password", JStr "other");
   ("phone", JStr "1")].

Definition alice_other_login : list (string * JsValue) :=
  [("email", JStr "a@x.com"); ("password", JStr "other")].

(** A rendering that shows a foreign document as it is stored. *)
Definition plain_view (model : string) (v : JsValue) : JsValue := v.

(** A day of traffic: two registrations with one email, a login, a
    creation, and reads of every listing. *)
Definition busy_day : list Request :=
  [GET_tutorials; POST_auth_register alice_registration;
   POST_auth_register alice_registration; POST_auth_login alice_registration;
   POST_collections full_request; POST_collections no_points_request;
   GET_collections; GET_collections_user "oid0"; GET_centers; GET_users].

(* ================================================================== *)
(** ** Properties *)

(** Unfolds the monad so that a handler becomes a function of the world. *)
Ltac run :=
  cbv beta iota delta
      [try_catch bind ret throw gets modify lift json console_log
       console_error logged].

Section Properties.

Variable host : Host.

(** *** The presence check *)

Lemma all_present_spec (req_body : list (string * JsValue)) :
  all_present req_body = true <->
  forall k, In k required_fields -> truthy (lookup k req_body) = true.
Proof.
  unfold all_present. rewrite forallb_forall. reflexivity.
Qed.

(** The handler's disjunction of negations is the negation of
    [all_present]. *)
Lemma presence_check (req_body : list (string * JsValue)) :
  js_not (lookup "userId" req_body) || js_not (lookup "userName" req_body)
  || js_not (lookup "wasteType" req_body)
  || js_not (lookup "location" req_body)
  || js_not (lookup "address" req_body)
  || js_not (lookup "dateTime" req_body)
  || js_not (lookup "kilograms" req_body)
  = negb (all_present req_body).
Proof.
  unfold all_present, required_fields, js_not. cbn [forallb].
  rewrite andb_true_r, !negb_andb, !orb_assoc. reflexivity.
Qed.

Lemma missing_one (req_body : list (string * JsValue)) (k : string) :
  In k required_fields -> truthy (lookup k req_body) = false ->
  all_present req_body = false.
Proof.
  intros Hin Hk. destruct (all_present req_body) eqn:E; [|reflexivity].
  rewrite all_present_spec in E. rewrite (E k Hin) in Hk. discriminate.
Qed.

(** What the creation handler does when the presence check fails. *)
Lemma post_collections_missing (req_body : list (string * JsValue))
      (w : World) :
  all_present req_body = false ->
  post_collections host req_body w =
  (inr (missing_fields_response req_body),
   logged (LogValue "Received collection data:" (JObj req_body)) w).
Proof.
  intros H. unfold post_collections, post_collections_try. run.
  rewrite presence_check, H. reflexivity.
Qed.

(** C1. If one of the seven required fields of a creation request is
    absent or falsy, the handler answers 400 "Missing required fields"
    with the received payload echoed under [receivedData], and it does so
    before anything is built or stored: no ObjectId is drawn, no store
    call is made, and both collections are as they were. An absent field,
    an empty string and the number zero are all falsy. *)
Theorem C1_missing_fields (req_body : list (string * JsValue)) (w : World)
        (k : string) :
  In k required_fields ->
  truthy (lookup k req_body) = false ->
  let (r, w') := post_collections host req_body w in
  r = inr (mkResponse 400
             (JObj [("success", JBool false);
                    ("message", JStr "Missing required fields");
                    ("receivedData", JObj req_body)])) /\
  collections w' = collections w /\ users w' = users w /\
  next_oid w' = next_oid w /\ faults w' = faults w /\
  truthy JUndefined = false /\ truthy (JStr "") = false /\
  truthy (JNum (Finite 0)) = false.
Proof.
  intros Hin Hk.
  rewrite (post_collections_missing req_body w (missing_one _ _ Hin Hk)).
  repeat split; reflexivity.
Qed.

(** *** Creating a collection *)

Lemma cast_Number_numeric (n : JsNumber) :
  is_nan n = false -> accepted always (cast_Number n) = Some n.
Proof.
  intros H. unfold cast_Number. rewrite H. reflexivity.
Qed.

Lemma cast_Number_nan (n : JsNumber) :
  is_nan n = true -> accepted always (cast_Number n) = None.
Proof.
  intros H. unfold cast_Number. rewrite H. reflexivity.
Qed.

(** A non-empty string is text the schema accepts, whatever the host. *)
Lemma text_accepted_string (s : string) :
  truthy (JStr s) = true -> text_accepted host (JStr s) = true.
Proof.
  unfold text_accepted. cbn. unfold nonempty. intros ->. reflexivity.
Qed.

Lemma post_collections_created (req_body : list (string * JsValue)) (w : World)
      (userId userName wasteType location address : string) (t : Z)
      (kg rp : JsNumber) :
  all_present req_body = true ->
  accepted nonempty (cast_String host (lookup "userId" req_body))
  = Some userId ->
  accepted nonempty (cast_String host (lookup "userName" req_body))
  = Some userName ->
  accepted nonempty (cast_String host (lookup "wasteType" req_body))
  = Some wasteType ->
  accepted nonempty (cast_String host (lookup "location" req_body))
  = Some location ->
  accepted nonempty (cast_String host (lookup "address" req_body))
  = Some address ->
  to_date host (lookup "dateTime" req_body) = inr (Some t) ->
  to_number host (lookup "kilograms" req_body) = inr kg -> is_nan kg = false ->
  to_number host (lookup "rewardPoints" req_body) = inr rp ->
  is_nan rp = false ->
  store_up w ->
  let c := mkCollection (new_object_id host (next_oid w)) userId userName
                        wasteType location address t kg rp "pending"
                        (now w) 0 in
  post_collections host req_body w =
  (inr (mkResponse 201
          (JObj [("success", JBool true);
                 ("message", JStr "Collection scheduled successfully");
                 ("collection", collection_json host c)])),
   after_create req_body c w).
Proof.
  intros Hp H1 H2 H3 H4 H5 Hd Hk Hkn Hr Hrn Hup c.
  unfold post_collections, post_collections_try. run.
  rewrite presence_check, Hp. cbn [negb].
  unfold new_Date, js_Number, new_Date_now, new_Collection, fresh_object_id.
  run. rewrite Hd, Hk, Hr.
  unfold Collection_save, validated_collection.
  cbn [cd_userId cd_userName cd_wasteType cd_location cd_address cd_dateTime
       cd_kilograms cd_rewardPoints cd_status cd_createdAt cd_id].
  rewrite H1, H2, H3, H4, H5.
  rewrite (cast_Number_numeric kg Hkn), (cast_Number_numeric rp Hrn).
  cbn [cast_Date accepted always]. run.
  unfold store_call, store_up in *.
  cbn [faults set_next_oid set_console].
  destruct (faults w) as [|[e|] rest] eqn:Ef; [|contradiction|];
    unfold after_create, set_collections, set_next_oid, set_console,
      set_faults; cbn; rewrite ?Ef; reflexivity.
Qed.

Lemma accepted_cast_Number (n m : JsNumber) :
  accepted always (cast_Number n) = Some m -> m = n /\ is_nan n = false.
Proof.
  unfold cast_Number. destruct (is_nan n); cbn; [discriminate|].
  intros [= <-]. split; reflexivity.
Qed.

Lemma accepted_cast_Date (d : JsDate) (t : Z) :
  accepted always (cast_Date d) = Some t -> d = Some t.
Proof.
  destruct d; cbn; [intros [= <-]; reflexivity | discriminate].
Qed.

(** What a validated draft says about the draft. *)
Lemma validated_collection_some (d : CollectionDraft) (c : CollectionDoc) :
  validated_collection d = Some c ->
  accepted nonempty (cd_userId d) = Some (c_userId c) /\
  accepted nonempty (cd_userName d) = Some (c_userName c) /\
  accepted nonempty (cd_wasteType d) = Some (c_wasteType c) /\
  accepted nonempty (cd_location d) = Some (c_location c) /\
  accepted nonempty (cd_address d) = Some (c_address c) /\
  accepted always (cd_dateTime d) = Some (c_dateTime c) /\
  accepted always (cd_kilograms d) = Some (c_kilograms c) /\
  accepted always (cd_rewardPoints d) = Some (c_rewardPoints c) /\
  cd_createdAt d = Valid (c_createdAt c) /\
  c_status c = cd_status d /\ c_id c = cd_id d.
Proof.
  unfold validated_collection.
  destruct (accepted nonempty (cd_userId d)); [|discriminate].
  destruct (accepted nonempty (cd_userName d)); [|discriminate].
  destruct (accepted nonempty (cd_wasteType d)); [|discriminate].
  destruct (accepted nonempty (cd_location d)); [|discriminate].
  destruct (accepted nonempty (cd_address d)); [|discriminate].
  destruct (accepted always (cd_dateTime d)); [|discriminate].
  destruct (accepted always (cd_kilograms d)); [|discriminate].
  destruct (accepted always (cd_rewardPoints d)); [|discriminate].
  destruct (cd_createdAt d); try discriminate.
  intros [= <-]. cbn. repeat split; reflexivity.
Qed.

(** Every way the creation handler can end once the presence check has
    passed: a stored record, or the 500 envelope and nothing stored. *)
Lemma post_collections_outcome (req_body : list (string * JsValue))
      (w : World) :
  all_present req_body = true ->
  let (r, w') := post_collections host req_body w in
  (exists c,
      r = inr (mkResponse 201
                 (JObj [("success", JBool true);
                        ("message", JStr "Collection scheduled successfully");
                        ("collection", collection_json host c)])) /\
      collections w' = (collections w ++ [c])%list /\
      c_status c = "pending" /\ c_createdAt c = now w /\
      parseable host (lookup "dateTime" req_body) = true /\
      numeric host (lookup "kilograms" req_body) = true /\
      numeric host (lookup "rewardPoints" req_body) = true /\
      store_up w) \/
  (exists e,
      r = inr (mkResponse 500
                 (JObj [("success", JBool false);
                        ("message", JStr ("Server error: " ++ err_message e));
                        ("stack", JStr (err_stack e))])) /\
      collections w' = collections w).
Proof.
  intros Hp. unfold post_collections, post_collections_try. run.
  rewrite presence_check, Hp. cbn [negb].
  unfold new_Date, js_Number, new_Date_now, new_Collection, fresh_object_id,
    parseable, numeric.
  run.
  destruct (to_date host (lookup "dateTime" req_body)) as [e|d];
    [right; exists e; split; reflexivity|].
  destruct (to_number host (lookup "kilograms" req_body)) as [e|kg];
    [right; exists e; split; reflexivity|].
  destruct (to_number host (lookup "rewardPoints" req_body)) as [e|rp];
    [right; exists e; split; reflexivity|].
  unfold Collection_save.
  match goal with
  | |- context [validated_collection ?d] =>
      destruct (validated_collection d) as [c|] eqn:Ev
  end.
  - apply validated_collection_some in Ev. cbn in Ev.
    destruct Ev as (_ & _ & _ & _ & _ & Hd & Hk & Hr & Ht & Hs & _).
    apply accepted_cast_Date in Hd. apply accepted_cast_Number in Hk, Hr.
    destruct Hk as [_ Hk]. destruct Hr as [_ Hr].
    injection Ht as Ht. run. unfold store_call, store_up. cbn [faults].
    unfold set_next_oid, set_console. cbn [faults].
    destruct (faults w) as [|[e|] rest] eqn:Ef.
    + left. exists c. cbn. rewrite Hd, Hk, Hr.
      repeat split; [assumption|symmetry; assumption].
    + right. exists e. split; reflexivity.
    + left. exists c. cbn. rewrite Hd, Hk, Hr.
      repeat split; [assumption|symmetry; assumption].
  - right. eexists. run. split; reflexivity.
Qed.

Lemma invalid_date_not_validated (d : CollectionDraft) :
  accepted always (cd_dateTime d) = None -> validated_collection d = None.
Proof.
  intros H. unfold validated_collection. rewrite H.
  destruct (accepted nonempty (cd_userId d)); [|reflexivity].
  destruct (accepted nonempty (cd_userName d)); [|reflexivity].
  destruct (accepted nonempty (cd_wasteType d)); [|reflexivity].
  destruct (accepted nonempty (cd_location d)); [|reflexivity].
  destruct (accepted nonempty (cd_address d)); reflexivity.
Qed.

Lemma invalid_points_not_validated (d : CollectionDraft) :
  accepted always (cd_rewardPoints d) = None -> validated_collection d = None.
Proof.
  intros H. unfold validated_collection. rewrite H.
  destruct (accepted nonempty (cd_userId d)); [|reflexivity].
  destruct (accepted nonempty (cd_userName d)); [|reflexivity].
  destruct (accepted nonempty (cd_wasteType d)); [|reflexivity].
  destruct (accepted nonempty (cd_location d)); [|reflexivity].
  destruct (accepted nonempty (cd_address d)); [|reflexivity].
  destruct (accepted always (cd_dateTime d)); [|reflexivity].
  destruct (accepted always (cd_kilograms d)); reflexivity.
Qed.

(** A draft the schema refuses: [save] throws Mongoose's
    ValidationError before any store call, and the catch block turns it
    into the 500 envelope. *)
Lemma post_collections_rejected (req_body : list (string * JsValue))
      (w : World) (d : JsDate) (kg rp : JsNumber) :
  all_present req_body = true ->
  to_date host (lookup "dateTime" req_body) = inr d ->
  to_number host (lookup "kilograms" req_body) = inr kg ->
  to_number host (lookup "rewardPoints" req_body) = inr rp ->
  validated_collection (drafted host req_body d kg rp w) = None ->
  let e := validation_error host "Collection"
             (collection_failures (drafted host req_body d kg rp w)) in
  post_collections host req_body w =
  (inr (mkResponse 500
          (JObj [("success", JBool false);
                 ("message", JStr ("Server error: " ++ err_message e));
                 ("stack", JStr (err_stack e))])),
   logged (LogError "Collection creation error:" e)
     (set_next_oid (S (next_oid w))
        (logged (LogValue "Received collection data:" (JObj req_body)) w))).
Proof.
  intros Hp Hd Hk Hr Hv e.
  unfold post_collections, post_collections_try. run.
  rewrite presence_check, Hp. cbn [negb].
  unfold new_Date, js_Number, new_Date_now, new_Collection, fresh_object_id.
  run. rewrite Hd, Hk, Hr. unfold Collection_save.
  unfold drafted in Hv, e.
  cbn [next_oid set_console now cast_Date].
  rewrite Hv. reflexivity.
Qed.

Lemma text_accepted_some (v : JsValue) :
  text_accepted host v = true ->
  exists s, accepted nonempty (cast_String host v) = Some s.
Proof.
  unfold text_accepted.
  destruct (accepted nonempty (cast_String host v)) as [s|];
    [exists s; reflexivity | discriminate].
Qed.

Lemma numeric_some (v : JsValue) :
  numeric host v = true ->
  exists n, to_number host v = inr n /\ is_nan n = false.
Proof.
  unfold numeric. destruct (to_number host v) as [e|n]; [discriminate|].
  intros H. exists n. split; [reflexivity|].
  destruct (is_nan n); [discriminate|reflexivity].
Qed.

Lemma parseable_some (v : JsValue) :
  parseable host v = true -> exists t, to_date host v = inr (Some t).
Proof.
  unfold parseable. destruct (to_date host v) as [e|[t|]]; try discriminate.
  exists t. reflexivity.
Qed.

(** C2, as amended. Take a request whose seven required fields are
    truthy. Whenever the handler answers 201, the record it stored has
    status "pending" and the server clock as its creation timestamp,
    whatever [status] or [createdAt] the body carries. It does answer 201
    when, besides, the five text fields are text the schema accepts, the
    date-time parses, the weight and the reward points are both numeric
    and the store call does not fail. *)
Theorem C2_created_pending (req_body : list (string * JsValue)) (w : World) :
  all_present req_body = true ->
  (forall resp w',
      post_collections host req_body w = (inr resp, w') ->
      status resp = 201%nat ->
      exists c,
        resp = mkResponse 201
                 (JObj [("success", JBool true);
                        ("message", JStr "Collection scheduled successfully");
                        ("collection", collection_json host c)]) /\
        collections w' = (collections w ++ [c])%list /\
        c_status c = "pending" /\
        c_createdAt c = now w) /\
  ((forall k, In k text_fields ->
              text_accepted host (lookup k req_body) = true) ->
   parseable host (lookup "dateTime" req_body) = true ->
   numeric host (lookup "kilograms" req_body) = true ->
   numeric host (lookup "rewardPoints" req_body) = true ->
   store_up w ->
   exists c w',
     post_collections host req_body w =
     (inr (mkResponse 201
             (JObj [("success", JBool true);
                    ("message", JStr "Collection scheduled successfully");
                    ("collection", collection_json host c)])), w') /\
     collections w' = (collections w ++ [c])%list /\
     c_status c = "pending" /\
     c_createdAt c = now w).
Proof.
  intros Hp. split.
  - intros resp w' H Hs.
    pose proof (post_collections_outcome req_body w Hp) as Ho.
    rewrite H in Ho.
    destruct Ho as [(c & [= ->] & Hc & Hst & Ht & _) | (e & [= ->] & _)];
      [|discriminate].
    exists c. repeat split; assumption.
  - intros Ht Hd Hk Hr Hup.
    destruct (text_accepted_some _ (Ht "userId" ltac:(cbn; tauto)))
      as [s1 H1].
    destruct (text_accepted_some _ (Ht "userName" ltac:(cbn; tauto)))
      as [s2 H2].
    destruct (text_accepted_some _ (Ht "wasteType" ltac:(cbn; tauto)))
      as [s3 H3].
    destruct (text_accepted_some _ (Ht "location" ltac:(cbn; tauto)))
      as [s4 H4].
    destruct (text_accepted_some _ (Ht "address" ltac:(cbn; tauto)))
      as [s5 H5].
    destruct (parseable_some _ Hd) as [t Hd'].
    destruct (numeric_some _ Hk) as (kg & Hk' & Hkn).
    destruct (numeric_some _ Hr) as (rp & Hr' & Hrn).
    eexists. eexists. split.
    + apply (post_collections_created req_body w s1 s2 s3 s4 s5 t kg rp);
        assumption.
    + repeat split; reflexivity.
Qed.

Lemma not_numeric_nan (v : JsValue) (n : JsNumber) :
  numeric host v = false -> to_number host v = inr n -> n = NaN.
Proof.
  unfold numeric. intros H E. rewrite E in H.
  destruct n; [reflexivity|discriminate|discriminate].
Qed.

(** C9. With the seven required fields truthy and [rewardPoints] absent
    or otherwise not numeric, the answer is not the 400 "Missing required
    fields": the presence check does not look at [rewardPoints]. The
    value only goes through [Number(...)]; the NaN it gives is refused by
    the schema when the document is saved, and the request ends in the
    500 envelope carrying that error's message, with nothing stored. *)
Theorem C9_reward_points_only_coerced (req_body : list (string * JsValue))
        (w : World) :
  all_present req_body = true ->
  numeric host (lookup "rewardPoints" req_body) = false ->
  numeric host JUndefined = false /\
  exists e w',
    post_collections host req_body w =
    (inr (mkResponse 500
            (JObj [("success", JBool false);
                   ("message", JStr ("Server error: " ++ err_message e));
                   ("stack", JStr (err_stack e))])), w') /\
    collections w' = collections w /\
    (forall d kg rp,
        to_date host (lookup "dateTime" req_body) = inr d ->
        to_number host (lookup "kilograms" req_body) = inr kg ->
        to_number host (lookup "rewardPoints" req_body) = inr rp ->
        rp = NaN /\ err_name e = "ValidationError" /\ faults w' = faults w).
Proof.
  intros Hp Hn. split; [reflexivity|].
  destruct (to_date host (lookup "dateTime" req_body)) as [e1|d] eqn:Ed;
  [|destruct (to_number host (lookup "kilograms" req_body)) as [e2|kg] eqn:Ek;
    [|destruct (to_number host (lookup "rewardPoints" req_body))
        as [e3|rp] eqn:Er]].
  4:{ assert (rp = NaN) as -> by (apply (not_numeric_nan _ _ Hn Er)).
      eexists. eexists. split.
      - apply (post_collections_rejected req_body w d kg NaN Hp Ed Ek Er).
        apply invalid_points_not_validated. reflexivity.
      - split; [reflexivity|]. intros d' kg' rp' _ _ [= <-].
        repeat split; reflexivity. }
  all: pose proof (post_collections_outcome req_body w Hp) as Ho;
    destruct (post_collections host req_body w) as [r w'];
    destruct Ho as [(c & _ & _ & _ & _ & Hd & Hk & Hr & _) | (e & -> & Hc)];
    [ rewrite Hr in Hn; discriminate
    | exists e, w'; split; [reflexivity|];
      split; [exact Hc|]; intros; discriminate ].
Qed.

(** C10. When [dateTime] is a non-empty string that [Date.parse] cannot
    read and the other six required fields are truthy, the presence check
    passes; [new Date(dateTime)] is an Invalid Date, and the request ends
    in the 500 envelope, not the 400 "Missing required fields", with
    nothing stored. When the two [Number(...)] conversions return, the
    error is the ValidationError [save] throws, before any store call. *)
Theorem C10_unparseable_date (req_body : list (string * JsValue)) (w : World)
        (s : string) :
  lookup "dateTime" req_body = JStr s ->
  s <> "" ->
  date_parse host s = None ->
  (forall k, In k required_fields -> k <> "dateTime" ->
             truthy (lookup k req_body) = true) ->
  all_present req_body = true /\
  to_date host (lookup "dateTime" req_body) = inr None /\
  exists e w',
    post_collections host req_body w =
    (inr (mkResponse 500
            (JObj [("success", JBool false);
                   ("message", JStr ("Server error: " ++ err_message e));
                   ("stack", JStr (err_stack e))])), w') /\
    collections w' = collections w /\
    (forall kg rp,
        to_number host (lookup "kilograms" req_body) = inr kg ->
        to_number host (lookup "rewardPoints" req_body) = inr rp ->
        err_name e = "ValidationError" /\ faults w' = faults w).
Proof.
  intros Hs Hne Hparse Hothers.
  assert (Hp : all_present req_body = true).
  { apply all_present_spec. intros k Hin.
    destruct (String.eqb_spec k "dateTime") as [->|Hk].
    - rewrite Hs. cbn. destruct (String.eqb_spec s ""); [contradiction|].
      reflexivity.
    - apply Hothers; assumption. }
  assert (Hd : to_date host (lookup "dateTime" req_body) = inr None).
  { rewrite Hs. cbn. rewrite Hparse. reflexivity. }
  split; [exact Hp|]. split; [exact Hd|].
  destruct (to_number host (lookup "kilograms" req_body)) as [e2|kg] eqn:Ek;
  [|destruct (to_number host (lookup "rewardPoints" req_body))
      as [e3|rp] eqn:Er].
  3:{ eexists. eexists. split.
      - apply (post_collections_rejected req_body w None kg rp Hp Hd Ek Er).
        apply invalid_date_not_validated. reflexivity.
      - split; [reflexivity|]. intros. split; reflexivity. }
  all: pose proof (post_collections_outcome req_body w Hp) as Ho;
    destruct (post_collections host req_body w) as [r w'];
    destruct Ho as [(c & _ & _ & _ & _ & Hd' & _) | (e & -> & Hc)];
    [ unfold parseable in Hd'; rewrite Hd in Hd'; discriminate
    | exists e, w'; split; [reflexivity|];
      split; [exact Hc|]; intros; discriminate ].
Qed.

(** *** Registration *)

Lemma filter_matcher_pure (v : JsValue) (w : World) :
  exists r, filter_matcher host v w = (r, w).
Proof.
  destruct v; cbn; eexists; reflexivity.
Qed.

Lemma store_call_cases (w : World) :
  (store_up w /\
   exists w', store_call w = (inr tt, w') /\ users w' = users w /\
              collections w' = collections w /\ now w' = now w /\
              next_oid w' = next_oid w /\ entropy w' = entropy w /\
              console w' = console w /\ faults w' = tl (faults w)) \/
  (exists e rest, faults w = Some e :: rest /\
                  store_call w = (inl e, set_faults rest w)).
Proof.
  unfold store_call, store_up.
  destruct (faults w) as [|[e|] rest] eqn:Ef.
  - left. split; [exact I|]. exists w. rewrite Ef. repeat split; reflexivity.
  - right. exists e, rest. split; reflexivity.
  - left. split; [exact I|]. eexists. repeat split; reflexivity.
Qed.

Lemma find_email_present (e : string) (l : list UserDoc) :
  In e (map u_email l) ->
  exists u, find (fun u => u_email u =? e) l = Some u /\ u_email u = e.
Proof.
  induction l as [|x l IH]; cbn; [contradiction|].
  intros [Hx|Hin].
  - exists x. rewrite Hx, String.eqb_refl. split; reflexivity.
  - destruct (String.eqb_spec (u_email x) e) as [Heq|Hne].
    + exists x. split; [reflexivity|exact Heq].
    + apply IH, Hin.
Qed.

(** [User.findOne({ email })] with a string: the first stored user with
    exactly that email, when the store call goes through. *)
Lemma User_findOne_string (e : string) (w : World) :
  store_up w ->
  exists w', User_findOne host (JStr e) w =
             (inr (find (fun u => u_email u =? e) (users w)), w') /\
             users w' = users w.
Proof.
  intros Hup. unfold User_findOne. cbn [filter_matcher]. run.
  destruct (store_call_cases w)
    as [(_ & w' & -> & Hu & _) | (e' & rest & Ef & _)].
  - exists w'. rewrite Hu. split; reflexivity.
  - unfold store_up in Hup. rewrite Ef in Hup. contradiction.
Qed.

(** Every way a registration can end. *)
Lemma post_auth_register_outcome (req_body : list (string * JsValue))
      (w : World) :
  let (r, w') := post_auth_register host req_body w in
  (r = inr (mkResponse 400 (JObj [("success", JBool false);
                                  ("message", JStr "User already exists")])) /\
   users w' = users w) \/
  (r = inr (mkResponse 500 (JObj [("success", JBool false);
                                  ("message", JStr "Server error")])) /\
   users w' = users w) \/
  (exists u,
      r = inr (mkResponse 201
                 (JObj [("success", JBool true);
                        ("message", JStr "User registered successfully");
                        ("user", public_user u)])) /\
      users w' = (users w ++ [u])%list /\
      email_taken (u_email u) (users w) = false /\
      cast_String host (lookup "email" req_body) = Valid (u_email u)).
Proof.
  unfold post_auth_register, post_auth_register_try, post_auth_register_catch,
    User_findOne.
  run.
  destruct (filter_matcher_pure (lookup "email" req_body) w) as [[e|m] ->];
    [right; left; split; reflexivity|].
  destruct (store_call_cases w)
    as [(_ & w1 & -> & Hu1 & _) | (e & rest & _ & ->)];
    [|right; left; split; reflexivity].
  destruct (find (fun u => m (u_email u)) (users w1));
    [left; split; [reflexivity|exact Hu1]|].
  unfold genSalt, hash. run.
  destruct (lookup "password" req_body);
    try (right; left; split; [reflexivity|exact Hu1]).
  unfold new_User, fresh_object_id, User_save. run.
  match goal with
  | |- context [validated_user ?d] =>
      destruct (validated_user d) as [u|] eqn:Ev
  end; [|right; left; split; [reflexivity|exact Hu1]].
  run.
  match goal with
  | |- context [store_call ?w2] =>
      destruct (store_call_cases w2)
        as [(_ & w3 & -> & Hu3 & _) | (e & rest & _ & ->)]
  end; [|right; left; split; [reflexivity|exact Hu1]].
  cbn in Hu3.
  destruct (email_taken (u_email u) (users w3)) eqn:Et;
    [right; left; split; [reflexivity|cbn; congruence]|].
  right; right. exists u. cbn. rewrite Hu3, Hu1 in *.
  repeat split; try assumption.
  unfold validated_user in Ev. cbn in Ev.
  destruct (accepted nonempty (cast_String host (lookup "name" req_body)));
    [|discriminate].
  destruct (cast_String host (lookup "email" req_body)) as [em| |];
    cbn in Ev; try discriminate.
  destruct (nonempty em); [|discriminate].
  destruct (nonempty (bcrypt_hash host s
                        (bcrypt_genSalt host 10 (entropy w1))));
    [|discriminate].
  destruct (accepted nonempty (cast_String host (lookup "phone" req_body)));
    [|discriminate].
  injection Ev as <-. reflexivity.
Qed.

Lemma email_taken_present (e : string) (l : list UserDoc) :
  In e (map u_email l) -> email_taken e l = true.
Proof.
  intros Hin. unfold email_taken. apply existsb_exists.
  apply in_map_iff in Hin. destruct Hin as (u & Hu & Hin).
  exists u. split; [exact Hin|]. rewrite Hu. apply String.eqb_refl.
Qed.

(** Registering an email the store already holds, store call permitting. *)
Lemma post_auth_register_duplicate (req_body : list (string * JsValue))
      (w : World) (e : string) :
  lookup "email" req_body = JStr e ->
  In e (map u_email (users w)) ->
  store_up w ->
  fst (post_auth_register host req_body w) =
  inr (mkResponse 400 (JObj [("success", JBool false);
                             ("message", JStr "User already exists")])).
Proof.
  intros He Hin Hup.
  unfold post_auth_register, post_auth_register_try. run. rewrite He.
  destruct (User_findOne_string e w Hup) as (w' & -> & _).
  destruct (find_email_present e (users w) Hin) as (u & -> & _).
  reflexivity.
Qed.

(** After a successful registration the email is in the store, so the
    next registration with it meets the case above. *)
Lemma registered_email_present (req_body : list (string * JsValue))
      (w w' : World) (resp : Response) (e : string) :
  lookup "email" req_body = JStr e ->
  post_auth_register host req_body w = (inr resp, w') ->
  status resp = 201%nat ->
  In e (map u_email (users w')).
Proof.
  intros He H Hs.
  pose proof (post_auth_register_outcome req_body w) as Ho. rewrite H in Ho.
  destruct Ho as [[[= ->] _] | [[[= ->] _] | (u & _ & Hu & _ & Hc)]];
    try discriminate.
  rewrite He in Hc. cbn in Hc. injection Hc as Hc.
  rewrite Hu, map_app. apply in_or_app. right. cbn. left.
  symmetry. exact Hc.
Qed.

(** C3. Registering with an email that a stored user already has never
    succeeds and never adds a record: the user records are the same
    after the call. When the lookup goes through, the answer is the 400
    "User already exists". *)
Theorem C3_duplicate_identity (req_body : list (string * JsValue)) (w : World)
        (e : string) :
  lookup "email" req_body = JStr e ->
  In e (map u_email (users w)) ->
  let (r, w') := post_auth_register host req_body w in
  users w' = users w /\
  (forall resp, r = inr resp -> status resp <> 201) /\
  (store_up w ->
   r = inr (mkResponse 400 (JObj [("success", JBool false);
                                  ("message", JStr "User already exists")]))).
Proof.
  intros He Hin.
  pose proof (post_auth_register_outcome req_body w) as Ho.
  pose proof (post_auth_register_duplicate req_body w e He Hin) as Hd.
  destruct (post_auth_register host req_body w) as [r w']. cbn [fst] in Hd.
  destruct Ho as [[-> Hu] | [[-> Hu] | (u & _ & _ & Ht & Hc)]].
  - split; [exact Hu|]. split; [|exact Hd].
    intros resp [= <-]. cbn. discriminate.
  - split; [exact Hu|]. split; [|exact Hd].
    intros resp [= <-]. cbn. discriminate.
  - rewrite He in Hc. cbn in Hc. injection Hc as Hc. rewrite <- Hc in Ht.
    rewrite (email_taken_present e (users w) Hin) in Ht. discriminate.
Qed.

(** *** Login *)

(** With a password that bcrypt compares and rejects, a login that finds
    no user and a login that finds one get the same response, the 400
    "Invalid credentials". *)
Lemma login_failures_identical
      (unknown wrong : list (string * JsValue)) (w1 w1' w2 w2' w2'' : World)
      (u : UserDoc) :
  User_findOne host (lookup "email" unknown) w1 = (inr None, w1') ->
  User_findOne host (lookup "email" wrong) w2 = (inr (Some u), w2') ->
  compare host (lookup "password" wrong) (u_password u) w2' =
  (inr false, w2'') ->
  fst (post_auth_login host unknown w1) = fst (post_auth_login host wrong w2) /\
  fst (post_auth_login host unknown w1) =
  inr (mkResponse 400 (JObj [("success", JBool false);
                             ("message", JStr "Invalid credentials")])).
Proof.
  intros H1 H2 H3.
  unfold post_auth_login, post_auth_login_try. run.
  rewrite H1, H2, H3. cbn. split; reflexivity.
Qed.

(** C7. The two login failures are not always answered alike. With
    Alice stored and the number 123456 sent as password, the login for
    Alice's email has a password that does not verify against her hash
    and is answered 500 "Server error" ([bcrypt.compare] rejects a
    password that is not a string, and the catch block answers), while
    the login for an unknown email is answered 400 "Invalid credentials":
    the caller learns which emails are registered. *)
Theorem C7_login_failures_distinguished :
  User_findOne host (lookup "email" numeric_password_unknown) alice_world =
  (inr None, alice_world) /\
  User_findOne host (lookup "email" numeric_password_login) alice_world =
  (inr (Some alice), alice_world) /\
  lookup "password" numeric_password_login =
  lookup "password" numeric_password_unknown /\
  fst (post_auth_login host numeric_password_unknown alice_world) =
  inr (mkResponse 400 (JObj [("success", JBool false);
                             ("message", JStr "Invalid credentials")])) /\
  fst (post_auth_login host numeric_password_login alice_world) =
  inr (mkResponse 500 (JObj [("success", JBool false);
                             ("message", JStr "Server error")])) /\
  fst (post_auth_login host numeric_password_unknown alice_world) <>
  fst (post_auth_login host numeric_password_login alice_world).
Proof.
  split; [reflexivity|]. split; [reflexivity|]. split; [reflexivity|].
  split; [reflexivity|]. split; [reflexivity|].
  cbv. discriminate.
Qed.

(** *** Listing collections *)

Lemma insert_desc_perm (rank : CollectionDoc -> nat) (d : CollectionDoc)
      (l : list CollectionDoc) :
  Permutation (insert_desc rank d l) (d :: l).
Proof.
  induction l as [|x l IH]; cbn; [reflexivity|].
  destruct (listed_before rank d x); [reflexivity|].
  rewrite IH. apply perm_swap.
Qed.

Lemma sort_createdAt_desc_perm (rank : CollectionDoc -> nat)
      (l : list CollectionDoc) :
  Permutation (sort_createdAt_desc rank l) l.
Proof.
  induction l as [|d l IH]; cbn; [reflexivity|].
  rewrite insert_desc_perm, IH. reflexivity.
Qed.

Lemma listed_before_true (rank : CollectionDoc -> nat) (d x : CollectionDoc) :
  listed_before rank d x = true -> (c_createdAt x <= c_createdAt d)%Z.
Proof.
  unfold listed_before. intros H. apply orb_true_iff in H.
  destruct H as [H|H].
  - apply Z.ltb_lt in H. lia.
  - apply andb_true_iff in H. destruct H as [H _].
    apply Z.eqb_eq in H. lia.
Qed.

Lemma listed_before_false (rank : CollectionDoc -> nat) (d x : CollectionDoc) :
  listed_before rank d x = false -> (c_createdAt d <= c_createdAt x)%Z.
Proof.
  unfold listed_before. intros H. apply orb_false_iff in H.
  destruct H as [H _]. apply Z.ltb_ge in H. exact H.
Qed.

Lemma insert_desc_sorted (rank : CollectionDoc -> nat) (d : CollectionDoc)
      (l : list CollectionDoc) :
  StronglySorted newer_first l ->
  StronglySorted newer_first (insert_desc rank d l).
Proof.
  induction 1 as [|x l Hs IH Hx]; cbn.
  - repeat constructor.
  - destruct (listed_before rank d x) eqn:Hb.
    + apply listed_before_true in Hb.
      constructor; [constructor; assumption|].
      constructor; [exact Hb|].
      eapply Forall_impl; [|exact Hx]. unfold newer_first. intros; lia.
    + apply listed_before_false in Hb.
      constructor; [exact IH|].
      eapply Permutation_Forall;
        [symmetry; apply insert_desc_perm|].
      constructor; [exact Hb | exact Hx].
Qed.

Lemma sort_createdAt_desc_sorted (rank : CollectionDoc -> nat)
      (l : list CollectionDoc) :
  StronglySorted newer_first (sort_createdAt_desc rank l).
Proof.
  induction l as [|d l IH]; cbn; [constructor|].
  apply insert_desc_sorted, IH.
Qed.

Lemma filter_perm {A} (p : A -> bool) (l l' : list A) :
  Permutation l l' -> Permutation (filter p l) (filter p l').
Proof.
  induction 1 as [|x l l' _ IH|x y l|l l' l'' _ IH1 _ IH2]; cbn.
  - constructor.
  - destruct (p x); [constructor|]; exact IH.
  - destruct (p x), (p y); try reflexivity. apply perm_swap.
  - etransitivity; eassumption.
Qed.

Lemma filter_sorted {A} (R : A -> A -> Prop) (p : A -> bool) (l : list A) :
  StronglySorted R l -> StronglySorted R (filter p l).
Proof.
  induction 1 as [|x l Hs IH Hx]; cbn; [constructor|].
  destruct (p x); [|exact IH].
  constructor; [exact IH|].
  apply Forall_forall. intros y Hy. apply filter_In in Hy.
  rewrite Forall_forall in Hx. apply Hx, Hy.
Qed.

(** In a sorted list, what stands before an element is related to it. *)
Lemma sorted_before {A} (R : A -> A -> Prop) (l1 l2 : list A) (a : A) :
  StronglySorted R (l1 ++ a :: l2) -> Forall (fun x => R x a) l1.
Proof.
  induction l1 as [|x l1 IH]; cbn; intros H; [constructor|].
  inversion H as [|? ? Hs Hx]; subst. constructor.
  - rewrite Forall_forall in Hx. apply Hx. apply in_or_app. right. left.
    reflexivity.
  - apply IH, Hs.
Qed.

Lemma precedes_sorted {A} (R : A -> A -> Prop) (a b : A) (l : list A) :
  StronglySorted R l -> precedes a b l -> R a b.
Proof.
  intros Hs (l1 & l2 & l3 & ->).
  change (l1 ++ a :: l2 ++ b :: l3)%list
    with (l1 ++ (a :: l2) ++ b :: l3)%list in Hs.
  rewrite app_assoc in Hs. apply sorted_before in Hs.
  rewrite Forall_forall in Hs. apply Hs. apply in_or_app. right. left.
  reflexivity.
Qed.

(** Two records with different stamps stand in the order of their
    stamps in every most-recent-first listing that has both. *)
Lemma precedes_by_stamp (a b : CollectionDoc) (l : list CollectionDoc) :
  StronglySorted newer_first l -> In a l -> In b l ->
  (c_createdAt b < c_createdAt a)%Z -> precedes a b l.
Proof.
  intros Hs Ha Hb Hlt.
  destruct (in_split a l Ha) as (l1 & r & ->).
  apply in_app_or in Hb. destruct Hb as [Hb|[Hb|Hb]].
  - apply sorted_before in Hs. rewrite Forall_forall in Hs.
    specialize (Hs b Hb). unfold newer_first in Hs. lia.
  - subst b. lia.
  - destruct (in_split b r Hb) as (l2 & l3 & ->).
    exists l1, l2, l3. reflexivity.
Qed.

Lemma same_stamp_same_record (l : list CollectionDoc) (a b : CollectionDoc) :
  NoDup (map c_createdAt l) -> In a l -> In b l ->
  c_createdAt a = c_createdAt b -> a = b.
Proof.
  induction l as [|x l IH]; cbn; [contradiction|].
  intros Hnd Ha Hb Heq. inversion Hnd as [|? ? Hx Hl]; subst.
  destruct Ha as [<-|Ha], Hb as [<-|Hb].
  - reflexivity.
  - exfalso. apply Hx. rewrite Heq. apply in_map, Hb.
  - exfalso. apply Hx. rewrite <- Heq. apply in_map, Ha.
  - apply IH; assumption.
Qed.

(** With pairwise different stamps there is one most-recent-first
    listing of the same records. *)
Lemma sorted_perm_unique (l1 l2 : list CollectionDoc) :
  NoDup (map c_createdAt l1) ->
  StronglySorted newer_first l1 -> StronglySorted newer_first l2 ->
  Permutation l1 l2 -> l1 = l2.
Proof.
  revert l2. induction l1 as [|a t1 IH]; intros l2 Hnd H1 H2 Hp.
  - apply Permutation_nil in Hp. subst. reflexivity.
  - destruct l2 as [|b t2].
    { apply Permutation_sym, Permutation_nil in Hp. discriminate. }
    assert (Hab : a = b).
    { assert (Hb : In b (a :: t1)).
      { apply (Permutation_in b (Permutation_sym Hp)). left. reflexivity. }
      assert (Ha : In a (b :: t2)).
      { apply (Permutation_in a Hp). left. reflexivity. }
      apply (same_stamp_same_record (a :: t1)); try assumption;
        [left; reflexivity|].
      inversion H1 as [|? ? _ Hx1]; subst.
      inversion H2 as [|? ? _ Hx2]; subst.
      rewrite Forall_forall in Hx1, Hx2. unfold newer_first in *.
      destruct Hb as [Hb|Hb]; [subst; reflexivity|].
      destruct Ha as [Ha|Ha]; [subst; reflexivity|].
      specialize (Hx1 b Hb). specialize (Hx2 a Ha). lia. }
    subst b. f_equal.
    inversion Hnd; subst. inversion H1; subst. inversion H2; subst.
    apply IH; try assumption.
    apply (Permutation_cons_inv Hp).
Qed.

Lemma NoDup_map_perm {A B} (f : A -> B) (l l' : list A) :
  Permutation l l' -> NoDup (map f l) -> NoDup (map f l').
Proof.
  intros Hp. apply Permutation_NoDup. apply Permutation_map, Hp.
Qed.

(** Among records with pairwise different creation stamps, those kept by
    a filter have pairwise different stamps too. *)
Lemma stamps_unique_filter (keep : CollectionDoc -> bool)
      (stored : list CollectionDoc) :
  NoDup (map c_createdAt stored) ->
  NoDup (map c_createdAt (filter keep stored)).
Proof.
  induction stored as [|c stored IH]; cbn; intros Hnd; [constructor|].
  apply NoDup_cons_iff in Hnd. destruct Hnd as [Hc Hrest].
  destruct (keep c); [|exact (IH Hrest)].
  cbn. apply NoDup_cons; [|exact (IH Hrest)].
  intros Hin. apply Hc. apply in_map_iff in Hin.
  destruct Hin as (y & Hy & Hin). apply filter_In in Hin.
  rewrite <- Hy. apply in_map, Hin.
Qed.

Lemma Collection_find_sorted_ok (userId : option string) (w : World) :
  store_up w ->
  fst (Collection_find_sorted host userId w) =
  inr (sort_createdAt_desc (tie_order host userId)
         match userId with
         | None => collections w
         | Some u => filter (fun c => c_userId c =? u) (collections w)
         end).
Proof.
  intros Hup. unfold Collection_find_sorted. run.
  destruct (store_call_cases w)
    as [(_ & w' & -> & _ & Hc & _) | (e & rest & Ef & _)].
  - rewrite Hc. reflexivity.
  - unfold store_up in Hup. rewrite Ef in Hup. contradiction.
Qed.

Lemma get_collections_ok (w : World) :
  store_up w ->
  fst (get_collections host w) =
  inr (mkResponse 200
         (JObj [("success", JBool true);
                ("collections",
                 JArr (map (collection_json host)
                           (sort_createdAt_desc (tie_order host None)
                                                (collections w))))])).
Proof.
  intros Hup. pose proof (Collection_find_sorted_ok None w Hup) as H.
  unfold get_collections, get_collections_try. run.
  destruct (Collection_find_sorted host None w) as [r w']. cbn in H.
  rewrite H. reflexivity.
Qed.

Lemma get_collections_user_ok (u : string) (w : World) :
  store_up w ->
  fst (get_collections_user host u w) =
  inr (mkResponse 200
         (JObj [("success", JBool true);
                ("collections",
                 JArr (map (collection_json host)
                           (sort_createdAt_desc
                              (tie_order host (Some u))
                              (filter (fun c => c_userId c =? u)
                                      (collections w)))))])).
Proof.
  intros Hup. pose proof (Collection_find_sorted_ok (Some u) w Hup) as H.
  unfold get_collections_user, get_collections_user_try. run.
  destruct (Collection_find_sorted host (Some u) w) as [r w']. cbn in H.
  rewrite H. reflexivity.
Qed.

(** C5, as amended. When the store answers, the per-user listing holds
    exactly the stored records whose [userId] is the string asked for,
    each as often as it is stored, most recent first. Two of its records
    with different creation timestamps stand in the same relative order
    as in the full listing. The order among records with equal
    timestamps is the store's choice in each query, so it need not agree
    between the two listings; when the stored timestamps are pairwise
    different, the per-user listing is the full listing with every
    record of another owner dropped. *)
Theorem C5_list_by_user (u : string) (w : World) :
  store_up w ->
  exists all mine,
    fst (get_collections host w) =
    inr (mkResponse 200
           (JObj [("success", JBool true);
                  ("collections", JArr (map (collection_json host) all))])) /\
    fst (get_collections_user host u w) =
    inr (mkResponse 200
           (JObj [("success", JBool true);
                  ("collections", JArr (map (collection_json host) mine))])) /\
    Permutation all (collections w) /\
    Permutation mine (filter (fun c => c_userId c =? u) all) /\
    (forall c, In c mine <-> In c (collections w) /\ c_userId c = u) /\
    StronglySorted (fun a b => (c_createdAt b <= c_createdAt a)%Z) mine /\
    (forall a b, precedes a b mine -> c_createdAt a <> c_createdAt b ->
                 precedes a b all) /\
    (NoDup (map c_createdAt (collections w)) ->
     mine = filter (fun c => c_userId c =? u) all).
Proof.
  intros Hup.
  set (p := fun c => c_userId c =? u).
  set (all := sort_createdAt_desc (tie_order host None) (collections w)).
  set (mine := sort_createdAt_desc (tie_order host (Some u))
                                   (filter p (collections w))).
  assert (Hall : Permutation all (collections w))
    by apply sort_createdAt_desc_perm.
  assert (Hmine : Permutation mine (filter p (collections w)))
    by apply sort_createdAt_desc_perm.
  assert (Hsa : StronglySorted newer_first all)
    by apply sort_createdAt_desc_sorted.
  assert (Hsm : StronglySorted newer_first mine)
    by apply sort_createdAt_desc_sorted.
  assert (Hpf : Permutation mine (filter p all)).
  { rewrite Hmine. apply filter_perm. symmetry. exact Hall. }
  exists all, mine.
  split; [apply get_collections_ok, Hup|].
  split; [apply get_collections_user_ok, Hup|].
  split; [exact Hall|]. split; [exact Hpf|]. split; [|split; [exact Hsm|split]].
  - intros c. split.
    + intros Hin. apply (Permutation_in _ Hmine) in Hin.
      apply filter_In in Hin. destruct Hin as [Hin Hu].
      split; [exact Hin|]. apply String.eqb_eq, Hu.
    + intros [Hin Hu].
      apply (Permutation_in _ (Permutation_sym Hmine)).
      apply filter_In. split; [exact Hin|]. apply String.eqb_eq, Hu.
  - intros a b Hab Hne.
    pose proof (precedes_sorted _ a b mine Hsm Hab) as Hle.
    unfold newer_first in Hle.
    destruct Hab as (l1 & l2 & l3 & Heq).
    assert (Ha : In a mine).
    { rewrite Heq. apply in_or_app. right. left. reflexivity. }
    assert (Hb : In b mine).
    { rewrite Heq. apply in_or_app. right. right. apply in_or_app. right.
      left. reflexivity. }
    apply (Permutation_in _ Hpf) in Ha, Hb.
    apply filter_In in Ha, Hb.
    apply precedes_by_stamp; [exact Hsa|apply Ha|apply Hb|lia].
  - intros Hnd. apply sorted_perm_unique.
    + apply (NoDup_map_perm _ _ _ (Permutation_sym Hmine)).
      apply stamps_unique_filter, Hnd.
    + exact Hsm.
    + apply filter_sorted, Hsa.
    + exact Hpf.
Qed.

(** C6. When the store answers, the full listing holds every stored
    record, each as often as it is stored, and no record stands before
    one with a later creation timestamp. *)
Theorem C6_list_all_most_recent_first (w : World) :
  store_up w ->
  exists all,
    fst (get_collections host w) =
    inr (mkResponse 200
           (JObj [("success", JBool true);
                  ("collections", JArr (map (collection_json host) all))])) /\
    Permutation all (collections w) /\
    StronglySorted (fun a b => (c_createdAt b <= c_createdAt a)%Z) all.
Proof.
  intros Hup.
  exists (sort_createdAt_desc (tie_order host None) (collections w)).
  split; [apply get_collections_ok, Hup|].
  split; [apply sort_createdAt_desc_perm|].
  apply sort_createdAt_desc_sorted.
Qed.

(** *** Store errors *)

Lemma prefix_refl (s : string) : String.prefix s s = true.
Proof.
  induction s as [|a s IH]; cbn; [reflexivity|].
  destruct (Ascii.ascii_dec a a) as [_|Hne]; [exact IH|contradiction].
Qed.

Lemma includes_refl (s : string) : includes s s = true.
Proof.
  destruct s; cbn; [reflexivity|].
  rewrite prefix_refl.
  destruct (Ascii.ascii_dec a a) as [_|Hne]; [reflexivity|contradiction].
Qed.

Lemma includes_suffix (p s : string) : includes (p ++ s) s = true.
Proof.
  induction p as [|a p IH]; cbn [append].
  - apply includes_refl.
  - cbn [includes]. rewrite IH.
    destruct (String.prefix s (String a (p ++ s))); reflexivity.
Qed.

(** The catch blocks: whatever the try block throws becomes a 500
    envelope; only the creation handler puts the error's message in. *)
Lemma post_auth_register_catches (b : list (string * JsValue)) (w w1 : World)
      (e : JsError) :
  post_auth_register_try host b w = (inl e, w1) ->
  post_auth_register host b w =
  (inr server_error_response, logged (LogError "Registration error:" e) w1).
Proof.
  intros H. unfold post_auth_register, try_catch. rewrite H. reflexivity.
Qed.

Lemma post_auth_login_catches (b : list (string * JsValue)) (w w1 : World)
      (e : JsError) :
  post_auth_login_try host b w = (inl e, w1) ->
  post_auth_login host b w =
  (inr server_error_response, logged (LogError "Login error:" e) w1).
Proof.
  intros H. unfold post_auth_login, try_catch. rewrite H. reflexivity.
Qed.

Lemma post_collections_catches (b : list (string * JsValue)) (w w1 : World)
      (e : JsError) :
  post_collections_try host b w = (inl e, w1) ->
  post_collections host b w =
  (inr (persistence_failure_response e),
   logged (LogError "Collection creation error:" e) w1).
Proof.
  intros H. unfold post_collections, try_catch. rewrite H. reflexivity.
Qed.

Lemma get_collections_catches (w w1 : World) (e : JsError) :
  get_collections_try host w = (inl e, w1) ->
  get_collections host w =
  (inr server_error_response, logged (LogError "Get collections error:" e) w1).
Proof.
  intros H. unfold get_collections, try_catch. rewrite H. reflexivity.
Qed.

Lemma get_collections_user_catches (u : string) (w w1 : World) (e : JsError) :
  get_collections_user_try host u w = (inl e, w1) ->
  get_collections_user host u w =
  (inr server_error_response,
   logged (LogError "Get user collections error:" e) w1).
Proof.
  intros H. unfold get_collections_user, try_catch. rewrite H. reflexivity.
Qed.

Lemma store_call_fails (e : JsError) (w : World) :
  store_fails e w -> exists w1, store_call w = (inl e, w1) /\
                                collections w1 = collections w /\
                                users w1 = users w.
Proof.
  intros [rest Hf]. unfold store_call. rewrite Hf.
  eexists. repeat split; reflexivity.
Qed.

(** A lookup by email never comes back while the store is failing. *)
Lemma User_findOne_fails (e : JsError) (v : JsValue) (w : World) :
  store_fails e w -> exists e' w1, User_findOne host v w = (inl e', w1).
Proof.
  intros Hf. unfold User_findOne. run.
  destruct (filter_matcher_pure v w) as [[e'|m] ->].
  - exists e', w. reflexivity.
  - destruct (store_call_fails e w Hf) as (w1 & -> & _).
    exists e, w1. reflexivity.
Qed.

Lemma Collection_find_sorted_fails (e : JsError) (f : option string)
      (w : World) :
  store_fails e w ->
  exists w1, Collection_find_sorted host f w = (inl e, w1).
Proof.
  intros Hf. unfold Collection_find_sorted. run.
  destruct (store_call_fails e w Hf) as (w1 & -> & _).
  exists w1. reflexivity.
Qed.

(** A valid creation request whose insert the store refuses. *)
Lemma post_collections_store_fails (req_body : list (string * JsValue))
      (w : World) (e : JsError) :
  all_present req_body = true ->
  (forall k, In k text_fields ->
             text_accepted host (lookup k req_body) = true) ->
  parseable host (lookup "dateTime" req_body) = true ->
  numeric host (lookup "kilograms" req_body) = true ->
  numeric host (lookup "rewardPoints" req_body) = true ->
  store_fails e w ->
  exists w', post_collections host req_body w =
             (inr (persistence_failure_response e), w') /\
             collections w' = collections w.
Proof.
  intros Hp Ht Hd Hk Hr [rest Hf].
  destruct (text_accepted_some _ (Ht "userId" ltac:(cbn; tauto))) as [s1 H1].
  destruct (text_accepted_some _ (Ht "userName" ltac:(cbn; tauto))) as [s2 H2].
  destruct (text_accepted_some _ (Ht "wasteType" ltac:(cbn; tauto))) as [s3 H3].
  destruct (text_accepted_some _ (Ht "location" ltac:(cbn; tauto))) as [s4 H4].
  destruct (text_accepted_some _ (Ht "address" ltac:(cbn; tauto))) as [s5 H5].
  destruct (parseable_some _ Hd) as [t Hd'].
  destruct (numeric_some _ Hk) as (kg & Hk' & Hkn).
  destruct (numeric_some _ Hr) as (rp & Hr' & Hrn).
  unfold post_collections, post_collections_try. run.
  rewrite presence_check, Hp. cbn [negb].
  unfold new_Date, js_Number, new_Date_now, new_Collection, fresh_object_id.
  run. rewrite Hd', Hk', Hr'.
  unfold Collection_save, validated_collection.
  cbn [cd_userId cd_userName cd_wasteType cd_location cd_address cd_dateTime
       cd_kilograms cd_rewardPoints cd_status cd_createdAt cd_id].
  rewrite H1, H2, H3, H4, H5.
  rewrite (cast_Number_numeric kg Hkn), (cast_Number_numeric rp Hrn).
  cbn [cast_Date accepted always]. run.
  unfold store_call, set_next_oid, set_console. cbn [faults]. rewrite Hf.
  eexists. split; reflexivity.
Qed.

(** *** What responses show of a user *)

(** Every way a login can end. *)
Lemma post_auth_login_outcome (req_body : list (string * JsValue)) (w : World) :
  let (r, w') := post_auth_login host req_body w in
  r = inr (mkResponse 400 (JObj [("success", JBool false);
                                 ("message", JStr "Invalid credentials")])) \/
  r = inr (mkResponse 500 (JObj [("success", JBool false);
                                 ("message", JStr "Server error")])) \/
  exists u token,
    r = inr (mkResponse 200 (JObj [("success", JBool true);
                                   ("token", JStr token);
                                   ("user", public_user u)])) /\
    In u (users w).
Proof.
  unfold post_auth_login, post_auth_login_try, post_auth_login_catch,
    User_findOne.
  run.
  destruct (filter_matcher_pure (lookup "email" req_body) w) as [[e|m] ->];
    [right; left; reflexivity|].
  destruct (store_call_cases w)
    as [(_ & w1 & -> & Hu1 & _) | (e & rest & _ & ->)];
    [|right; left; reflexivity].
  destruct (find (fun u => m (u_email u)) (users w1)) as [u|] eqn:Ef;
    [|left; reflexivity].
  apply find_some in Ef. destruct Ef as [Hin _]. rewrite Hu1 in Hin.
  unfold compare, sign. run.
  destruct (lookup "password" req_body); try (right; left; reflexivity).
  destruct (bcrypt_compare host s (u_password u)); cbn [negb];
    [|left; reflexivity].
  right; right. eexists. eexists. split; [reflexivity|exact Hin].
Qed.

(** Every way listing the users can end. *)
Lemma get_users_outcome (w : World) :
  let (r, w') := get_users host w in
  r = inr (mkResponse 500 (JObj [("success", JBool false);
                                 ("message", JStr "Server error")])) \/
  r = inr (mkResponse 200 (JObj [("success", JBool true);
                                 ("users",
                                  JArr (map (listed_user host) (users w)))])).
Proof.
  unfold get_users, get_users_try, get_users_catch, User_find_without_password.
  run.
  destruct (store_call_cases w)
    as [(_ & w1 & -> & Hu1 & _) | (e & rest & _ & ->)];
    [|left; reflexivity].
  right. rewrite Hu1. reflexivity.
Qed.

Lemma listed_users_no_password (l : list UserDoc) :
  existsb (mentions_key "password") (map (listed_user host) l) = false.
Proof.
  induction l as [|u l IH]; cbn; [reflexivity|exact IH].
Qed.

Lemma listed_users_keys (l : list UserDoc) :
  Forall (fun v => object_keys v =
                   ["_id"; "name"; "email"; "phone"; "createdAt"; "__v"])
         (map (listed_user host) l).
Proof.
  induction l as [|u l IH]; cbn; constructor; [reflexivity|exact IH].
Qed.

(** The users listing is the same whatever password hashes are stored. *)
Lemma listed_user_ignores_password (u : UserDoc) (h : string) :
  listed_user host (mkUser (u_id u) (u_name u) (u_email u) h (u_phone u)
                           (u_createdAt u) (u_v u)) = listed_user host u.
Proof.
  reflexivity.
Qed.

End Properties.

(* ================================================================== *)
(** ** The properties at work on the example host *)

(** A creation request with [kilograms] zero is turned away with its
    payload echoed, and the store stays empty. *)
Lemma C1_witness :
  In "kilograms" required_fields /\
  truthy (lookup "kilograms" zero_kilograms_request) = false /\
  fst (post_collections test_host zero_kilograms_request empty_world) =
  inr (missing_fields_response zero_kilograms_request) /\
  collections (snd (post_collections test_host zero_kilograms_request
                                     empty_world)) = [].
Proof.
  assert (Hin : In "kilograms" required_fields) by (cbn; tauto).
  assert (Hk : truthy (lookup "kilograms" zero_kilograms_request) = false)
    by reflexivity.
  split; [exact Hin|]. split; [exact Hk|].
  pose proof (C1_missing_fields test_host zero_kilograms_request empty_world
                                "kilograms" Hin Hk) as H.
  destruct (post_collections test_host zero_kilograms_request empty_world)
    as [r w'].
  destruct H as (Hr & Hc & _). split; [exact Hr | exact Hc].
Defined.

Lemma full_request_text (k : string) :
  In k text_fields -> text_accepted test_host (lookup k full_request) = true.
Proof.
  intros [<-|[<-|[<-|[<-|[<-|[]]]]]]; reflexivity.
Defined.

(** The complete request is stored as pending although it asked for
    "completed". *)
Lemma C2_witness :
  all_present full_request = true /\
  parseable test_host (lookup "dateTime" full_request) = true /\
  numeric test_host (lookup "kilograms" full_request) = true /\
  numeric test_host (lookup "rewardPoints" full_request) = true /\
  store_up empty_world /\
  lookup "status" full_request = JStr "completed" /\
  exists c w',
    post_collections test_host full_request empty_world =
    (inr (mkResponse 201
            (JObj [("success", JBool true);
                   ("message", JStr "Collection scheduled successfully");
                   ("collection", collection_json test_host c)])), w') /\
    collections w' = (collections empty_world ++ [c])%list /\
    c_status c = "pending" /\
    c_createdAt c = now empty_world.
Proof.
  repeat (split; [reflexivity || exact I|]).
  destruct (C2_created_pending test_host full_request empty_world eq_refl)
    as [_ H].
  apply H;
    [exact full_request_text | reflexivity | reflexivity | reflexivity
     | exact I].
Defined.

(** C2 as stated fails: the request below has the seven required fields
    truthy, a date-time that parses and a numeric weight, and the store
    is up, yet no record is created; without [rewardPoints] the schema
    refuses the document and the answer is the 500 envelope. *)
Lemma C2_counterexample :
  all_present no_points_request = true /\
  parseable test_host (lookup "dateTime" no_points_request) = true /\
  numeric test_host (lookup "kilograms" no_points_request) = true /\
  store_up empty_world /\
  lookup "rewardPoints" no_points_request = JUndefined /\
  status_of (fst (post_collections test_host no_points_request empty_world))
  = Some 500%nat /\
  collections (snd (post_collections test_host no_points_request empty_world))
  = [].
Proof.
  repeat split; reflexivity || exact I.
Qed.

(** Registering Alice's email again changes nothing and is refused. *)
Lemma C3_witness :
  lookup "email" alice_registration = JStr "a@x.com" /\
  In "a@x.com" (map u_email (users alice_world)) /\
  store_up alice_world /\
  users (snd (post_auth_register test_host alice_registration alice_world))
  = [alice] /\
  fst (post_auth_register test_host alice_registration alice_world) =
  inr duplicate_identity_response.
Proof.
  assert (He : lookup "email" alice_registration = JStr "a@x.com")
    by reflexivity.
  assert (Hin : In "a@x.com" (map u_email (users alice_world)))
    by (cbn; tauto).
  split; [exact He|]. split; [exact Hin|]. split; [exact I|].
  pose proof (C3_duplicate_identity test_host alice_registration alice_world
                                    "a@x.com" He Hin) as H.
  destruct (post_auth_register test_host alice_registration alice_world)
    as [r w'].
  destruct H as (Hu & _ & Hr). split; [exact Hu | exact (Hr I)].
Defined.

(** C4 as stated fails for list-users: the view it returns of Alice is
    free of the password, but it does not consist only of identifier,
    name, email and phone; the creation timestamp is in it too. *)
Lemma C4_counterexample :
  exists view,
    fst (get_users test_host alice_world) =
    inr (mkResponse 200 (JObj [("success", JBool true);
                               ("users", JArr [view])])) /\
    has_key "password" (match view with JObj p => p | _ => [] end) = false /\
    get_prop "createdAt" view = JStr "1970-01-01T00:00:00.000Z" /\
    object_keys view <> ["_id"; "name"; "email"; "phone"].
Proof.
  eexists. split; [reflexivity|]. split; [reflexivity|].
  split; [reflexivity|]. cbn. discriminate.
Qed.

Lemma three_pickups_stamps :
  NoDup (map c_createdAt (collections three_pickups)).
Proof.
  cbn. repeat constructor; cbn; intros H;
    repeat (destruct H as [H|H]; [discriminate|]); exact H.
Defined.

(** Of three pickups with different stamps, the two of user "u1" come
    back in the order the full listing has them. *)
Lemma C5_witness :
  store_up three_pickups /\
  NoDup (map c_createdAt (collections three_pickups)) /\
  exists all mine,
    fst (get_collections test_host three_pickups) =
    inr (mkResponse 200
           (JObj [("success", JBool true);
                  ("collections",
                   JArr (map (collection_json test_host) all))])) /\
    fst (get_collections_user test_host "u1" three_pickups) =
    inr (mkResponse 200
           (JObj [("success", JBool true);
                  ("collections",
                   JArr (map (collection_json test_host) mine))])) /\
    Permutation all (collections three_pickups) /\
    mine = filter (fun c => c_userId c =? "u1") all.
Proof.
  split; [exact I|]. split; [exact three_pickups_stamps|].
  destruct (C5_list_by_user test_host "u1" three_pickups I)
    as (all & mine & H1 & H2 & H3 & _ & _ & _ & _ & H8).
  exists all, mine.
  split; [exact H1|]. split; [exact H2|]. split; [exact H3|].
  exact (H8 three_pickups_stamps).
Defined.

(** C5 as stated fails where two records carry the same creation
    timestamp: the store settles their order in each query, and here it
    returns the two pickups of "u1" one way round in the full listing and
    the other way round in the listing of "u1". *)
Lemma C5_counterexample :
  store_up tied_pickups /\
  fst (get_collections late_host tied_pickups) =
  inr (mkResponse 200
         (JObj [("success", JBool true);
                ("collections",
                 JArr (map (collection_json late_host)
                           [pickup "oid0" "u1" 10; pickup "oid1" "u1" 10]))])) /\
  fst (get_collections_user late_host "u1" tied_pickups) =
  inr (mkResponse 200
         (JObj [("success", JBool true);
                ("collections",
                 JArr (map (collection_json late_host)
                           [pickup "oid1" "u1" 10; pickup "oid0" "u1" 10]))])) /\
  [pickup "oid1" "u1" 10; pickup "oid0" "u1" 10] <>
  filter (fun c => c_userId c =? "u1")
         [pickup "oid0" "u1" 10; pickup "oid1" "u1" 10].
Proof.
  split; [exact I|]. split; [reflexivity|]. split; [reflexivity|].
  cbn. discriminate.
Qed.

(** Three pickups stored out of order are listed most recent first. *)
Lemma C6_witness :
  store_up three_pickups /\
  exists all,
    fst (get_collections test_host three_pickups) =
    inr (mkResponse 200
           (JObj [("success", JBool true);
                  ("collections",
                   JArr (map (collection_json test_host) all))])) /\
    Permutation all (collections three_pickups) /\
    StronglySorted (fun a b => (c_createdAt b <= c_createdAt a)%Z) all.
Proof.
  split; [exact I|].
  apply (C6_list_all_most_recent_first test_host three_pickups I).
Defined.

(** C8 as stated fails for register: the store raises "connection
    refused" and the response message is "Server error", which does not
    include the store's message. *)
Lemma C8_counterexample :
  store_fails network_error failing_store /\
  fst (post_auth_register test_host bob_registration failing_store) =
  inr (mkResponse 500 (JObj [("success", JBool false);
                             ("message", JStr "Server error")])) /\
  includes "Server error" (err_message network_error) = false.
Proof.
  split; [exists []; reflexivity|]. split; reflexivity.
Qed.

(** Without [rewardPoints] the request is not "missing fields": it gets
    as far as the schema and comes back as the 500 envelope. *)
Lemma C9_witness :
  all_present no_points_request = true /\
  numeric test_host (lookup "rewardPoints" no_points_request) = false /\
  exists e w',
    post_collections test_host no_points_request empty_world =
    (inr (mkResponse 500
            (JObj [("success", JBool false);
                   ("message", JStr ("Server error: " ++ err_message e));
                   ("stack", JStr (err_stack e))])), w') /\
    collections w' = collections empty_world.
Proof.
  split; [reflexivity|]. split; [reflexivity|].
  destruct (C9_reward_points_only_coerced test_host no_points_request
              empty_world eq_refl eq_refl) as (_ & e & w' & H & Hc & _).
  exists e, w'. split; [exact H | exact Hc].
Defined.

Lemma bad_date_others_present (k : string) :
  In k required_fields -> k <> "dateTime" ->
  truthy (lookup k bad_date_request) = true.
Proof.
  intros [<-|[<-|[<-|[<-|[<-|[<-|[<-|[]]]]]]]] Hk;
    try reflexivity; contradiction.
Defined.

(** "next tuesday" passes the presence check and ends as the 500
    envelope. *)
Lemma C10_witness :
  lookup "dateTime" bad_date_request = JStr "next tuesday" /\
  "next tuesday" <> "" /\
  date_parse test_host "next tuesday" = None /\
  all_present bad_date_request = true /\
  exists e w',
    post_collections test_host bad_date_request empty_world =
    (inr (mkResponse 500
            (JObj [("success", JBool false);
                   ("message", JStr ("Server error: " ++ err_message e));
                   ("stack", JStr (err_stack e))])), w') /\
    collections w' = collections empty_world.
Proof.
  assert (Hne : "next tuesday" <> "") by discriminate.
  split; [reflexivity|]. split; [exact Hne|]. split; [reflexivity|].
  destruct (C10_unparseable_date test_host bad_date_request empty_world
              "next tuesday" eq_refl Hne eq_refl bad_date_others_present)
    as (Hp & _ & e & w' & H & Hc & _).
  split; [exact Hp|]. exists e, w'. split; [exact H | exact Hc].
Defined.

(* ================================================================== *)
(** ** Further properties of the handlers *)

Section Frames.

Variable host : Host.

(** *** What a computation leaves alone *)

Lemma keeps_ret {A B} (f : World -> B) (a : A) : keeps f (ret a).
Proof. intros w. reflexivity. Qed.

Lemma keeps_throw {A B} (f : World -> B) (e : JsError) :
  keeps f (@throw A e).
Proof. intros w. reflexivity. Qed.

Lemma keeps_lift {A B} (f : World -> B) (r : Result A) : keeps f (lift r).
Proof. intros w. reflexivity. Qed.

Lemma keeps_gets {A B} (f : World -> B) (g : World -> A) : keeps f (gets g).
Proof. intros w. reflexivity. Qed.

Lemma keeps_modify {B} (f : World -> B) (g : World -> World) :
  (forall w, f (g w) = f w) -> keeps f (modify g).
Proof. intros H w. apply H. Qed.

Lemma keeps_bind {A C B} (f : World -> B) (m : M A) (k : A -> M C) :
  keeps f m -> (forall a, keeps f (k a)) -> keeps f (bind m k).
Proof.
  intros Hm Hk w. unfold bind. specialize (Hm w).
  destruct (m w) as [[e|a] w1]; cbn in *; [exact Hm|].
  rewrite (Hk a w1). exact Hm.
Qed.

Lemma keeps_try_catch {A B} (f : World -> B) (m : M A)
      (h : JsError -> M A) :
  keeps f m -> (forall e, keeps f (h e)) -> keeps f (try_catch m h).
Proof.
  intros Hm Hh w. unfold try_catch. specialize (Hm w).
  destruct (m w) as [[e|a] w1]; cbn in *; [|exact Hm].
  rewrite (Hh e w1). exact Hm.
Qed.

Lemma keeps_store_call : keeps stored store_call.
Proof.
  intros w. unfold store_call.
  destruct (faults w) as [|[e|] rest]; reflexivity.
Qed.

Lemma keeps_console_error (label : string) (e : JsError) :
  keeps stored (console_error label e).
Proof. intros w. reflexivity. Qed.

Lemma keeps_console_log (label : string) (v : JsValue) :
  keeps stored (console_log label v).
Proof. intros w. reflexivity. Qed.

Lemma keeps_json {B} (f : World -> B) (code : nat)
      (props : list (string * JsValue)) :
  keeps f (json code props).
Proof. intros w. reflexivity. Qed.

Lemma keeps_User_findOne (v : JsValue) : keeps stored (User_findOne host v).
Proof.
  unfold User_findOne. apply keeps_bind.
  - destruct v; cbn; first [apply keeps_ret | apply keeps_lift].
  - intros m. apply keeps_bind; [apply keeps_store_call|]. intros _.
    apply keeps_bind; [apply keeps_gets|]. intros us. apply keeps_ret.
Qed.

Lemma keeps_Collection_find_sorted (f : option string) :
  keeps stored (Collection_find_sorted host f).
Proof.
  unfold Collection_find_sorted.
  apply keeps_bind; [apply keeps_store_call|]. intros _.
  apply keeps_bind; [apply keeps_gets|]. intros cs. apply keeps_ret.
Qed.

Lemma keeps_compare (v : JsValue) (h : string) :
  keeps stored (compare host v h).
Proof. destruct v; cbn; first [apply keeps_ret | apply keeps_throw]. Qed.

Lemma keeps_post_auth_login (b : list (string * JsValue)) :
  keeps stored (post_auth_login host b).
Proof.
  unfold post_auth_login. apply keeps_try_catch.
  - unfold post_auth_login_try.
    apply keeps_bind; [apply keeps_User_findOne|].
    intros [u|]; [|apply keeps_json].
    apply keeps_bind; [apply keeps_compare|].
    intros [|]; cbn [negb]; [|apply keeps_json].
    apply keeps_bind; [|intros t; apply keeps_json].
    unfold sign. apply keeps_bind; [apply keeps_gets|].
    intros t. apply keeps_ret.
  - intros e. unfold post_auth_login_catch.
    apply keeps_bind; [apply keeps_console_error|].
    intros _. apply keeps_json.
Qed.

Lemma keeps_get_collections : keeps stored (get_collections host).
Proof.
  unfold get_collections. apply keeps_try_catch.
  - unfold get_collections_try.
    apply keeps_bind; [apply keeps_Collection_find_sorted|].
    intros cs. apply keeps_json.
  - intros e. unfold get_collections_catch.
    apply keeps_bind; [apply keeps_console_error|].
    intros _. apply keeps_json.
Qed.

Lemma keeps_get_collections_user (u : string) :
  keeps stored (get_collections_user host u).
Proof.
  unfold get_collections_user. apply keeps_try_catch.
  - unfold get_collections_user_try.
    apply keeps_bind; [apply keeps_Collection_find_sorted|].
    intros cs. apply keeps_json.
  - intros e. unfold get_collections_user_catch.
    apply keeps_bind; [apply keeps_console_error|].
    intros _. apply keeps_json.
Qed.

Lemma keeps_get_users : keeps stored (get_users host).
Proof.
  unfold get_users. apply keeps_try_catch.
  - unfold get_users_try. apply keeps_bind; [|intros l; apply keeps_json].
    unfold User_find_without_password.
    apply keeps_bind; [apply keeps_store_call|]. intros _.
    apply keeps_bind; [apply keeps_gets|]. intros us. apply keeps_ret.
  - intros e. unfold get_users_catch.
    apply keeps_bind; [apply keeps_console_error|].
    intros _. apply keeps_json.
Qed.

(** X1. Login and the three listing routes only read: whatever the
    request and whatever the store does, the stored users and collection
    records are the same after the call, and no ObjectId or salt is
    drawn. *)
Theorem X1_readers_change_nothing (w : World) :
  (forall b, stored (snd (post_auth_login host b w)) = stored w) /\
  stored (snd (get_collections host w)) = stored w /\
  (forall u, stored (snd (get_collections_user host u w)) = stored w) /\
  stored (snd (get_users host w)) = stored w.
Proof.
  split; [intros b; apply keeps_post_auth_login|].
  split; [apply keeps_get_collections|].
  split; [intros u; apply keeps_get_collections_user|].
  apply keeps_get_users.
Qed.

(** *** Registration and login, end to end *)

Lemma calls_up_next (n : nat) (w : World) :
  calls_up (S n) w -> store_up w /\ no_fault_in n (tl (faults w)).
Proof.
  unfold calls_up, store_up. destruct (faults w) as [|[e|] rest]; cbn.
  - intros _. split; [exact I|]. destruct n; exact I.
  - intros [].
  - intros H. split; [exact I|exact H].
Qed.

Lemma store_call_up (w : World) :
  store_up w ->
  store_call w = (inr tt, set_faults (tl (faults w)) w) \/
  (faults w = [] /\ store_call w = (inr tt, w)).
Proof.
  unfold store_up, store_call. destruct (faults w) as [|[e|] rest] eqn:Ef.
  - intros _. right. split; reflexivity.
  - intros [].
  - intros _. left. reflexivity.
Qed.

Lemma find_email_absent (e : string) (l : list UserDoc) :
  ~ In e (map u_email l) -> find (fun u => u_email u =? e) l = None.
Proof.
  induction l as [|x l IH]; cbn; [reflexivity|].
  intros H. destruct (String.eqb_spec (u_email x) e) as [Heq|Hne].
  - exfalso. apply H. left. exact Heq.
  - apply IH. intros Hin. apply H. right. exact Hin.
Qed.

Lemma email_taken_absent (e : string) (l : list UserDoc) :
  ~ In e (map u_email l) -> email_taken e l = false.
Proof.
  intros H. unfold email_taken.
  destruct (existsb (fun u => u_email u =? e) l) eqn:E; [|reflexivity].
  apply existsb_exists in E. destruct E as (u & Hin & Hu).
  exfalso. apply H. apply in_map_iff. exists u.
  split; [apply String.eqb_eq, Hu | exact Hin].
Qed.

Lemma find_email_appended (e : string) (l : list UserDoc) (u : UserDoc) :
  ~ In e (map u_email l) -> u_email u = e ->
  find (fun x => u_email x =? e) (l ++ [u]) = Some u.
Proof.
  intros Habs Hu. induction l as [|x l IH]; cbn.
  - rewrite Hu, String.eqb_refl. reflexivity.
  - destruct (String.eqb_spec (u_email x) e) as [Heq|Hne].
    + exfalso. apply Habs. left. exact Heq.
    + apply IH. intros Hin. apply Habs. right. exact Hin.
Qed.

Lemma post_auth_register_created (b : list (string * JsValue)) (w : World)
      (name email password phone : string) :
  lookup "name" b = JStr name -> name <> "" ->
  lookup "email" b = JStr email -> email <> "" ->
  lookup "password" b = JStr password ->
  lookup "phone" b = JStr phone -> phone <> "" ->
  bcrypt_hash host password (bcrypt_genSalt host 10 (entropy w)) <> "" ->
  ~ In email (map u_email (users w)) ->
  calls_up 2 w ->
  let u := registered_user host w name email password phone in
  post_auth_register host b w =
  (inr (mkResponse 201
          (JObj [("success", JBool true);
                 ("message", JStr "User registered successfully");
                 ("user", public_user u)])),
   mkWorld (users w ++ [u]) (collections w) (now w) (S (next_oid w))
           (S (entropy w)) (tl (tl (faults w))) (console w)).
Proof.
  intros Hn Hn0 He He0 Hp Hph Hph0 Hh Hfresh Hup u.
  apply calls_up_next in Hup. destruct Hup as [Hup1 Hup2].
  unfold post_auth_register, post_auth_register_try, User_findOne.
  run. rewrite Hn, He, Hp, Hph. cbn [filter_matcher]. run.
  assert (Hnone : forall w1, users w1 = users w ->
            find (fun x => u_email x =? email) (users w1) = None).
  { intros w1 ->. apply find_email_absent, Hfresh. }
  assert (Hval : forall id t,
            validated_user
              (mkUserDraft id (cast_String host (JStr name))
                 (cast_String host (JStr email))
                 (cast_String host
                    (JStr (bcrypt_hash host password
                             (bcrypt_genSalt host 10 (entropy w)))))
                 (cast_String host (JStr phone)) t) =
            Some (mkUser id name email
                    (bcrypt_hash host password
                       (bcrypt_genSalt host 10 (entropy w)))
                    phone t 0)).
  { intros id t. unfold validated_user, accepted, nonempty. cbn.
    destruct (String.eqb_spec name ""); [contradiction|].
    destruct (String.eqb_spec email ""); [contradiction|].
    destruct (String.eqb_spec
                (bcrypt_hash host password
                   (bcrypt_genSalt host 10 (entropy w))) "");
      [contradiction|].
    destruct (String.eqb_spec phone ""); [contradiction|].
    reflexivity. }
  unfold store_up in Hup1. unfold store_call at 1.
  destruct (faults w) as [|[e1|] rest] eqn:Ef; [|contradiction|].
  - rewrite (Hnone w eq_refl).
    unfold genSalt, hash, new_User, fresh_object_id, User_save. run.
    cbn [entropy next_oid now set_entropy set_next_oid].
    rewrite Hval. run. unfold store_call.
    cbn [faults set_entropy set_next_oid]. rewrite Ef.
    cbn [users u_email set_entropy set_next_oid].
    rewrite (email_taken_absent email (users w) Hfresh).
    unfold set_users, set_next_oid, set_entropy. cbn. rewrite ?Ef.
    reflexivity.
  - rewrite (Hnone (set_faults rest w) eq_refl).
    unfold genSalt, hash, new_User, fresh_object_id, User_save. run.
    cbn [entropy next_oid now set_entropy set_next_oid set_faults].
    rewrite Hval. run. unfold store_call.
    cbn [faults set_entropy set_next_oid set_faults].
    cbn in Hup2.
    destruct rest as [|[e2|] rest2]; [|destruct Hup2|];
      cbn [users u_email set_entropy set_next_oid set_faults];
      rewrite (email_taken_absent email (users w) Hfresh);
      unfold set_users, set_next_oid, set_entropy, set_faults; cbn;
      reflexivity.
Qed.

(** X2. A registration with non-empty string name, email and phone, a
    string password whose hash is not empty, and an email no stored user
    has, answers 201 when its two store calls go through. The response
    shows the new user's identifier, name, email and phone. The store
    gains exactly that user, at the end, with the bcrypt hash of the
    password under a fresh 10-round salt in place of the password; the
    collection records stay as they were. *)
Theorem X2_register_creates_user (b : list (string * JsValue)) (w : World)
        (name email password phone : string) :
  lookup "name" b = JStr name -> name <> "" ->
  lookup "email" b = JStr email -> email <> "" ->
  lookup "password" b = JStr password ->
  lookup "phone" b = JStr phone -> phone <> "" ->
  bcrypt_hash host password (bcrypt_genSalt host 10 (entropy w)) <> "" ->
  ~ In email (map u_email (users w)) ->
  calls_up 2 w ->
  let id := new_object_id host (next_oid w) in
    fst (post_auth_register host b w) =
    inr (mkResponse 201
           (JObj [("success", JBool true);
                  ("message", JStr "User registered successfully");
                  ("user", JObj [("_id", JStr id); ("name", JStr name);
                                 ("email", JStr email);
                                 ("phone", JStr phone)])])) /\
    users (snd (post_auth_register host b w)) =
    (users w ++
     [mkUser id name email
             (bcrypt_hash host password (bcrypt_genSalt host 10 (entropy w)))
             phone (now w) 0])%list /\
    collections (snd (post_auth_register host b w)) = collections w.
Proof.
  intros Hn Hn0 He He0 Hp Hph Hph0 Hh Hfresh Hup id.
  rewrite (post_auth_register_created b w name email password phone);
    try assumption.
  repeat split; reflexivity.
Qed.

Lemma User_findOne_string_after (e : string) (w : World) :
  store_up w ->
  exists w', User_findOne host (JStr e) w =
             (inr (find (fun u => u_email u =? e) (users w)), w') /\
             users w' = users w /\ now w' = now w.
Proof.
  intros Hup. unfold User_findOne. cbn [filter_matcher]. run.
  destruct (store_call_cases w)
    as [(_ & w' & -> & Hu & _ & Hn & _) | (e' & rest & Ef & _)].
  - exists w'. rewrite Hu. repeat split; assumption.
  - unfold store_up in Hup. rewrite Ef in Hup. contradiction.
Qed.

(** Login with a string email, while the store answers. *)
Lemma post_auth_login_string (b : list (string * JsValue)) (w : World)
      (e : string) :
  lookup "email" b = JStr e ->
  store_up w ->
  fst (post_auth_login host b w) =
  match find (fun u => u_email u =? e) (users w) with
  | None => inr invalid_credentials_response
  | Some u =>
      match lookup "password" b with
      | JStr p =>
          if bcrypt_compare host p (u_password u) then
            inr (mkResponse 200
                   (JObj [("success", JBool true);
                          ("token",
                           JStr (jwt_sign host (JObj [("id", JStr (u_id u))])
                                          "your_jwt_secret" "1d" (now w)));
                          ("user", public_user u)]))
          else inr invalid_credentials_response
      | _ => inr server_error_response
      end
  end.
Proof.
  intros He Hup. unfold post_auth_login, post_auth_login_try. run.
  rewrite He.
  destruct (User_findOne_string_after e w Hup) as (w' & -> & _ & Hn).
  destruct (find (fun u => u_email u =? e) (users w)) as [u|];
    [|reflexivity].
  unfold compare, sign. run.
  destruct (lookup "password" b); try reflexivity.
  destruct (bcrypt_compare host s (u_password u)); cbn [negb];
    [|reflexivity].
  rewrite Hn. reflexivity.
Qed.

(** X3. Login with a string email and a string password, while the
    store answers, is decided by the first stored user with exactly that
    email: if there is one and bcrypt accepts the password against its
    stored hash, the answer is 200 with that user's public view and a
    token signed over its identifier with the secret "your_jwt_secret"
    and expiry "1d"; in every other case it is the 400 "Invalid
    credentials". *)
Theorem X3_login_decision (b : list (string * JsValue)) (w : World)
        (e p : string) :
  lookup "email" b = JStr e ->
  lookup "password" b = JStr p ->
  store_up w ->
  fst (post_auth_login host b w) =
  match find (fun u => u_email u =? e) (users w) with
  | Some u =>
      if bcrypt_compare host p (u_password u) then
        inr (mkResponse 200
               (JObj [("success", JBool true);
                      ("token",
                       JStr (jwt_sign host (JObj [("id", JStr (u_id u))])
                                      "your_jwt_secret" "1d" (now w)));
                      ("user", JObj [("_id", JStr (u_id u));
                                     ("name", JStr (u_name u));
                                     ("email", JStr (u_email u));
                                     ("phone", JStr (u_phone u))])]))
      else
        inr (mkResponse 400 (JObj [("success", JBool false);
                                   ("message", JStr "Invalid credentials")]))
  | None =>
      inr (mkResponse 400 (JObj [("success", JBool false);
                                 ("message", JStr "Invalid credentials")]))
  end.
Proof.
  intros He Hp Hup. rewrite (post_auth_login_string b w e He Hup), Hp.
  reflexivity.
Qed.

(** X4. A login whose password is not a string (absent, null, a number,
    ...) tells a registered email from an unknown one: while the store
    answers, it gets the 500 "Server error" when a stored user has the
    email, because bcrypt refuses the argument, and the 400 "Invalid
    credentials" when none has. *)
Theorem X4_login_without_password (b : list (string * JsValue)) (w : World)
        (e : string) :
  lookup "email" b = JStr e ->
  (forall p, lookup "password" b <> JStr p) ->
  store_up w ->
  (In e (map u_email (users w)) ->
   fst (post_auth_login host b w) =
   inr (mkResponse 500 (JObj [("success", JBool false);
                              ("message", JStr "Server error")]))) /\
  (~ In e (map u_email (users w)) ->
   fst (post_auth_login host b w) =
   inr (mkResponse 400 (JObj [("success", JBool false);
                              ("message", JStr "Invalid credentials")]))).
Proof.
  intros He Hp Hup. rewrite (post_auth_login_string b w e He Hup). split.
  - intros Hin. destruct (find_email_present e (users w) Hin)
      as (u & -> & _).
    destruct (lookup "password" b) as [| | | |p| |]; try reflexivity.
    exfalso. apply (Hp p). reflexivity.
  - intros Habs. rewrite (find_email_absent e (users w) Habs). reflexivity.
Qed.

(** X5. Register, then log in. After a registration as in X2, a login
    with the same email and password is answered 200 with the public
    view of the user just stored, provided bcrypt accepts a password
    against its own hash and the store answers a third time. *)
Theorem X5_register_then_login (b b' : list (string * JsValue)) (w : World)
        (name email password phone : string) :
  lookup "name" b = JStr name -> name <> "" ->
  lookup "email" b = JStr email -> email <> "" ->
  lookup "password" b = JStr password ->
  lookup "phone" b = JStr phone -> phone <> "" ->
  bcrypt_hash host password (bcrypt_genSalt host 10 (entropy w)) <> "" ->
  ~ In email (map u_email (users w)) ->
  lookup "email" b' = JStr email ->
  lookup "password" b' = JStr password ->
  bcrypt_compare host password
    (bcrypt_hash host password (bcrypt_genSalt host 10 (entropy w))) = true ->
  calls_up 3 w ->
  let u := registered_user host w name email password phone in
  let w1 := snd (post_auth_register host b w) in
  fst (post_auth_login host b' w1) =
  inr (mkResponse 200
         (JObj [("success", JBool true);
                ("token",
                 JStr (jwt_sign host (JObj [("id", JStr (u_id u))])
                                "your_jwt_secret" "1d" (now w)));
                ("user", public_user u)])).
Proof.
  intros Hn Hn0 He He0 Hp Hph Hph0 Hh Hfresh He' Hp' Hcmp Hup u w1.
  assert (Hup2 : calls_up 2 w).
  { unfold calls_up in *. destruct (faults w) as [|[x|] [|[y|] r]]; cbn in *;
      try exact I; try contradiction. }
  assert (Hup3 : store_up w1).
  { unfold w1.
    rewrite (post_auth_register_created b w name email password phone);
      try assumption.
    unfold store_up, calls_up in *. cbn.
    destruct (faults w) as [|[x|] [|[y|] [|[z|] r]]]; cbn in *;
      try exact I; try contradiction. }
  rewrite (post_auth_login_string b' w1 email He' Hup3), Hp'.
  unfold w1.
  rewrite (post_auth_register_created b w name email password phone);
    try assumption.
  cbn [snd users now].
  rewrite (find_email_appended email (users w)
             (registered_user host w name email password phone)
             Hfresh eq_refl).
  cbn [u_password registered_user]. rewrite Hcmp. reflexivity.
Qed.

Lemma accepted_string (v : JsValue) (s : string) :
  accepted nonempty (cast_String host v) = Some s -> s <> "".
Proof.
  unfold accepted. destruct (cast_String host v) as [x| |]; try discriminate.
  unfold nonempty. destruct (String.eqb_spec x ""); cbn; [discriminate|].
  intros [= <-]. assumption.
Qed.

(** What a 201 from registration says about the request and the store. *)
Lemma post_auth_register_201 (b : list (string * JsValue)) (w w' : World)
      (resp : Response) :
  post_auth_register host b w = (inr resp, w') ->
  status resp = 201%nat ->
  exists name email password phone,
    accepted nonempty (cast_String host (lookup "name" b)) = Some name /\
    accepted nonempty (cast_String host (lookup "email" b)) = Some email /\
    lookup "password" b = JStr password /\
    accepted nonempty (cast_String host (lookup "phone" b)) = Some phone /\
    email_taken email (users w) = false /\
    resp = mkResponse 201
             (JObj [("success", JBool true);
                    ("message", JStr "User registered successfully");
                    ("user", public_user
                               (registered_user host w name email password
                                                phone))]) /\
    users w' = (users w ++
                [registered_user host w name email password phone])%list.
Proof.
  unfold post_auth_register, post_auth_register_try, post_auth_register_catch,
    User_findOne.
  run.
  destruct (filter_matcher_pure host (lookup "email" b) w) as [[e|m] ->];
    [intros [= <- _]; discriminate|].
  destruct (store_call_cases w)
    as [(_ & w1 & -> & Hu1 & _ & Hn1 & Ho1 & He1 & _) | (e & rest & _ & ->)];
    [|intros [= <- _]; discriminate].
  destruct (find (fun u => m (u_email u)) (users w1));
    [intros [= <- _]; discriminate|].
  unfold genSalt, hash. run.
  destruct (lookup "password" b) as [| | | |p| |];
    try (intros [= <- _]; discriminate).
  unfold new_User, fresh_object_id, User_save. run.
  cbn [next_oid now set_entropy set_next_oid].
  match goal with
  | |- context [validated_user ?d] =>
      destruct (validated_user d) as [u|] eqn:Ev
  end; [|intros [= <- _]; discriminate].
  run.
  match goal with
  | |- context [store_call ?w2] =>
      destruct (store_call_cases w2)
        as [(_ & w3 & -> & Hu3 & _) | (e & rest & _ & ->)]
  end; [|intros [= <- _]; discriminate].
  cbn in Hu3.
  destruct (email_taken (u_email u) (users w3)) eqn:Et;
    [intros [= <- _]; discriminate|].
  intros [= <- <-] _.
  unfold validated_user in Ev. cbn in Ev.
  destruct (accepted nonempty (cast_String host (lookup "name" b)))
    as [name|] eqn:En; [|discriminate].
  destruct (accepted nonempty (cast_String host (lookup "email" b)))
    as [email|] eqn:Ee; [|discriminate].
  destruct (nonempty (bcrypt_hash host p
                        (bcrypt_genSalt host 10 (entropy w1))));
    [|discriminate].
  destruct (accepted nonempty (cast_String host (lookup "phone" b)))
    as [phone|] eqn:Eph; [|discriminate].
  injection Ev as <-. cbn [u_email] in Et.
  exists name, email, p, phone.
  unfold registered_user. rewrite <- Hn1, <- Ho1, <- He1.
  rewrite Hu3, Hu1 in Et.
  repeat split; try reflexivity; try assumption.
  cbn. rewrite Hu3, Hu1. reflexivity.
Qed.

(** X6. A registration is answered 201 only when the password is a
    string and name, email and phone are values the schema takes as
    non-empty text, and no stored user had the email. The user it then
    stores holds the bcrypt hash of the password under a fresh 10-round
    salt, the ObjectId drawn by the server and the server clock as
    creation time: nothing in the body sets the identifier, the creation
    time or the stored password directly. *)
Theorem X6_register_201_only_if (b : list (string * JsValue)) (w w' : World)
        (resp : Response) :
  post_auth_register host b w = (inr resp, w') ->
  status resp = 201%nat ->
  exists name email password phone,
    cast_String host (lookup "name" b) = Valid name /\ name <> "" /\
    cast_String host (lookup "email" b) = Valid email /\ email <> "" /\
    lookup "password" b = JStr password /\
    cast_String host (lookup "phone" b) = Valid phone /\ phone <> "" /\
    ~ In email (map u_email (users w)) /\
    users w' =
    (users w ++
     [mkUser (new_object_id host (next_oid w)) name email
             (bcrypt_hash host password (bcrypt_genSalt host 10 (entropy w)))
             phone (now w) 0])%list.
Proof.
  intros H Hs.
  destruct (post_auth_register_201 b w w' resp H Hs)
    as (name & email & password & phone & Hn & He & Hp & Hph & Ht & _ & Hu).
  exists name, email, password, phone.
  assert (Hv : forall v s, accepted nonempty (cast_String host v) = Some s ->
                           cast_String host v = Valid s).
  { intros v s. unfold accepted.
    destruct (cast_String host v) as [x| |]; try discriminate.
    destruct (nonempty x); [|discriminate]. intros [= <-]. reflexivity. }
  repeat split;
    try (apply Hv; assumption);
    try (eapply accepted_string; eassumption);
    try assumption.
  intros Hin. rewrite (email_taken_present email (users w) Hin) in Ht.
  discriminate.
Qed.

(** *** Creating and listing collections *)

Lemma nonempty_truthy (s : string) : s <> "" -> truthy (JStr s) = true.
Proof.
  intros H. cbn. destruct (String.eqb_spec s ""); [contradiction|reflexivity].
Qed.

Lemma nonempty_accepted (s : string) :
  s <> "" -> accepted nonempty (cast_String host (JStr s)) = Some s.
Proof.
  intros H. cbn. unfold nonempty.
  destruct (String.eqb_spec s ""); [contradiction|reflexivity].
Qed.

Lemma number_truthy_not_nan (n : JsNumber) :
  number_truthy n = true -> is_nan n = false.
Proof. destruct n; cbn; [discriminate|reflexivity|reflexivity]. Qed.

Lemma pickup_request_present (b : list (string * JsValue))
      (userId userName wasteType location address : string) (t : Z)
      (kg : JsNumber) :
  pickup_request host b userId userName wasteType location address t kg ->
  all_present b = true.
Proof.
  intros ((H1 & N1) & (H2 & N2) & (H3 & N3) & (H4 & N4) & (H5 & N5)
          & (d & Hd & Nd & _) & (Hk & Tk)).
  apply all_present_spec.
  intros k [<-|[<-|[<-|[<-|[<-|[<-|[<-|[]]]]]]]].
  - rewrite H1. apply nonempty_truthy, N1.
  - rewrite H2. apply nonempty_truthy, N2.
  - rewrite H3. apply nonempty_truthy, N3.
  - rewrite H4. apply nonempty_truthy, N4.
  - rewrite H5. apply nonempty_truthy, N5.
  - rewrite Hd. apply nonempty_truthy, Nd.
  - rewrite Hk. exact Tk.
Qed.

(** A request in the documented shape, with reward points that coerce to
    the number [rp]: the exact outcome. *)
Lemma post_collections_pickup (b : list (string * JsValue)) (w : World)
      (userId userName wasteType location address : string) (t : Z)
      (kg rp : JsNumber) :
  pickup_request host b userId userName wasteType location address t kg ->
  to_number host (lookup "rewardPoints" b) = inr rp ->
  is_nan rp = false ->
  store_up w ->
  let c := mkCollection (new_object_id host (next_oid w)) userId userName
                        wasteType location address t kg rp "pending"
                        (now w) 0 in
  post_collections host b w =
  (inr (mkResponse 201
          (JObj [("success", JBool true);
                 ("message", JStr "Collection scheduled successfully");
                 ("collection", collection_json host c)])),
   after_create b c w).
Proof.
  intros Hreq Hr Hrn Hup c.
  pose proof (pickup_request_present _ _ _ _ _ _ _ _ Hreq) as Hp.
  destruct Hreq as ((H1 & N1) & (H2 & N2) & (H3 & N3) & (H4 & N4)
                    & (H5 & N5) & (d & Hd & Nd & Ht) & (Hk & Tk)).
  apply (post_collections_created host b w userId userName wasteType
           location address t kg rp); try assumption.
  - rewrite H1. apply nonempty_accepted, N1.
  - rewrite H2. apply nonempty_accepted, N2.
  - rewrite H3. apply nonempty_accepted, N3.
  - rewrite H4. apply nonempty_accepted, N4.
  - rewrite H5. apply nonempty_accepted, N5.
  - rewrite Hd. cbn. rewrite Ht. reflexivity.
  - rewrite Hk. reflexivity.
  - apply number_truthy_not_nan, Tk.
Qed.

(** X7. A creation request in the documented shape (five non-empty
    strings, a date-time string that parses, a weight that is a JSON
    number other than zero, negative ones included, and reward points
    that are a JSON number, zero included) is stored as sent: the record
    appended has the five strings verbatim, the parsed instant, the two
    numbers unchanged, status "pending", the server clock as creation
    time and a server-drawn identifier; the users are untouched. *)
Theorem X7_created_as_sent (b : list (string * JsValue)) (w : World)
        (userId userName wasteType location address : string) (t : Z)
        (kg rp : JsNumber) :
  pickup_request host b userId userName wasteType location address t kg ->
  lookup "rewardPoints" b = JNum rp ->
  is_nan rp = false ->
  store_up w ->
  let c := mkCollection (new_object_id host (next_oid w)) userId userName
                        wasteType location address t kg rp "pending"
                        (now w) 0 in
  fst (post_collections host b w) =
  inr (mkResponse 201
         (JObj [("success", JBool true);
                ("message", JStr "Collection scheduled successfully");
                ("collection", collection_json host c)])) /\
  collections (snd (post_collections host b w)) = (collections w ++ [c])%list /\
  users (snd (post_collections host b w)) = users w.
Proof.
  intros Hreq Hr Hrn Hup c.
  rewrite (post_collections_pickup b w userId userName wasteType location
             address t kg rp Hreq); try assumption.
  - repeat split; reflexivity.
  - rewrite Hr. reflexivity.
Qed.

(** X8. Reward points given as [null], [false] or [true] are not
    refused: [Number] turns them into 0, 0 and 1, and a request otherwise
    in the documented shape is stored with that many reward points. *)
Theorem X8_points_from_null_or_boolean (b : list (string * JsValue))
        (w : World)
        (userId userName wasteType location address : string) (t : Z)
        (kg : JsNumber) (v : JsValue) (rp : Q) :
  pickup_request host b userId userName wasteType location address t kg ->
  lookup "rewardPoints" b = v ->
  (v = JNull /\ rp = 0%Q) \/ (v = JBool false /\ rp = 0%Q) \/
  (v = JBool true /\ rp = 1%Q) ->
  store_up w ->
  exists c,
    status_of (fst (post_collections host b w)) = Some 201%nat /\
    collections (snd (post_collections host b w)) =
    (collections w ++ [c])%list /\
    c_rewardPoints c = Finite rp /\ c_kilograms c = kg.
Proof.
  intros Hreq Hv Hcase Hup.
  assert (Hr : to_number host (lookup "rewardPoints" b) = inr (Finite rp)).
  { rewrite Hv. destruct Hcase as [[-> ->] | [[-> ->] | [-> ->]]];
      reflexivity. }
  eexists.
  rewrite (post_collections_pickup b w userId userName wasteType location
             address t kg (Finite rp) Hreq Hr eq_refl Hup).
  repeat split; reflexivity.
Qed.

(** X9. A weight that is truthy but does not coerce to a number (a
    non-numeric string, say) is not caught by the presence check: with
    the seven required fields truthy the request ends in the 500
    envelope carrying the error's message, and nothing is stored. *)
Theorem X9_weight_not_numeric (b : list (string * JsValue)) (w : World) :
  all_present b = true ->
  numeric host (lookup "kilograms" b) = false ->
  exists e,
    fst (post_collections host b w) =
    inr (mkResponse 500
           (JObj [("success", JBool false);
                  ("message", JStr ("Server error: " ++ err_message e));
                  ("stack", JStr (err_stack e))])) /\
    collections (snd (post_collections host b w)) = collections w /\
    users (snd (post_collections host b w)) = users w.
Proof.
  intros Hp Hk.
  pose proof (post_collections_outcome host b w Hp) as Ho.
  assert (Hu : users (snd (post_collections host b w)) = users w).
  { unfold post_collections, post_collections_try. run.
    rewrite (presence_check b), Hp. cbn [negb].
    unfold new_Date, js_Number, new_Date_now, new_Collection, fresh_object_id,
      Collection_save, store_call.
    run.
    destruct (to_date host (lookup "dateTime" b)); [reflexivity|].
    destruct (to_number host (lookup "kilograms" b)); [reflexivity|].
    destruct (to_number host (lookup "rewardPoints" b)); [reflexivity|].
    match goal with
    | |- context [validated_collection ?d] =>
        destruct (validated_collection d)
    end; [|reflexivity].
    cbn [faults set_next_oid set_console].
    destruct (faults w) as [|[e|] rest]; reflexivity. }
  destruct (post_collections host b w) as [r w'].
  destruct Ho as [(c & _ & _ & _ & _ & _ & Hk' & _) | (e & -> & Hc)].
  - rewrite Hk' in Hk. discriminate.
  - exists e. repeat split; assumption.
Qed.

Lemma post_collections_201 (b : list (string * JsValue)) (w : World) :
  status_of (fst (post_collections host b w)) = Some 201%nat ->
  exists c,
    fst (post_collections host b w) =
    inr (mkResponse 201
           (JObj [("success", JBool true);
                  ("message", JStr "Collection scheduled successfully");
                  ("collection", collection_json host c)])) /\
    collections (snd (post_collections host b w)) =
    (collections w ++ [c])%list /\
    c_status c = "pending" /\ c_createdAt c = now w.
Proof.
  intros Hs. destruct (all_present b) eqn:Hp.
  - pose proof (post_collections_outcome host b w Hp) as Ho.
    destruct (post_collections host b w) as [r w'].
    destruct Ho as [(c & -> & Hc & Hst & Ht & _) | (e & -> & _)].
    + exists c. repeat split; assumption.
    + cbn in Hs. discriminate.
  - rewrite (post_collections_missing host b w Hp) in Hs. cbn in Hs.
    discriminate.
Qed.

(** X10. Create, then list. A record the creation handler reports with
    201 is stored: in the state the call leaves, while the store
    answers, the full listing contains it, the listing of its own
    [userId] contains it, and the listing of any other user does not. *)
Theorem X10_created_is_listed (b : list (string * JsValue)) (w : World) :
  status_of (fst (post_collections host b w)) = Some 201%nat ->
  store_up (snd (post_collections host b w)) ->
  exists c all mine,
    fst (post_collections host b w) =
    inr (mkResponse 201
           (JObj [("success", JBool true);
                  ("message", JStr "Collection scheduled successfully");
                  ("collection", collection_json host c)])) /\
    fst (get_collections host (snd (post_collections host b w))) =
    inr (mkResponse 200
           (JObj [("success", JBool true);
                  ("collections", JArr (map (collection_json host) all))])) /\
    In c all /\
    fst (get_collections_user host (c_userId c)
                              (snd (post_collections host b w))) =
    inr (mkResponse 200
           (JObj [("success", JBool true);
                  ("collections", JArr (map (collection_json host) mine))])) /\
    In c mine /\
    (forall u, u <> c_userId c ->
       exists theirs,
         fst (get_collections_user host u (snd (post_collections host b w))) =
         inr (mkResponse 200
                (JObj [("success", JBool true);
                       ("collections",
                        JArr (map (collection_json host) theirs))])) /\
         ~ In c theirs).
Proof.
  intros Hs Hup.
  destruct (post_collections_201 b w Hs) as (c & Hr & Hc & _).
  set (w1 := snd (post_collections host b w)) in *.
  assert (Hin : In c (collections w1)).
  { rewrite Hc. apply in_or_app. right. left. reflexivity. }
  exists c, (sort_createdAt_desc (tie_order host None) (collections w1)),
    (sort_createdAt_desc
       (tie_order host (Some (c_userId c)))
       (filter (fun x => c_userId x =? c_userId c) (collections w1))).
  split; [exact Hr|].
  split; [apply get_collections_ok, Hup|].
  split.
  { apply (Permutation_in _
             (Permutation_sym (sort_createdAt_desc_perm _ _))).
    exact Hin. }
  split; [apply get_collections_user_ok, Hup|].
  split.
  { apply (Permutation_in _
             (Permutation_sym (sort_createdAt_desc_perm _ _))).
    apply filter_In. split; [exact Hin|apply String.eqb_refl]. }
  intros u Hne.
  exists (sort_createdAt_desc
            (tie_order host (Some u))
            (filter (fun x => c_userId x =? u) (collections w1))).
  split; [apply get_collections_user_ok, Hup|].
  intros Hc'.
  apply (Permutation_in _ (sort_createdAt_desc_perm _ _)) in Hc'.
  apply filter_In in Hc'. destruct Hc' as [_ Heq].
  apply String.eqb_eq in Heq. apply Hne. symmetry. exact Heq.
Qed.

(** *** Listing users *)

Lemma listed_user_without_password (u u' : UserDoc) :
  without_password u = without_password u' ->
  listed_user host u = listed_user host u'.
Proof.
  destruct u, u'. unfold without_password. cbn. intros [= -> -> -> -> -> ->].
  reflexivity.
Qed.

Lemma listed_users_without_password (l l' : list UserDoc) :
  map without_password l = map without_password l' ->
  map (listed_user host) l = map (listed_user host) l'.
Proof.
  revert l'. induction l as [|u l IH]; intros [|u' l']; cbn;
    try discriminate; [reflexivity|].
  intros H. injection H as H1 H2 H3 H4 H5 H6 Hl. f_equal.
  - apply listed_user_without_password. unfold without_password.
    congruence.
  - apply IH, Hl.
Qed.

Lemma get_users_response (w : World) :
  fst (get_users host w) =
  match faults w with
  | Some _ :: _ => inr server_error_response
  | _ =>
      inr (mkResponse 200
             (JObj [("success", JBool true);
                    ("users", JArr (map (listed_user host) (users w)))]))
  end.
Proof.
  unfold get_users, get_users_try, get_users_catch,
    User_find_without_password, store_call.
  run. destruct (faults w) as [|[e|] rest]; reflexivity.
Qed.

(** X11. What list-users answers does not depend on the stored password
    hashes: two states whose users agree in everything but the password,
    with the store behaving alike, get the same response. *)
Theorem X11_list_users_ignores_hashes (w1 w2 : World) :
  map without_password (users w1) = map without_password (users w2) ->
  faults w1 = faults w2 ->
  fst (get_users host w1) = fst (get_users host w2).
Proof.
  intros Hu Hf. rewrite !get_users_response, Hf.
  rewrite (listed_users_without_password _ _ Hu). reflexivity.
Qed.

(** *** What each core route leaves alone, and how it answers *)

Lemma keeps_fresh_object_id {B} (f : World -> B) :
  (forall n w, f (set_next_oid n w) = f w) ->
  keeps f (fresh_object_id host).
Proof.
  intros H. unfold fresh_object_id.
  apply keeps_bind; [apply keeps_gets|]. intros n.
  apply keeps_bind; [apply keeps_modify; intros w; apply H|].
  intros _. apply keeps_ret.
Qed.

Lemma keeps_store_call_users : keeps users store_call.
Proof.
  intros w. unfold store_call. destruct (faults w) as [|[e|] rest];
    reflexivity.
Qed.

Lemma keeps_store_call_collections : keeps collections store_call.
Proof.
  intros w. unfold store_call. destruct (faults w) as [|[e|] rest];
    reflexivity.
Qed.

Lemma keeps_post_auth_register_collections (b : list (string * JsValue)) :
  keeps collections (post_auth_register host b).
Proof.
  unfold post_auth_register. apply keeps_try_catch.
  - unfold post_auth_register_try.
    apply keeps_bind.
    { unfold User_findOne. apply keeps_bind.
      - destruct (lookup "email" b); cbn;
          first [apply keeps_ret | apply keeps_lift].
      - intros m. apply keeps_bind; [apply keeps_store_call_collections|].
        intros _. apply keeps_bind; [apply keeps_gets|].
        intros us. apply keeps_ret. }
    intros [u|]; [apply keeps_json|].
    apply keeps_bind.
    { unfold genSalt. apply keeps_bind; [apply keeps_gets|]. intros n.
      apply keeps_bind; [apply keeps_modify; reflexivity|].
      intros _. apply keeps_ret. }
    intros salt. apply keeps_bind.
    { destruct (lookup "password" b); cbn;
        first [apply keeps_ret | apply keeps_throw]. }
    intros h. apply keeps_bind.
    { unfold new_User.
      apply keeps_bind; [apply keeps_fresh_object_id; reflexivity|].
      intros id. apply keeps_bind; [apply keeps_gets|]. intros t.
      apply keeps_ret. }
    intros d. apply keeps_bind; [|intros u; apply keeps_json].
    unfold User_save. destruct (validated_user d) as [u|];
      [|apply keeps_throw].
    apply keeps_bind; [apply keeps_store_call_collections|]. intros _.
    apply keeps_bind; [apply keeps_gets|]. intros us.
    destruct (email_taken (u_email u) us); [apply keeps_throw|].
    apply keeps_bind; [apply keeps_modify; reflexivity|].
    intros _. apply keeps_ret.
  - intros e. unfold post_auth_register_catch.
    apply keeps_bind; [intros w; reflexivity|]. intros _. apply keeps_json.
Qed.

Lemma keeps_post_collections_users (b : list (string * JsValue)) :
  keeps users (post_collections host b).
Proof.
  unfold post_collections. apply keeps_try_catch.
  - unfold post_collections_try.
    apply keeps_bind; [intros w; reflexivity|]. intros _.
    match goal with
    | |- keeps _ (if ?c then _ else _) => destruct c
    end; [apply keeps_json|].
    apply keeps_bind; [apply keeps_lift|]. intros d.
    apply keeps_bind; [apply keeps_lift|]. intros kg.
    apply keeps_bind; [apply keeps_lift|]. intros rp.
    apply keeps_bind; [apply keeps_gets|]. intros t.
    apply keeps_bind.
    { unfold new_Collection.
      apply keeps_bind; [apply keeps_fresh_object_id; reflexivity|].
      intros id. apply keeps_ret. }
    intros dr. apply keeps_bind; [|intros c; apply keeps_json].
    unfold Collection_save. destruct (validated_collection dr) as [c|];
      [|apply keeps_throw].
    apply keeps_bind; [apply keeps_store_call_users|]. intros _.
    apply keeps_bind; [apply keeps_modify; reflexivity|].
    intros _. apply keeps_ret.
  - intros e. unfold post_collections_catch.
    apply keeps_bind; [intros w; reflexivity|]. intros _. apply keeps_json.
Qed.

(** The collection records after a creation request, whatever it was. *)
Lemma post_collections_effect (b : list (string * JsValue)) (w : World) :
  collections (snd (post_collections host b w)) = collections w \/
  exists c, collections (snd (post_collections host b w)) =
            (collections w ++ [c])%list /\ c_status c = "pending".
Proof.
  destruct (all_present b) eqn:Hp.
  - pose proof (post_collections_outcome host b w Hp) as Ho.
    destruct (post_collections host b w) as [r w'].
    destruct Ho as [(c & _ & Hc & Hst & _) | (e & _ & Hc)].
    + right. exists c. split; assumption.
    + left. exact Hc.
  - rewrite (post_collections_missing host b w Hp). left. reflexivity.
Qed.

Lemma named_status_intro (r : Result Response) (code : nat)
      (v : JsValue) :
  r = inr (mkResponse code v) -> In code [200; 201; 400; 500]%nat ->
  named_status r.
Proof.
  intros -> H. exists (mkResponse code v). split; [reflexivity|exact H].
Qed.

Lemma post_auth_register_named (b : list (string * JsValue)) (w : World) :
  named_status (fst (post_auth_register host b w)).
Proof.
  pose proof (post_auth_register_outcome host b w) as Ho.
  destruct (post_auth_register host b w) as [r w'].
  destruct Ho as [[-> _] | [[-> _] | (u & -> & _)]];
    eapply named_status_intro; try reflexivity; cbn; tauto.
Qed.

Lemma post_auth_login_named (b : list (string * JsValue)) (w : World) :
  named_status (fst (post_auth_login host b w)).
Proof.
  pose proof (post_auth_login_outcome host b w) as Ho.
  destruct (post_auth_login host b w) as [r w'].
  destruct Ho as [-> | [-> | (u & t & -> & _)]];
    eapply named_status_intro; try reflexivity; cbn; tauto.
Qed.

Lemma post_collections_named (b : list (string * JsValue)) (w : World) :
  named_status (fst (post_collections host b w)).
Proof.
  destruct (all_present b) eqn:Hp.
  - pose proof (post_collections_outcome host b w Hp) as Ho.
    destruct (post_collections host b w) as [r w'].
    destruct Ho as [(c & -> & _) | (e & -> & _)];
      eapply named_status_intro; try reflexivity; cbn; tauto.
  - rewrite (post_collections_missing host b w Hp).
    eapply named_status_intro; [reflexivity|cbn; tauto].
Qed.

Lemma get_collections_named (w : World) :
  named_status (fst (get_collections host w)).
Proof.
  unfold get_collections, get_collections_try, get_collections_catch,
    Collection_find_sorted, store_call.
  run. destruct (faults w) as [|[e|] rest];
    eapply named_status_intro; try reflexivity; cbn; tauto.
Qed.

Lemma get_collections_user_named (u : string) (w : World) :
  named_status (fst (get_collections_user host u w)).
Proof.
  unfold get_collections_user, get_collections_user_try,
    get_collections_user_catch, Collection_find_sorted, store_call.
  run. destruct (faults w) as [|[e|] rest];
    eapply named_status_intro; try reflexivity; cbn; tauto.
Qed.

Lemma get_users_named (w : World) : named_status (fst (get_users host w)).
Proof.
  rewrite get_users_response.
  destruct (faults w) as [|[e|] rest];
    eapply named_status_intro; try reflexivity; cbn; tauto.
Qed.

(** X12. The status tells whether something was stored. Registration
    adds a user exactly when it answers 201, and otherwise leaves the
    users as they were; creation adds a collection record exactly when
    it answers 201, and otherwise leaves the records as they were. *)
Theorem X12_stored_iff_201 (b : list (string * JsValue)) (w : World) :
  (status_of (fst (post_auth_register host b w)) = Some 201%nat ->
   exists u, users (snd (post_auth_register host b w)) =
             (users w ++ [u])%list) /\
  (status_of (fst (post_auth_register host b w)) <> Some 201%nat ->
   users (snd (post_auth_register host b w)) = users w) /\
  (status_of (fst (post_collections host b w)) = Some 201%nat ->
   exists c, collections (snd (post_collections host b w)) =
             (collections w ++ [c])%list) /\
  (status_of (fst (post_collections host b w)) <> Some 201%nat ->
   collections (snd (post_collections host b w)) = collections w).
Proof.
  pose proof (post_auth_register_outcome host b w) as Hr.
  destruct (post_auth_register host b w) as [r w1]. cbn [fst snd].
  split; [|split; [|split]].
  - destruct Hr as [[-> _] | [[-> _] | (u & _ & Hu & _)]];
      [discriminate | discriminate | intros _; exists u; exact Hu].
  - destruct Hr as [[_ Hu] | [[_ Hu] | (u & -> & _)]];
      [intros _; exact Hu | intros _; exact Hu |].
    intros H. exfalso. apply H. reflexivity.
  - intros Hs. destruct (post_collections_201 b w Hs) as (c & _ & Hc & _).
    exists c. exact Hc.
  - intros Hs. destruct (all_present b) eqn:Hp.
    + pose proof (post_collections_outcome host b w Hp) as Ho.
      destruct (post_collections host b w) as [r2 w2]. cbn [fst snd] in *.
      destruct Ho as [(c & -> & _) | (e & _ & Hc)]; [|exact Hc].
      exfalso. apply Hs. reflexivity.
    + rewrite (post_collections_missing host b w Hp). reflexivity.
Qed.

Lemma filter_none {A} (p : A -> bool) (l : list A) :
  (forall a, In a l -> p a = false) -> filter p l = [].
Proof.
  induction l as [|x l IH]; cbn; [reflexivity|]. intros H.
  rewrite (H x (or_introl eq_refl)). apply IH.
  intros a Ha. apply H. right. exact Ha.
Qed.

(** X13. Listing for a user who owns no stored record is not an error:
    while the store answers, the response is 200 with an empty list; so
    is the full listing of an empty store. *)
Theorem X13_empty_listings (w : World) (u : string) :
  store_up w ->
  ((forall c, In c (collections w) -> c_userId c <> u) ->
   fst (get_collections_user host u w) =
   inr (mkResponse 200 (JObj [("success", JBool true);
                              ("collections", JArr [])]))) /\
  (collections w = [] ->
   fst (get_collections host w) =
   inr (mkResponse 200 (JObj [("success", JBool true);
                              ("collections", JArr [])]))).
Proof.
  intros Hup. split.
  - intros Hnone. rewrite (get_collections_user_ok host u w Hup).
    rewrite filter_none; [reflexivity|].
    intros c Hc. apply String.eqb_neq. apply Hnone, Hc.
  - intros He. rewrite (get_collections_ok host w Hup), He. reflexivity.
Qed.

Lemma sort_newest_appended (rank : CollectionDoc -> nat)
      (l : list CollectionDoc) (c : CollectionDoc) :
  Forall (fun x => (c_createdAt x < c_createdAt c)%Z) l ->
  sort_createdAt_desc rank (l ++ [c]) = c :: sort_createdAt_desc rank l.
Proof.
  induction 1 as [|x l Hx Hl IH]; cbn; [reflexivity|].
  rewrite IH. cbn. unfold listed_before.
  destruct (Z.ltb_spec (c_createdAt c) (c_createdAt x)); [lia|].
  destruct (Z.eqb_spec (c_createdAt c) (c_createdAt x)); [lia|].
  reflexivity.
Qed.

(** X14. The newest record heads the listing. If a creation is answered
    201 at a clock value later than the creation time of every stored
    record, then, while the store answers, the full listing of the state
    it leaves starts with the created record, and what follows it are
    the earlier records, each as often as it was stored, most recent
    first (in whatever order the store gives those with equal
    timestamps). *)
Theorem X14_created_is_listed_first (b : list (string * JsValue)) (w : World) :
  status_of (fst (post_collections host b w)) = Some 201%nat ->
  Forall (fun x => (c_createdAt x < now w)%Z) (collections w) ->
  store_up (snd (post_collections host b w)) ->
  exists c earlier,
    fst (post_collections host b w) =
    inr (mkResponse 201
           (JObj [("success", JBool true);
                  ("message", JStr "Collection scheduled successfully");
                  ("collection", collection_json host c)])) /\
    fst (get_collections host (snd (post_collections host b w))) =
    inr (mkResponse 200
           (JObj [("success", JBool true);
                  ("collections",
                   JArr (collection_json host c
                         :: map (collection_json host) earlier))])) /\
    Permutation earlier (collections w) /\
    StronglySorted (fun x y => (c_createdAt y <= c_createdAt x)%Z) earlier.
Proof.
  intros Hs Hold Hup.
  destruct (post_collections_201 b w Hs) as (c & Hr & Hc & _ & Ht).
  exists c, (sort_createdAt_desc (tie_order host None) (collections w)).
  split; [exact Hr|]. split.
  - rewrite (get_collections_ok host _ Hup), Hc.
    rewrite sort_newest_appended; [reflexivity|].
    rewrite Ht. exact Hold.
  - split; [apply sort_createdAt_desc_perm|].
    apply sort_createdAt_desc_sorted.
Qed.

(** *** Store errors, at whichever call *)

(** Registration whose lookup goes through and whose insert the store
    then refuses: the answer is the duplicate 400 or the fixed 500, and
    no user is added. *)
Lemma post_auth_register_insert_outcome (b : list (string * JsValue))
      (w : World) (e : JsError) (rest : list (option JsError)) :
  faults w = None :: Some e :: rest ->
  exists resp w',
    post_auth_register host b w = (inr resp, w') /\
    (resp = duplicate_identity_response \/ resp = server_error_response) /\
    users w' = users w.
Proof.
  intros Hf.
  unfold post_auth_register, post_auth_register_try, post_auth_register_catch,
    User_findOne.
  run.
  destruct (filter_matcher_pure host (lookup "email" b) w) as [[e0|m] ->];
    [eexists; eexists; split; [reflexivity|split; [right|]; reflexivity]|].
  unfold store_call at 1. rewrite Hf. cbn [users set_faults].
  destruct (find (fun u => m (u_email u)) (users w));
    [eexists; eexists; split; [reflexivity|split; [left|]; reflexivity]|].
  unfold genSalt, hash. run.
  destruct (lookup "password" b);
    try (eexists; eexists; split; [reflexivity|split; [right|]; reflexivity]).
  unfold new_User, fresh_object_id, User_save. run.
  match goal with
  | |- context [validated_user ?d] => destruct (validated_user d) as [u|]
  end; [|eexists; eexists; split; [reflexivity|split; [right|]; reflexivity]].
  run. unfold store_call.
  cbn [faults set_faults set_entropy set_next_oid].
  eexists; eexists; split; [reflexivity|split; [right|]; reflexivity].
Qed.

(** The same for an email no stored user has: the refused insert is
    answered with the fixed 500, whatever else the body holds. *)
Lemma post_auth_register_insert_refused (b : list (string * JsValue))
      (w : World) (e : JsError) (rest : list (option JsError))
      (email : string) :
  lookup "email" b = JStr email ->
  ~ In email (map u_email (users w)) ->
  faults w = None :: Some e :: rest ->
  fst (post_auth_register host b w) = inr server_error_response.
Proof.
  intros He Hfresh Hf.
  unfold post_auth_register, post_auth_register_try, post_auth_register_catch,
    User_findOne.
  run. rewrite He. cbn [filter_matcher]. run.
  unfold store_call at 1. rewrite Hf. cbn [users set_faults].
  rewrite (find_email_absent email (users w) Hfresh).
  unfold genSalt, hash. run.
  destruct (lookup "password" b); try reflexivity.
  unfold new_User, fresh_object_id, User_save. run.
  match goal with
  | |- context [validated_user ?d] => destruct (validated_user d) as [u|]
  end; run; unfold store_call;
    cbn [faults set_faults set_entropy set_next_oid]; reflexivity.
Qed.

(** C8, as amended. A store error is answered 500 with [success: false]
    by every operation, at whichever of its store calls it is raised,
    and only collection create puts the error's message into the
    response. While the coming store call fails with [e], register,
    login, list-all and list-by-user answer the fixed message "Server
    error", and a valid creation request is answered "Server error: "
    followed by [e]'s message, with nothing stored. When the lookup of a
    registration goes through and the insert is then refused with [e],
    the registration is never answered 201, adds no user, and, when its
    email is a string no stored user has, is answered the fixed "Server
    error". And whatever
    error the try block of an operation ends with, the response is that
    operation's 500 envelope. *)
Theorem C8_store_failure_envelopes (e : JsError) :
  (forall w, store_fails e w ->
     (forall b, fst (post_auth_register host b w) =
                inr (mkResponse 500
                       (JObj [("success", JBool false);
                              ("message", JStr "Server error")]))) /\
     (forall b, fst (post_auth_login host b w) =
                inr (mkResponse 500
                       (JObj [("success", JBool false);
                              ("message", JStr "Server error")]))) /\
     fst (get_collections host w) =
     inr (mkResponse 500 (JObj [("success", JBool false);
                                ("message", JStr "Server error")])) /\
     (forall u, fst (get_collections_user host u w) =
                inr (mkResponse 500
                       (JObj [("success", JBool false);
                              ("message", JStr "Server error")]))) /\
     (forall b,
         all_present b = true ->
         (forall k, In k text_fields ->
                    text_accepted host (lookup k b) = true) ->
         parseable host (lookup "dateTime" b) = true ->
         numeric host (lookup "kilograms" b) = true ->
         numeric host (lookup "rewardPoints" b) = true ->
         fst (post_collections host b w) =
         inr (mkResponse 500
                (JObj [("success", JBool false);
                       ("message", JStr ("Server error: " ++ err_message e));
                       ("stack", JStr (err_stack e))])) /\
         includes ("Server error: " ++ err_message e) (err_message e) = true /\
         collections (snd (post_collections host b w)) = collections w)) /\
  (forall w rest, faults w = None :: Some e :: rest ->
     (forall b,
         (forall resp, fst (post_auth_register host b w) = inr resp ->
                       status resp <> 201%nat) /\
         users (snd (post_auth_register host b w)) = users w) /\
     (forall b email,
         lookup "email" b = JStr email ->
         ~ In email (map u_email (users w)) ->
         fst (post_auth_register host b w) =
         inr (mkResponse 500
                (JObj [("success", JBool false);
                       ("message", JStr "Server error")])))) /\
  (forall b w w1,
      post_auth_register_try host b w = (inl e, w1) ->
      fst (post_auth_register host b w) =
      inr (mkResponse 500 (JObj [("success", JBool false);
                                 ("message", JStr "Server error")]))) /\
  (forall b w w1,
      post_auth_login_try host b w = (inl e, w1) ->
      fst (post_auth_login host b w) =
      inr (mkResponse 500 (JObj [("success", JBool false);
                                 ("message", JStr "Server error")]))) /\
  (forall b w w1,
      post_collections_try host b w = (inl e, w1) ->
      fst (post_collections host b w) =
      inr (mkResponse 500
             (JObj [("success", JBool false);
                    ("message", JStr ("Server error: " ++ err_message e));
                    ("stack", JStr (err_stack e))]))) /\
  (forall w w1,
      get_collections_try host w = (inl e, w1) ->
      fst (get_collections host w) =
      inr (mkResponse 500 (JObj [("success", JBool false);
                                 ("message", JStr "Server error")]))) /\
  (forall u w w1,
      get_collections_user_try host u w = (inl e, w1) ->
      fst (get_collections_user host u w) =
      inr (mkResponse 500 (JObj [("success", JBool false);
                                 ("message", JStr "Server error")]))).
Proof.
  split; [|split; [|split; [|split; [|split; [|split]]]]].
  - intros w Hf. split; [|split; [|split; [|split]]].
    + intros b.
      destruct (User_findOne_fails host e (lookup "email" b) w Hf)
        as (e' & w1 & H).
      rewrite (post_auth_register_catches host b w w1 e'); [reflexivity|].
      unfold post_auth_register_try. run. rewrite H. reflexivity.
    + intros b.
      destruct (User_findOne_fails host e (lookup "email" b) w Hf)
        as (e' & w1 & H).
      rewrite (post_auth_login_catches host b w w1 e'); [reflexivity|].
      unfold post_auth_login_try. run. rewrite H. reflexivity.
    + destruct (Collection_find_sorted_fails host e None w Hf) as (w1 & H).
      rewrite (get_collections_catches host w w1 e); [reflexivity|].
      unfold get_collections_try. run. rewrite H. reflexivity.
    + intros u.
      destruct (Collection_find_sorted_fails host e (Some u) w Hf)
        as (w1 & H).
      rewrite (get_collections_user_catches host u w w1 e); [reflexivity|].
      unfold get_collections_user_try. run. rewrite H. reflexivity.
    + intros b Hp Ht Hd Hk Hr.
      destruct (post_collections_store_fails host b w e Hp Ht Hd Hk Hr Hf)
        as (w' & -> & Hc).
      split; [reflexivity|]. split; [apply includes_suffix | exact Hc].
  - intros w rest Hf. split.
    + intros b.
      destruct (post_auth_register_insert_outcome b w e rest Hf)
        as (resp0 & w' & -> & Hr & Hu).
      split; [|exact Hu].
      intros resp H. cbn in H. injection H as <-.
      destruct Hr as [->| ->]; cbn; discriminate.
    + intros b email He Hfr.
      apply (post_auth_register_insert_refused b w e rest email); assumption.
  - intros b w w1 H.
    rewrite (post_auth_register_catches host b w w1 e H). reflexivity.
  - intros b w w1 H.
    rewrite (post_auth_login_catches host b w w1 e H). reflexivity.
  - intros b w w1 H.
    rewrite (post_collections_catches host b w w1 e H). reflexivity.
  - intros w w1 H.
    rewrite (get_collections_catches host w w1 e H). reflexivity.
  - intros u w w1 H.
    rewrite (get_collections_user_catches host u w w1 e H). reflexivity.
Qed.

(** *** Password secrecy *)

(** The matcher of a filter does not depend on the state. *)
Lemma filter_matcher_stateless (v : JsValue) (w w2 : World) :
  fst (filter_matcher host v w) = fst (filter_matcher host v w2).
Proof.
  destruct v; reflexivity.
Qed.

(** Looking a user up by email in two lists that agree in everything but
    the passwords finds users that agree in everything but the password. *)
Lemma find_without_password (m : string -> bool) (l l' : list UserDoc) :
  map without_password l = map without_password l' ->
  match find (fun u => m (u_email u)) l,
        find (fun u => m (u_email u)) l' with
  | Some u, Some u' => without_password u = without_password u'
  | None, None => True
  | _, _ => False
  end.
Proof.
  revert l'. induction l as [|u l IH]; intros [|u' l']; cbn;
    try discriminate; [trivial|].
  intros H. injection H as H1 H2 H3 H4 H5 H6 Hl.
  rewrite <- H3. destruct (m (u_email u)).
  - unfold without_password. congruence.
  - apply IH, Hl.
Qed.

(** What a 200 from login says: the user found by the email filter, the
    token signed over that user's identifier alone, and the four public
    fields of that user. *)
Lemma post_auth_login_200 (b : list (string * JsValue)) (w w' : World)
      (resp : Response) :
  post_auth_login host b w = (inr resp, w') ->
  status resp = 200%nat ->
  exists m u p,
    fst (filter_matcher host (lookup "email" b) w) = inr m /\
    find (fun x => m (u_email x)) (users w) = Some u /\
    lookup "password" b = JStr p /\
    bcrypt_compare host p (u_password u) = true /\
    resp = mkResponse 200
             (JObj [("success", JBool true);
                    ("token",
                     JStr (jwt_sign host (JObj [("id", JStr (u_id u))])
                                    "your_jwt_secret" "1d" (now w)));
                    ("user", JObj [("_id", JStr (u_id u));
                                   ("name", JStr (u_name u));
                                   ("email", JStr (u_email u));
                                   ("phone", JStr (u_phone u))])]).
Proof.
  unfold post_auth_login, post_auth_login_try, post_auth_login_catch,
    User_findOne.
  run.
  destruct (filter_matcher_pure host (lookup "email" b) w) as [[e|m] ->];
    [intros [= <- _]; discriminate|].
  destruct (store_call_cases w)
    as [(_ & w1 & -> & Hu1 & _ & Hn1 & _) | (e & rest & _ & ->)];
    [|intros [= <- _]; discriminate].
  rewrite Hu1.
  destruct (find (fun u => m (u_email u)) (users w)) as [u|] eqn:Ef;
    [|intros [= <- _]; discriminate].
  unfold compare, sign. run.
  destruct (lookup "password" b) as [| | | |p| |];
    try (intros [= <- _]; discriminate).
  destruct (bcrypt_compare host p (u_password u)) eqn:Ec; cbn [negb];
    [|intros [= <- _]; discriminate].
  intros [= <- _] _. exists m, u, p. rewrite Hn1.
  repeat split; try reflexivity; assumption.
Qed.

(** C4, as amended. No successful response of register, login or
    list-users contains the password or its hash. Each such response is
    given here value by value: register (201) returns under [user] the
    new identifier and the name, email and phone of the request; login
    (200) returns a token signed over the identifier alone and under
    [user] the identifier, name, email and phone of a stored user;
    list-users (200) returns for each stored user the identifier, name,
    email, phone, creation timestamp and version key, the password
    projected out and every other stored field kept. No [password] key
    occurs at any depth. And none of the three responses changes with the
    passwords: two registrations that differ at most in the password
    submitted, two logins with the same email on stores that differ at
    most in the passwords kept, and two listings of such stores are
    answered alike. *)
Theorem C4_no_password_in_responses :
  (forall b w resp w',
      post_auth_register host b w = (inr resp, w') -> status resp = 201%nat ->
      mentions_key "password" (body resp) = false /\
      exists name email phone,
        accepted nonempty (cast_String host (lookup "name" b)) = Some name /\
        accepted nonempty (cast_String host (lookup "email" b)) = Some email /\
        accepted nonempty (cast_String host (lookup "phone" b)) = Some phone /\
        resp = mkResponse 201
                 (JObj [("success", JBool true);
                        ("message", JStr "User registered successfully");
                        ("user",
                         JObj [("_id",
                                JStr (new_object_id host (next_oid w)));
                               ("name", JStr name);
                               ("email", JStr email);
                               ("phone", JStr phone)])])) /\
  (forall b w resp w',
      post_auth_login host b w = (inr resp, w') -> status resp = 200%nat ->
      mentions_key "password" (body resp) = false /\
      exists u,
        In u (users w) /\
        resp = mkResponse 200
                 (JObj [("success", JBool true);
                        ("token",
                         JStr (jwt_sign host (JObj [("id", JStr (u_id u))])
                                        "your_jwt_secret" "1d" (now w)));
                        ("user", JObj [("_id", JStr (u_id u));
                                       ("name", JStr (u_name u));
                                       ("email", JStr (u_email u));
                                       ("phone", JStr (u_phone u))])])) /\
  (forall w resp w',
      get_users host w = (inr resp, w') -> status resp = 200%nat ->
      mentions_key "password" (body resp) = false /\
      resp = mkResponse 200
               (JObj [("success", JBool true);
                      ("users",
                       JArr (map (fun u =>
                                    JObj [("_id", JStr (u_id u));
                                          ("name", JStr (u_name u));
                                          ("email", JStr (u_email u));
                                          ("phone", JStr (u_phone u));
                                          ("createdAt",
                                           JStr (date_to_json host
                                                   (u_createdAt u)));
                                          ("__v",
                                           JNum (Finite
                                                   (inject_Z
                                                      (Z.of_nat (u_v u)))))])
                                 (users w)))])) /\
  (forall b b' w resp resp' w1 w1',
      lookup "name" b = lookup "name" b' ->
      lookup "email" b = lookup "email" b' ->
      lookup "phone" b = lookup "phone" b' ->
      post_auth_register host b w = (inr resp, w1) ->
      post_auth_register host b' w = (inr resp', w1') ->
      status resp = 201%nat -> status resp' = 201%nat ->
      resp = resp') /\
  (forall b b' w w2 resp resp' w1 w1',
      lookup "email" b = lookup "email" b' ->
      map without_password (users w) = map without_password (users w2) ->
      now w = now w2 ->
      post_auth_login host b w = (inr resp, w1) ->
      post_auth_login host b' w2 = (inr resp', w1') ->
      status resp = 200%nat -> status resp' = 200%nat ->
      resp = resp') /\
  (forall w w2 resp resp' w1 w1',
      map without_password (users w) = map without_password (users w2) ->
      get_users host w = (inr resp, w1) ->
      get_users host w2 = (inr resp', w1') ->
      status resp = 200%nat -> status resp' = 200%nat ->
      resp = resp').
Proof.
  split; [|split; [|split; [|split; [|split]]]].
  - intros b w resp w' H Hs.
    destruct (post_auth_register_201 b w w' resp H Hs)
      as (name & email & password & phone & Hn & He & _ & Hph & _ & -> & _).
    split; [reflexivity|].
    exists name, email, phone. repeat split; assumption.
  - intros b w resp w' H Hs.
    destruct (post_auth_login_200 b w w' resp H Hs)
      as (m & u & p & _ & Hfind & _ & _ & ->).
    split; [reflexivity|].
    exists u. split; [|reflexivity].
    apply find_some in Hfind. exact (proj1 Hfind).
  - intros w resp w' H Hs.
    pose proof (get_users_outcome host w) as Ho. rewrite H in Ho.
    destruct Ho as [[= ->] | [= ->]]; try discriminate.
    split; [|reflexivity].
    cbn. rewrite listed_users_no_password. reflexivity.
  - intros b b' w resp resp' w1 w1' Hn He Hph H H' Hs Hs'.
    destruct (post_auth_register_201 b w w1 resp H Hs)
      as (name & email & password & phone & Hn1 & He1 & _ & Hph1 & _ & ->
          & _).
    destruct (post_auth_register_201 b' w w1' resp' H' Hs')
      as (name' & email' & password' & phone' & Hn2 & He2 & _ & Hph2 & _ & ->
          & _).
    rewrite Hn, Hn2 in Hn1. rewrite He, He2 in He1. rewrite Hph, Hph2 in Hph1.
    injection Hn1 as ->. injection He1 as ->. injection Hph1 as ->.
    reflexivity.
  - intros b b' w w2 resp resp' w1 w1' He Hu Hnow H H' Hs Hs'.
    destruct (post_auth_login_200 b w w1 resp H Hs)
      as (m & u & p & Hm & Hfind & _ & _ & ->).
    destruct (post_auth_login_200 b' w2 w1' resp' H' Hs')
      as (m' & u' & p' & Hm' & Hfind' & _ & _ & ->).
    rewrite He, (filter_matcher_stateless _ w w2), Hm' in Hm.
    injection Hm as ->.
    pose proof (find_without_password m (users w) (users w2) Hu) as Hf.
    rewrite Hfind, Hfind' in Hf. unfold without_password in Hf.
    injection Hf as -> -> -> -> _ _. rewrite Hnow. reflexivity.
  - intros w w2 resp resp' w1 w1' Hu H H' Hs Hs'.
    pose proof (get_users_outcome host w) as Ho. rewrite H in Ho.
    pose proof (get_users_outcome host w2) as Ho'. rewrite H' in Ho'.
    destruct Ho as [[= ->] | [= ->]]; try discriminate.
    destruct Ho' as [[= ->] | [= ->]]; try discriminate.
    rewrite (listed_users_without_password (users w) (users w2) Hu).
    reflexivity.
Qed.

End Frames.

(* ================================================================== *)
(** ** Properties of the reference-data routes and of the route table *)

(** Unfolds the server monad. *)
Ltac srun :=
  cbv beta iota delta
      [sm_try_catch sm_bind sm_ret sm_throw sm_gets sm_modify in_core
       sm_json sm_console_log].

(** Splits a server state into its fields, and the fault schedule into
    its first three entries. *)
Ltac open_server s :=
  let us := fresh "us" in let cs := fresh "cs" in let t := fresh "t" in
  let n := fresh "n" in let en := fresh "en" in let fl := fresh "fl" in
  let con := fresh "con" in let ot := fresh "ot" in
  destruct s as [[us cs t n en fl con] ot];
  destruct fl as [|[?|] [|[?|] [|[?|] fl]]].

Section Seeding.

Variable host : Host.
Variable foreign_view : string -> JsValue -> JsValue.

Lemma get_centers_nonempty (s : Server) :
  other s <> [] ->
  other (snd (get_centers host foreign_view s)) = other s /\
  stored (core (snd (get_centers host foreign_view s))) = stored (core s).
Proof.
  intros Hne. open_server s; cbn in Hne;
    (destruct ot as [|d ot]; [contradiction|]);
    split; reflexivity.
Qed.

Lemma get_tutorials_nonempty (s : Server) :
  other s <> [] ->
  other (snd (get_tutorials host foreign_view s)) = other s /\
  stored (core (snd (get_tutorials host foreign_view s))) = stored (core s).
Proof.
  intros Hne. open_server s; cbn in Hne;
    (destruct ot as [|d ot]; [contradiction|]);
    split; reflexivity.
Qed.

Lemma no_fault_in_tl (n : nat) (l : list (option JsError)) :
  no_fault_in (S n) l -> no_fault_in n (tl l).
Proof.
  destruct l as [|[e|] rest]; cbn; [|contradiction|tauto].
  intros _. destruct n; exact I.
Qed.

Lemma no_fault_in_le (n m : nat) (l : list (option JsError)) :
  (n <= m)%nat -> no_fault_in m l -> no_fault_in n l.
Proof.
  revert m l. induction n as [|n IH]; intros m l Hle H; [exact I|].
  destruct m as [|m]; [lia|].
  destruct l as [|[e|] rest]; cbn in *; [exact I|contradiction|].
  apply (IH m); [lia|exact H].
Qed.

Lemma get_centers_seeds (s : Server) :
  other s = [] -> calls_up 3 (core s) ->
  fst (get_centers host foreign_view s) =
  inr (mkResponse 200
         (JObj [("success", JBool true);
                ("centers",
                 JArr (map (as_center foreign_view)
                           (seeded_centers host (next_oid (core s)))))])) /\
  other (snd (get_centers host foreign_view s)) =
  seeded_centers host (next_oid (core s)) /\
  faults (core (snd (get_centers host foreign_view s))) =
  tl (tl (tl (faults (core s)))).
Proof.
  intros He Hup. open_server s; cbn in He; subst ot;
    unfold calls_up in Hup; cbn in Hup; try contradiction;
    repeat split; reflexivity.
Qed.

Lemma get_tutorials_seeds (s : Server) :
  other s = [] -> calls_up 3 (core s) ->
  fst (get_tutorials host foreign_view s) =
  inr (mkResponse 200
         (JObj [("success", JBool true);
                ("tutorials",
                 JArr (map (as_tutorial foreign_view)
                           (seeded_tutorials host (next_oid (core s)))))])) /\
  other (snd (get_tutorials host foreign_view s)) =
  seeded_tutorials host (next_oid (core s)) /\
  faults (core (snd (get_tutorials host foreign_view s))) =
  tl (tl (tl (faults (core s)))).
Proof.
  intros He Hup. open_server s; cbn in He; subst ot;
    unfold calls_up in Hup; cbn in Hup; try contradiction;
    repeat split; reflexivity.
Qed.

Lemma get_centers_lists (s : Server) :
  other s <> [] -> calls_up 2 (core s) ->
  fst (get_centers host foreign_view s) =
  inr (mkResponse 200
         (JObj [("success", JBool true);
                ("centers",
                 JArr (map (as_center foreign_view) (other s)))])).
Proof.
  intros Hne Hup. open_server s; cbn in Hne;
    (destruct ot as [|d ot]; [contradiction|]);
    unfold calls_up in Hup; cbn in Hup; try contradiction; reflexivity.
Qed.

Lemma get_tutorials_lists (s : Server) :
  other s <> [] -> calls_up 2 (core s) ->
  fst (get_tutorials host foreign_view s) =
  inr (mkResponse 200
         (JObj [("success", JBool true);
                ("tutorials",
                 JArr (map (as_tutorial foreign_view) (other s)))])).
Proof.
  intros Hne Hup. open_server s; cbn in Hne;
    (destruct ot as [|d ot]; [contradiction|]);
    unfold calls_up in Hup; cbn in Hup; try contradiction; reflexivity.
Qed.

Lemma get_centers_effect (s : Server) :
  users (core (snd (get_centers host foreign_view s))) = users (core s) /\
  collections (core (snd (get_centers host foreign_view s))) =
  collections (core s) /\
  (other (snd (get_centers host foreign_view s)) = other s \/
   (other s = [] /\
    other (snd (get_centers host foreign_view s)) =
    seeded_centers host (next_oid (core s)))).
Proof.
  open_server s; destruct ot as [|d ot];
    (split; [reflexivity|]); (split; [reflexivity|]);
    first [left; reflexivity | right; split; reflexivity].
Qed.

Lemma get_tutorials_effect (s : Server) :
  users (core (snd (get_tutorials host foreign_view s))) = users (core s) /\
  collections (core (snd (get_tutorials host foreign_view s))) =
  collections (core s) /\
  (other (snd (get_tutorials host foreign_view s)) = other s \/
   (other s = [] /\
    other (snd (get_tutorials host foreign_view s)) =
    seeded_tutorials host (next_oid (core s)))).
Proof.
  open_server s; destruct ot as [|d ot];
    (split; [reflexivity|]); (split; [reflexivity|]);
    first [left; reflexivity | right; split; reflexivity].
Qed.

(** X15. Seed on first read. On an empty collection "other", when its
    three store calls go through, the centers route inserts the three
    sample centers, in order, under freshly drawn ObjectIds, and answers
    200 with exactly those; the tutorials route does the same with the
    three sample tutorials. *)
Theorem X15_seed_on_empty (s : Server) :
  other s = [] ->
  calls_up 3 (core s) ->
  (fst (get_centers host foreign_view s) =
   inr (mkResponse 200
          (JObj [("success", JBool true);
                 ("centers",
                  JArr (map (fun d => center_json
                                        (new_object_id host (fst d)) (snd d) 0)
                            (number_from (next_oid (core s))
                                         sampleCenters)))])) /\
   other (snd (get_centers host foreign_view s)) =
   map (fun d => CenterDoc (new_object_id host (fst d)) (snd d) 0)
       (number_from (next_oid (core s)) sampleCenters)) /\
  (fst (get_tutorials host foreign_view s) =
   inr (mkResponse 200
          (JObj [("success", JBool true);
                 ("tutorials",
                  JArr (map (fun d => tutorial_json
                                        (new_object_id host (fst d)) (snd d) 0)
                            (number_from (next_oid (core s))
                                         sampleTutorials)))])) /\
   other (snd (get_tutorials host foreign_view s)) =
   map (fun d => TutorialDoc (new_object_id host (fst d)) (snd d) 0)
       (number_from (next_oid (core s)) sampleTutorials)).
Proof.
  intros He Hup.
  destruct (get_centers_seeds s He Hup) as (Hc1 & Hc2 & _).
  destruct (get_tutorials_seeds s He Hup) as (Ht1 & Ht2 & _).
  split; split; assumption.
Qed.

(** X16. The two routes write to "other" only when it is empty. Whatever
    the store does, after either route the collection is as it was, or it
    was empty and now holds exactly that route's three samples; users
    and collection records are never touched. In particular a collection
    that is not empty is left as it is. *)
Theorem X16_seed_only_when_empty (s : Server) :
  (users (core (snd (get_centers host foreign_view s))) = users (core s) /\
   collections (core (snd (get_centers host foreign_view s))) =
   collections (core s) /\
   (other (snd (get_centers host foreign_view s)) = other s \/
    (other s = [] /\
     other (snd (get_centers host foreign_view s)) =
     seeded_centers host (next_oid (core s))))) /\
  (users (core (snd (get_tutorials host foreign_view s))) = users (core s) /\
   collections (core (snd (get_tutorials host foreign_view s))) =
   collections (core s) /\
   (other (snd (get_tutorials host foreign_view s)) = other s \/
    (other s = [] /\
     other (snd (get_tutorials host foreign_view s)) =
     seeded_tutorials host (next_oid (core s))))) /\
  (other s <> [] ->
   other (snd (get_centers host foreign_view s)) = other s /\
   other (snd (get_tutorials host foreign_view s)) = other s).
Proof.
  split; [apply get_centers_effect|]. split; [apply get_tutorials_effect|].
  intros Hne. split.
  - apply get_centers_nonempty, Hne.
  - apply get_tutorials_nonempty, Hne.
Qed.

(** X17. The two models share the collection "other", and each route
    counts every document in it. From an empty collection, if the
    tutorials route is served first, the centers route that follows
    finds three documents, seeds nothing, and answers 200 with the three
    tutorial documents as the Center model renders them: no center is
    stored. Served in the other order, the tutorials route lists the
    three centers and no tutorial is stored. *)
Theorem X17_first_route_wins (s : Server) :
  other s = [] ->
  calls_up 5 (core s) ->
  (let s1 := snd (get_tutorials host foreign_view s) in
   fst (get_centers host foreign_view s1) =
   inr (mkResponse 200
          (JObj [("success", JBool true);
                 ("centers",
                  JArr (map (fun d =>
                               foreign_view "Center"
                                 (tutorial_json (new_object_id host (fst d))
                                                (snd d) 0))
                            (number_from (next_oid (core s))
                                         sampleTutorials)))])) /\
   other (snd (get_centers host foreign_view s1)) =
   seeded_tutorials host (next_oid (core s)) /\
   forallb is_tutorial (other (snd (get_centers host foreign_view s1)))
   = true) /\
  (let s1 := snd (get_centers host foreign_view s) in
   fst (get_tutorials host foreign_view s1) =
   inr (mkResponse 200
          (JObj [("success", JBool true);
                 ("tutorials",
                  JArr (map (fun d =>
                               foreign_view "Tutorial"
                                 (center_json (new_object_id host (fst d))
                                              (snd d) 0))
                            (number_from (next_oid (core s))
                                         sampleCenters)))])) /\
   other (snd (get_tutorials host foreign_view s1)) =
   seeded_centers host (next_oid (core s)) /\
   forallb is_center (other (snd (get_tutorials host foreign_view s1)))
   = true).
Proof.
  intros He Hup.
  assert (Hup3 : calls_up 3 (core s))
    by (apply (no_fault_in_le 3 5); [lia|exact Hup]).
  assert (Hrest : no_fault_in 2 (tl (tl (tl (faults (core s)))))).
  { unfold calls_up in Hup. do 3 apply no_fault_in_tl. exact Hup. }
  split.
  - destruct (get_tutorials_seeds s He Hup3) as (_ & Ho & Hf).
    cbv zeta. set (s1 := snd (get_tutorials host foreign_view s)) in *.
    assert (Hne : other s1 <> []) by (rewrite Ho; discriminate).
    assert (Hup2 : calls_up 2 (core s1))
      by (unfold calls_up; rewrite Hf; exact Hrest).
    rewrite (get_centers_lists s1 Hne Hup2).
    destruct (get_centers_nonempty s1 Hne) as [Hsame _].
    rewrite Hsame, Ho. repeat split; reflexivity.
  - destruct (get_centers_seeds s He Hup3) as (_ & Ho & Hf).
    cbv zeta. set (s1 := snd (get_centers host foreign_view s)) in *.
    assert (Hne : other s1 <> []) by (rewrite Ho; discriminate).
    assert (Hup2 : calls_up 2 (core s1))
      by (unfold calls_up; rewrite Hf; exact Hrest).
    rewrite (get_tutorials_lists s1 Hne Hup2).
    destruct (get_tutorials_nonempty s1 Hne) as [Hsame _].
    rewrite Hsame, Ho. repeat split; reflexivity.
Qed.

(** *** Any sequence of requests *)

Lemma in_core_fst {A} (m : M A) (s : Server) :
  fst (in_core m s) = fst (m (core s)).
Proof. unfold in_core. destruct (m (core s)). reflexivity. Qed.

Lemma in_core_snd {A} (m : M A) (s : Server) :
  core (snd (in_core m s)) = snd (m (core s)) /\
  other (snd (in_core m s)) = other s.
Proof. unfold in_core. destruct (m (core s)). split; reflexivity. Qed.

Lemma serve_cons (r : Request) (rs : list Request) (s : Server) :
  serve host foreign_view (r :: rs) s =
  (fst (handle host foreign_view r s)
     :: fst (serve host foreign_view rs (snd (handle host foreign_view r s))),
   snd (serve host foreign_view rs (snd (handle host foreign_view r s)))).
Proof.
  cbn [serve]. destruct (handle host foreign_view r s) as [resp s'].
  cbn [fst snd]. destruct (serve host foreign_view rs s'). reflexivity.
Qed.

(** A property every single request preserves holds after any sequence. *)
Lemma serve_invariant (P : Server -> Prop) :
  (forall r s, P s -> P (snd (handle host foreign_view r s))) ->
  forall rs s, P s -> P (snd (serve host foreign_view rs s)).
Proof.
  intros Hstep rs. induction rs as [|r rs IH]; intros s Hs; [exact Hs|].
  rewrite serve_cons. cbn [snd]. apply IH, Hstep, Hs.
Qed.

Lemma handle_users (r : Request) (s : Server) :
  users (core (snd (handle host foreign_view r s))) = users (core s) \/
  exists u, users (core (snd (handle host foreign_view r s))) =
            (users (core s) ++ [u])%list /\
            email_taken (u_email u) (users (core s)) = false.
Proof.
  destruct r as [b|b|b| |u| | |]; cbn [handle];
    try (destruct (in_core_snd (post_auth_login host b) s) as [-> _]);
    try (destruct (in_core_snd (post_collections host b) s) as [-> _]);
    try (destruct (in_core_snd (get_collections host) s) as [-> _]);
    try (destruct (in_core_snd (get_collections_user host u) s) as [-> _]);
    try (destruct (in_core_snd (get_users host) s) as [-> _]).
  - destruct (in_core_snd (post_auth_register host b) s) as [-> _].
    pose proof (post_auth_register_outcome host b (core s)) as Ho.
    destruct (post_auth_register host b (core s)) as [resp w'].
    destruct Ho as [[_ Hu] | [[_ Hu] | (x & _ & Hu & Ht & _)]];
      [left; exact Hu | left; exact Hu | right; exists x; split; assumption].
  - left. exact (f_equal (fun x => fst (fst (fst x)))
                         (keeps_post_auth_login host b (core s))).
  - left. apply keeps_post_collections_users.
  - left. exact (f_equal (fun x => fst (fst (fst x)))
                         (keeps_get_collections host (core s))).
  - left. exact (f_equal (fun x => fst (fst (fst x)))
                         (keeps_get_collections_user host u (core s))).
  - left. apply get_centers_effect.
  - left. apply get_tutorials_effect.
  - left. exact (f_equal (fun x => fst (fst (fst x)))
                         (keeps_get_users host (core s))).
Qed.

Lemma handle_collections (r : Request) (s : Server) :
  collections (core (snd (handle host foreign_view r s))) =
  collections (core s) \/
  exists c, collections (core (snd (handle host foreign_view r s))) =
            (collections (core s) ++ [c])%list /\
            c_status c = "pending".
Proof.
  destruct r as [b|b|b| |u| | |]; cbn [handle];
    try (destruct (in_core_snd (post_auth_register host b) s) as [-> _]);
    try (destruct (in_core_snd (post_auth_login host b) s) as [-> _]);
    try (destruct (in_core_snd (get_collections host) s) as [-> _]);
    try (destruct (in_core_snd (get_collections_user host u) s) as [-> _]);
    try (destruct (in_core_snd (get_users host) s) as [-> _]).
  - left. apply keeps_post_auth_register_collections.
  - left. exact (f_equal (fun x => snd (fst (fst x)))
                         (keeps_post_auth_login host b (core s))).
  - destruct (in_core_snd (post_collections host b) s) as [-> _].
    apply post_collections_effect.
  - left. exact (f_equal (fun x => snd (fst (fst x)))
                         (keeps_get_collections host (core s))).
  - left. exact (f_equal (fun x => snd (fst (fst x)))
                         (keeps_get_collections_user host u (core s))).
  - left. apply get_centers_effect.
  - left. apply get_tutorials_effect.
  - left. exact (f_equal (fun x => snd (fst (fst x)))
                         (keeps_get_users host (core s))).
Qed.

Lemma handle_other (r : Request) (s : Server) :
  other s <> [] -> other (snd (handle host foreign_view r s)) = other s.
Proof.
  intros Hne. destruct r as [b|b|b| |u| | |]; cbn [handle];
    try apply in_core_snd.
  - apply get_centers_nonempty, Hne.
  - apply get_tutorials_nonempty, Hne.
Qed.

Lemma get_centers_named (s : Server) :
  named_status (fst (get_centers host foreign_view s)).
Proof.
  open_server s; destruct ot as [|d ot];
    eapply named_status_intro; try reflexivity; cbn; tauto.
Qed.

Lemma get_tutorials_named (s : Server) :
  named_status (fst (get_tutorials host foreign_view s)).
Proof.
  open_server s; destruct ot as [|d ot];
    eapply named_status_intro; try reflexivity; cbn; tauto.
Qed.

Lemma handle_named (r : Request) (s : Server) :
  named_status (fst (handle host foreign_view r s)).
Proof.
  destruct r as [b|b|b| |u| | |]; cbn [handle]; rewrite ?in_core_fst.
  - apply post_auth_register_named.
  - apply post_auth_login_named.
  - apply post_collections_named.
  - apply get_collections_named.
  - apply get_collections_user_named.
  - apply get_centers_named.
  - apply get_tutorials_named.
  - apply get_users_named.
Qed.

Lemma NoDup_snoc {A} (l : list A) (a : A) :
  NoDup l -> ~ In a l -> NoDup (l ++ [a]).
Proof.
  intros Hl Ha. induction Hl as [|x l Hx Hl IH]; cbn.
  - constructor; [intros []|constructor].
  - constructor.
    + intros Hin. apply in_app_or in Hin. destruct Hin as [Hin|[<-|[]]].
      * apply Hx, Hin.
      * apply Ha. left. reflexivity.
    + apply IH. intros Hin. apply Ha. right. exact Hin.
Qed.

(** X18. Emails stay unique. If no two stored users share an email, then
    after any sequence of requests to the eight routes, whatever they
    carry and whatever the store does, no two stored users share an
    email. *)
Theorem X18_emails_stay_unique (rs : list Request) (s : Server) :
  emails_unique s -> emails_unique (snd (serve host foreign_view rs s)).
Proof.
  apply serve_invariant. clear rs s. intros r s Hs. unfold emails_unique in *.
  destruct (handle_users r s) as [-> | (u & -> & Ht)]; [exact Hs|].
  rewrite map_app. cbn. apply NoDup_snoc; [exact Hs|].
  intros Hin. rewrite (email_taken_present _ _ Hin) in Ht. discriminate.
Qed.

(** X19. Status stays "pending". If every stored collection record is
    pending, then after any sequence of requests every stored collection
    record is pending: no route writes another status. *)
Theorem X19_status_stays_pending (rs : list Request) (s : Server) :
  all_pending s -> all_pending (snd (serve host foreign_view rs s)).
Proof.
  apply serve_invariant. clear rs s. intros r s Hs. unfold all_pending in *.
  destruct (handle_collections r s) as [-> | (c & -> & Hc)]; [exact Hs|].
  apply Forall_app. split; [exact Hs|]. constructor; [exact Hc|constructor].
Qed.

(** X20. Nothing stored is ever changed or removed. After any sequence
    of requests the stored users are the earlier ones, in order, followed
    by the new ones, and likewise the collection records; and a
    collection "other" that was not empty is exactly as it was. *)
Theorem X20_stores_only_grow (rs : list Request) (s : Server) :
  (exists us, users (core (snd (serve host foreign_view rs s))) =
              (users (core s) ++ us)%list) /\
  (exists cs, collections (core (snd (serve host foreign_view rs s))) =
              (collections (core s) ++ cs)%list) /\
  (other s <> [] -> other (snd (serve host foreign_view rs s)) = other s).
Proof.
  revert s. induction rs as [|r rs IH]; intros s.
  - cbn. split; [exists []; symmetry; apply app_nil_r|].
    split; [exists []; symmetry; apply app_nil_r|]. reflexivity.
  - rewrite serve_cons. cbn [snd].
    destruct (IH (snd (handle host foreign_view r s)))
      as ((us & Hu) & (cs & Hc) & Ho).
    split; [|split].
    + rewrite Hu. destruct (handle_users r s) as [-> | (u & -> & _)].
      * exists us. reflexivity.
      * exists (u :: us). rewrite <- app_assoc. reflexivity.
    + rewrite Hc. destruct (handle_collections r s) as [-> | (c & -> & _)].
      * exists cs. reflexivity.
      * exists (c :: cs). rewrite <- app_assoc. reflexivity.
    + intros Hne. pose proof (handle_other r s Hne) as Hsame.
      rewrite Ho; [exact Hsame|]. rewrite Hsame. exact Hne.
Qed.

(** X21. Every request is answered. Serving any sequence of requests
    gives one response per request, none of them an uncaught error, each
    with status 200, 201, 400 or 500. *)
Theorem X21_every_request_answered (rs : list Request) (s : Server) :
  List.length (fst (serve host foreign_view rs s)) = List.length rs /\
  Forall named_status (fst (serve host foreign_view rs s)).
Proof.
  revert s. induction rs as [|r rs IH]; intros s.
  - cbn. split; [reflexivity|constructor].
  - rewrite serve_cons. cbn [fst List.length].
    destruct (IH (snd (handle host foreign_view r s))) as [Hl Hf].
    split; [rewrite Hl; reflexivity|].
    constructor; [apply handle_named | exact Hf].
Qed.

End Seeding.

(* ================================================================== *)
(** ** The further properties at work on the example host *)

Lemma X2_witness :
  calls_up 2 empty_world /\
  fst (post_auth_register test_host alice_registration empty_world) =
  inr (mkResponse 201
         (JObj [("success", JBool true);
                ("message", JStr "User registered successfully");
                ("user", JObj [("_id", JStr "oid0"); ("name", JStr "A");
                               ("email", JStr "a@x.com");
                               ("phone", JStr "1")])])) /\
  users (snd (post_auth_register test_host alice_registration empty_world)) =
  [mkUser "oid0" "A" "a@x.com" "$2a$10$0.p1" "1" 1714554000000 0].
Proof.
  split; [exact I|].
  destruct (X2_register_creates_user test_host alice_registration empty_world
              "A" "a@x.com" "p1" "1")
    as (Hr & Hu & _);
    try reflexivity; try discriminate; try exact I.
  - intros [].
  - split; [exact Hr | exact Hu].
Defined.

Lemma X3_witness :
  store_up alice_world /\
  fst (post_auth_login test_host alice_registration alice_world) =
  inr (mkResponse 200
         (JObj [("success", JBool true);
                ("token", JStr "jwt.oid0.1714554000000");
                ("user", JObj [("_id", JStr "oid0"); ("name", JStr "A");
                               ("email", JStr "a@x.com");
                               ("phone", JStr "1")])])) /\
  fst (post_auth_login test_host wrong_password_login alice_world) =
  inr invalid_credentials_response.
Proof.
  split; [exact I|]. split.
  - exact (X3_login_decision test_host alice_registration alice_world
             "a@x.com" "p1" eq_refl eq_refl I).
  - exact (X3_login_decision test_host wrong_password_login alice_world
             "a@x.com" "p2" eq_refl eq_refl I).
Defined.

Lemma email_only_no_password (p : string) :
  lookup "password" email_only_login <> JStr p.
Proof. discriminate. Defined.

Lemma X4_witness :
  lookup "email" email_only_login = JStr "a@x.com" /\
  store_up alice_world /\ store_up empty_world /\
  fst (post_auth_login test_host email_only_login alice_world) =
  inr server_error_response /\
  fst (post_auth_login test_host email_only_login empty_world) =
  inr invalid_credentials_response.
Proof.
  split; [reflexivity|]. split; [exact I|]. split; [exact I|]. split.
  - apply (X4_login_without_password test_host email_only_login alice_world
             "a@x.com" eq_refl email_only_no_password I).
    cbn. tauto.
  - apply (X4_login_without_password test_host email_only_login empty_world
             "a@x.com" eq_refl email_only_no_password I).
    intros [].
Defined.

Lemma X5_witness :
  calls_up 3 empty_world /\
  bcrypt_compare test_host "p1" "$2a$10$0.p1" = true /\
  fst (post_auth_login test_host alice_registration
         (snd (post_auth_register test_host alice_registration empty_world)))
  = inr (mkResponse 200
           (JObj [("success", JBool true);
                  ("token", JStr "jwt.oid0.1714554000000");
                  ("user", JObj [("_id", JStr "oid0"); ("name", JStr "A");
                                 ("email", JStr "a@x.com");
                                 ("phone", JStr "1")])])).
Proof.
  split; [exact I|]. split; [reflexivity|].
  apply (X5_register_then_login test_host alice_registration
           alice_registration empty_world "A" "a@x.com" "p1" "1");
    try reflexivity; try discriminate; try exact I.
  intros [].
Defined.

Lemma X6_witness :
  exists name email password phone,
    lookup "password" alice_registration = JStr password /\
    users (snd (post_auth_register test_host alice_registration empty_world))
    = (users empty_world ++
       [mkUser (new_object_id test_host (next_oid empty_world)) name email
               (bcrypt_hash test_host password
                  (bcrypt_genSalt test_host 10 (entropy empty_world)))
               phone (now empty_world) 0])%list.
Proof.
  destruct (X6_register_201_only_if test_host alice_registration empty_world
              (snd (post_auth_register test_host alice_registration
                                       empty_world))
              (mkResponse 201
                 (JObj [("success", JBool true);
                        ("message", JStr "User registered successfully");
                        ("user", JObj [("_id", JStr "oid0");
                                       ("name", JStr "A");
                                       ("email", JStr "a@x.com");
                                       ("phone", JStr "1")])]))
              eq_refl eq_refl)
    as (name & email & password & phone & _ & _ & _ & _ & Hp & _ & _ & _ & Hu).
  exists name, email, password, phone. split; [exact Hp | exact Hu].
Defined.

Lemma full_request_is_pickup :
  pickup_request test_host full_request "oid0" "A" "Plastic" "Bole"
                 "Bole Road, Addis Ababa" 1714554000000 (Finite 5).
Proof.
  unfold pickup_request.
  repeat split; try reflexivity; try discriminate.
  exists "2024-05-01T09:00:00.000Z".
  repeat split; try reflexivity; discriminate.
Defined.

Lemma X7_witness :
  store_up empty_world /\
  collections (snd (post_collections test_host full_request empty_world)) =
  [mkCollection "oid0" "oid0" "A" "Plastic" "Bole" "Bole Road, Addis Ababa"
                1714554000000 (Finite 5) (Finite 50) "pending"
                1714554000000 0].
Proof.
  split; [exact I|].
  destruct (X7_created_as_sent test_host full_request empty_world
              "oid0" "A" "Plastic" "Bole" "Bole Road, Addis Ababa"
              1714554000000 (Finite 5) (Finite 50)
              full_request_is_pickup eq_refl eq_refl I)
    as (_ & Hc & _).
  exact Hc.
Defined.

Lemma null_points_request_is_pickup :
  pickup_request test_host null_points_request "oid0" "A" "Plastic" "Bole"
                 "Bole Road, Addis Ababa" 1714554000000 (Finite 5).
Proof.
  unfold pickup_request.
  repeat split; try reflexivity; try discriminate.
  exists "2024-05-01T09:00:00.000Z".
  repeat split; try reflexivity; discriminate.
Defined.

Lemma X8_witness :
  lookup "rewardPoints" null_points_request = JNull /\
  exists c,
    status_of (fst (post_collections test_host null_points_request
                                     empty_world)) = Some 201%nat /\
    collections (snd (post_collections test_host null_points_request
                                       empty_world)) = [c] /\
    c_rewardPoints c = Finite 0.
Proof.
  split; [reflexivity|].
  destruct (X8_points_from_null_or_boolean test_host null_points_request
              empty_world "oid0" "A" "Plastic" "Bole"
              "Bole Road, Addis Ababa" 1714554000000 (Finite 5) JNull 0%Q
              null_points_request_is_pickup eq_refl
              (or_introl (conj eq_refl eq_refl)) I)
    as (c & Hs & Hc & Hr & _).
  exists c. repeat split; assumption.
Defined.

Lemma X9_witness :
  all_present heavy_request = true /\
  numeric test_host (lookup "kilograms" heavy_request) = false /\
  exists e,
    fst (post_collections test_host heavy_request empty_world) =
    inr (mkResponse 500
           (JObj [("success", JBool false);
                  ("message", JStr ("Server error: " ++ err_message e));
                  ("stack", JStr (err_stack e))])) /\
    collections (snd (post_collections test_host heavy_request empty_world))
    = [].
Proof.
  split; [reflexivity|]. split; [reflexivity|].
  destruct (X9_weight_not_numeric test_host heavy_request empty_world
              eq_refl eq_refl) as (e & Hr & Hc & _).
  exists e. split; [exact Hr | exact Hc].
Defined.

Lemma X10_witness :
  status_of (fst (post_collections test_host full_request three_pickups)) =
  Some 201%nat /\
  store_up (snd (post_collections test_host full_request three_pickups)) /\
  exists c all,
    fst (get_collections test_host
           (snd (post_collections test_host full_request three_pickups))) =
    inr (mkResponse 200
           (JObj [("success", JBool true);
                  ("collections",
                   JArr (map (collection_json test_host) all))])) /\
    In c all /\ c_userId c = "oid0".
Proof.
  split; [reflexivity|]. split; [exact I|].
  destruct (X10_created_is_listed test_host full_request three_pickups
              eq_refl I)
    as (c & all & mine & Hr & Hall & Hin & _).
  exists c, all. split; [exact Hall|]. split; [exact Hin|].
  cbn in Hr. injection Hr as _ Hr _. symmetry. exact Hr.
Defined.

Lemma X11_witness :
  map without_password (users alice_world) =
  map without_password (users alice_rehashed_world) /\
  faults alice_world = faults alice_rehashed_world /\
  users alice_world <> users alice_rehashed_world /\
  fst (get_users test_host alice_world) =
  fst (get_users test_host alice_rehashed_world).
Proof.
  split; [reflexivity|]. split; [reflexivity|]. split; [discriminate|].
  exact (X11_list_users_ignores_hashes test_host alice_world
           alice_rehashed_world eq_refl eq_refl).
Defined.

Lemma X12_witness :
  users (snd (post_auth_register test_host alice_registration alice_world)) =
  users alice_world /\
  exists u, users (snd (post_auth_register test_host alice_registration
                                           empty_world)) =
            (users empty_world ++ [u])%list.
Proof.
  destruct (X12_stored_iff_201 test_host alice_registration alice_world)
    as (_ & Hno & _).
  destruct (X12_stored_iff_201 test_host alice_registration empty_world)
    as (Hyes & _).
  split; [apply Hno; discriminate | apply Hyes; reflexivity].
Defined.

Lemma three_pickups_none_of_u3 (c : CollectionDoc) :
  In c (collections three_pickups) -> c_userId c <> "u3".
Proof.
  intros [<-|[<-|[<-|[]]]]; discriminate.
Defined.

Lemma X13_witness :
  store_up three_pickups /\
  fst (get_collections_user test_host "u3" three_pickups) =
  inr (mkResponse 200 (JObj [("success", JBool true);
                             ("collections", JArr [])])).
Proof.
  split; [exact I|].
  destruct (X13_empty_listings test_host three_pickups "u3" I) as [H _].
  exact (H three_pickups_none_of_u3).
Defined.

Lemma three_pickups_older :
  Forall (fun x => (c_createdAt x < now three_pickups)%Z)
         (collections three_pickups).
Proof. repeat constructor. Defined.

Lemma X14_witness :
  status_of (fst (post_collections test_host full_request three_pickups)) =
  Some 201%nat /\
  exists c earlier,
    c_id c = "oid3" /\
    fst (get_collections test_host
           (snd (post_collections test_host full_request three_pickups))) =
    inr (mkResponse 200
           (JObj [("success", JBool true);
                  ("collections",
                   JArr (collection_json test_host c
                         :: map (collection_json test_host) earlier))])) /\
    Permutation earlier (collections three_pickups).
Proof.
  split; [reflexivity|].
  destruct (X14_created_is_listed_first test_host full_request three_pickups
              eq_refl three_pickups_older I) as (c & earlier & Hr & Hl & Hp & _).
  exists c, earlier. split; [|split; [exact Hl | exact Hp]].
  cbn in Hr. injection Hr as Hr _. symmetry. exact Hr.
Defined.

Lemma X15_witness :
  other empty_server = [] /\ calls_up 3 (core empty_server) /\
  map is_center (other (snd (get_centers test_host plain_view empty_server)))
  = [true; true; true] /\
  map is_tutorial
      (other (snd (get_tutorials test_host plain_view empty_server)))
  = [true; true; true].
Proof.
  split; [reflexivity|]. split; [exact I|].
  destruct (X15_seed_on_empty test_host plain_view empty_server eq_refl I)
    as ((_ & Hc) & (_ & Ht)).
  rewrite Hc, Ht. split; reflexivity.
Defined.

Lemma X16_witness :
  let s := snd (get_tutorials test_host plain_view empty_server) in
  other s <> [] /\
  other (snd (get_centers test_host plain_view s)) = other s /\
  other (snd (get_tutorials test_host plain_view s)) = other s.
Proof.
  cbv zeta.
  assert (Hne : other (snd (get_tutorials test_host plain_view empty_server))
                <> []) by discriminate.
  split; [exact Hne|].
  destruct (X16_seed_only_when_empty test_host plain_view
              (snd (get_tutorials test_host plain_view empty_server)))
    as (_ & _ & H).
  exact (H Hne).
Defined.

Lemma X17_witness :
  other empty_server = [] /\ calls_up 5 (core empty_server) /\
  forallb is_tutorial
    (other (snd (get_centers test_host plain_view
                   (snd (get_tutorials test_host plain_view empty_server)))))
  = true /\
  List.length
    (other (snd (get_centers test_host plain_view
                   (snd (get_tutorials test_host plain_view empty_server)))))
  = 3%nat.
Proof.
  split; [reflexivity|]. split; [exact I|].
  destruct (X17_first_route_wins test_host plain_view empty_server eq_refl I)
    as ((_ & Ho & Hall) & _).
  split; [exact Hall|]. rewrite Ho. reflexivity.
Defined.

Lemma X18_witness :
  emails_unique empty_server /\
  emails_unique (snd (serve test_host plain_view busy_day empty_server)) /\
  List.length
    (users (core (snd (serve test_host plain_view busy_day empty_server))))
  = 1%nat.
Proof.
  assert (H0 : emails_unique empty_server) by constructor.
  split; [exact H0|]. split; [|reflexivity].
  exact (X18_emails_stay_unique test_host plain_view busy_day empty_server H0).
Defined.

Lemma X19_witness :
  all_pending empty_server /\
  all_pending (snd (serve test_host plain_view busy_day empty_server)) /\
  List.length
    (collections
       (core (snd (serve test_host plain_view busy_day empty_server))))
  = 1%nat.
Proof.
  assert (H0 : all_pending empty_server) by constructor.
  split; [exact H0|]. split; [|reflexivity].
  exact (X19_status_stays_pending test_host plain_view busy_day empty_server
           H0).
Defined.

Lemma X20_witness :
  let s := snd (get_tutorials test_host plain_view empty_server) in
  other s <> [] /\
  other (snd (serve test_host plain_view busy_day s)) = other s /\
  exists us, users (core (snd (serve test_host plain_view busy_day s))) =
             (users (core s) ++ us)%list.
Proof.
  cbv zeta.
  assert (Hne : other (snd (get_tutorials test_host plain_view empty_server))
                <> []) by discriminate.
  split; [exact Hne|].
  destruct (X20_stores_only_grow test_host plain_view busy_day
              (snd (get_tutorials test_host plain_view empty_server)))
    as (Hu & _ & Ho).
  split; [exact (Ho Hne) | exact Hu].
Defined.

(** With the connection refused, listing answers the fixed message and a
    valid creation request answers with the store's message; when only
    the insert is refused, a fresh registration answers the fixed message
    and the users are as before. *)
Lemma C8_witness :
  store_fails network_error failing_store /\
  fst (get_collections test_host failing_store) = inr server_error_response /\
  fst (post_collections test_host full_request failing_store) =
  inr (mkResponse 500
         (JObj [("success", JBool false);
                ("message", JStr "Server error: connection refused");
                ("stack", JStr "MongoNetworkError: connection refused")])) /\
  faults refusing_insert = [None; Some network_error] /\
  fst (post_auth_register test_host bob_registration refusing_insert) =
  inr server_error_response /\
  users (snd (post_auth_register test_host bob_registration refusing_insert))
  = [alice] /\
  fst (post_auth_login_try test_host wrong_password_login failing_store) =
  inl network_error /\
  fst (post_auth_login test_host wrong_password_login failing_store) =
  inr server_error_response.
Proof.
  assert (Hf : store_fails network_error failing_store)
    by (exists []; reflexivity).
  split; [exact Hf|].
  destruct (C8_store_failure_envelopes test_host network_error)
    as (Hfirst & Hsecond & _ & Hlogin & _).
  destruct (Hfirst failing_store Hf) as (_ & _ & Hall & _ & Hcreate).
  split; [exact Hall|].
  split.
  { destruct (Hcreate full_request eq_refl full_request_text eq_refl eq_refl
                      eq_refl) as (H & _).
    exact H. }
  split; [reflexivity|].
  destruct (Hsecond refusing_insert [] eq_refl) as (Hany & Hfresh).
  split.
  { apply (Hfresh bob_registration "b@x.com"); [reflexivity|].
    cbn. intros [H|[]]. discriminate H. }
  split; [exact (proj2 (Hany bob_registration))|].
  split; [reflexivity|].
  apply (Hlogin wrong_password_login failing_store
           (snd (post_auth_login_try test_host wrong_password_login
                   failing_store))).
  reflexivity.
Defined.

(** Alice registers on an empty store: the response shows her new
    identifier, name, email and phone, and is the same when she submits
    another password. Her login and the users listing are answered the
    same on a store that keeps another hash for her. *)
Lemma C4_witness :
  exists r1 r2 r3 r4 r5 r6 w1 w2 w3 w4 w5 w6,
    post_auth_register test_host alice_registration empty_world =
    (inr r1, w1) /\
    post_auth_register test_host alice_other_registration empty_world =
    (inr r2, w2) /\
    post_auth_login test_host alice_registration alice_world = (inr r3, w3) /\
    post_auth_login test_host alice_other_login alice_rehashed_world =
    (inr r4, w4) /\
    get_users test_host alice_world = (inr r5, w5) /\
    get_users test_host alice_rehashed_world = (inr r6, w6) /\
    status r1 = 201%nat /\ status r2 = 201%nat /\
    status r3 = 200%nat /\ status r4 = 200%nat /\
    status r5 = 200%nat /\ status r6 = 200%nat /\
    users w1 <> users w2 /\
    users alice_world <> users alice_rehashed_world /\
    get_prop "user" (body r1) =
    JObj [("_id", JStr "oid0"); ("name", JStr "A"); ("email", JStr "a@x.com");
          ("phone", JStr "1")] /\
    mentions_key "password" (body r3) = false /\
    mentions_key "password" (body r5) = false /\
    r1 = r2 /\ r3 = r4 /\ r5 = r6.
Proof.
  destruct (C4_no_password_in_responses test_host)
    as (Hreg & Hlogin & Hlist & Hreg2 & Hlogin2 & Hlist2).
  do 12 eexists.
  split; [reflexivity|]. split; [reflexivity|]. split; [reflexivity|].
  split; [reflexivity|]. split; [reflexivity|]. split; [reflexivity|].
  split; [reflexivity|]. split; [reflexivity|]. split; [reflexivity|].
  split; [reflexivity|]. split; [reflexivity|]. split; [reflexivity|].
  split; [cbn; discriminate|]. split; [cbn; discriminate|].
  split.
  { destruct (Hreg alice_registration empty_world _ _ eq_refl eq_refl)
      as (_ & name & email & phone & Hn & He & Hp & ->).
    cbn in Hn, He, Hp. injection Hn as <-. injection He as <-.
    injection Hp as <-. reflexivity. }
  split.
  { exact (proj1 (Hlogin alice_registration alice_world _ _ eq_refl
                    eq_refl)). }
  split.
  { exact (proj1 (Hlist alice_world _ _ eq_refl eq_refl)). }
  split.
  { apply (Hreg2 alice_registration alice_other_registration empty_world
             _ _ _ _ eq_refl eq_refl eq_refl eq_refl eq_refl eq_refl
             eq_refl). }
  split.
  { apply (Hlogin2 alice_registration alice_other_login alice_world
             alice_rehashed_world _ _ _ _ eq_refl eq_refl eq_refl eq_refl
             eq_refl eq_refl eq_refl). }
  apply (Hlist2 alice_world alice_rehashed_world _ _ _ _ eq_refl eq_refl
           eq_refl eq_refl eq_refl).
Defined.
